(** * Reconciliation managers of the EC2 VPN Ansible modules

    Shallow embedding of [library/ec2_customer_gateway.py],
    [library/ec2_vpn_gateway.py] and [library/ec2_vpn_connection.py].
    The fourth module, [library/ec2_vpc_facts.py], only gathers facts about
    a VPC and has no manager; of it the function [find_vpc] is embedded
    (module [VpcFacts]).

    Each module builds a manager object, looks the remote resource up in
    its constructor, drives it with [ensure_ok] or [ensure_gone] and reports
    with [get_info].  The boto connection is the only way the code reaches
    the outside: it is a parameter here (class [Backend]), every call
    through it is recorded, and an exception raised by a call or by the
    Python code itself is an outcome of the run, so that the state of the
    manager at the point of the abort can still be inspected.

    The tags are a mapping from strings to strings.  The argument spec of
    the modules asks for a dict and nothing more: a tag value that is not
    hashable, on which [set(self.tags.items())] raises, is outside this
    model, and so is any exception of a remote call other than the
    connection's response error. *)

From stdpp Require Import gmap strings list fin_maps.
From Stdlib Require Import ZArith.

Local Open Scope string_scope.
Local Open Scope list_scope.

(** ** Python values and truthiness *)

Inductive PyVal :=
| PyNone
| PyStr (s : string)
| PyInt (z : Z)
| PyBool (b : bool).

#[global] Instance PyVal_eq_dec : EqDecision PyVal.
Proof. solve_decision. Defined.

Definition py_str (o : option string) : PyVal :=
  match o with Some s => PyStr s | None => PyNone end.

(** [if s:] for a value that is [None] or a [str]. *)
Definition truthy (o : option string) : bool :=
  match o with
  | Some s => negb (String.eqb s "")
  | None => false
  end.

(** [if d:] for a [dict]. *)
Definition truthy_dict (d : gmap string string) : bool :=
  negb (bool_decide (d = ∅)).

(** [if l:] for a value that is [None] or a [list]. *)
Definition truthy_list {A} (o : option (list A)) : bool :=
  match o with
  | Some (_ :: _) => true
  | _ => false
  end.

(** ** Remote objects returned by boto *)

Record Tag := mkTag { tag_name : string; tag_value : string }.

Record CustomerGateway := mkCustomerGateway {
  cgw_id : string;
  cgw_ip_address : PyVal;
  cgw_bgp_asn : PyVal;
  cgw_type : PyVal
}.

Record VpnGateway := mkVpnGateway {
  vgw_id : string;
  vgw_availability_zone : PyVal;
  vgw_type : PyVal
}.

Record VpnConnection := mkVpnConnection {
  vpn_id : string;
  vpn_state : PyVal;
  vpn_customer_gateway_configuration : PyVal;
  vpn_type : PyVal;
  vpn_customer_gateway_id : PyVal;
  vpn_vpn_gateway_id : PyVal;
  vpn_tunnels : string;          (* [str(check_aws.tunnels)] *)
  vpn_options : PyVal;
  vpn_static_routes : PyVal
}.

#[global] Instance Tag_eq_dec : EqDecision Tag.
Proof. solve_decision. Defined.
#[global] Instance CustomerGateway_eq_dec : EqDecision CustomerGateway.
Proof. solve_decision. Defined.
#[global] Instance VpnGateway_eq_dec : EqDecision VpnGateway.
Proof. solve_decision. Defined.
#[global] Instance VpnConnection_eq_dec : EqDecision VpnConnection.
Proof. solve_decision. Defined.

(** ** Tag dictionaries *)

(** [dict((t.name, t.value) for t in gettags)], and the loop
    [for tag in gettags: tagdict[tag.name] = tag.value]: a later tag of the
    same name overwrites an earlier one. *)
Definition tags_to_dict (ts : list Tag) : gmap string string :=
  foldl (fun d t => <[tag_name t := tag_value t]> d) ∅ ts.

(** [(key, value) in set(d.items())] *)
Definition item_in (kv : string * string) (d : gmap string string) : bool :=
  bool_decide (d !! kv.1 = Some kv.2).

(** [set(a.items()).issubset(set(b.items()))] *)
Definition items_issubset (a b : gmap string string) : bool :=
  forallb (fun kv => item_in kv b) (map_to_list a).

(** The dictionary [dictadd] of [_set_tags]:
    [for (key, value) in set(self.tags.items()):
       if (key, value) not in set(tagdict.items()): dictadd[key] = value] *)
Definition dictadd_of (tags tagdict : gmap string string) : gmap string string :=
  filter (fun kv => item_in kv tagdict = false) tags.

(** ** Calls through the boto connection *)

(** The three ways the modules list resources:
    no argument, [..._ids=[id]], and [filters={key: value}]. *)
Inductive Query :=
| QAll
| QIds (ids : list (option string))
| QFilter (key : string) (value : option string).

Inductive Call :=
| get_all_customer_gateways (q : Query)
| get_all_vpn_gateways (q : Query)
| get_all_vpn_connections (q : Query)
| get_all_tags (resource_id : option string)
| create_customer_gateway (type ip_address : option string) (bgp_asn : option Z)
| delete_customer_gateway (id : option string)
| create_vpn_gateway (type availability_zone : option string)
| delete_vpn_gateway (id : option string)
| attach_vpn_gateway (id vpc : option string)
| detach_vpn_gateway (id vpc : option string)
| enable_vgw_route_propagation (route : string) (id : option string)
| disable_vgw_route_propagation (route : string) (id : option string)
| create_vpn_connection (type cgw vpn_gw : option string) (static_routes_only : bool)
| delete_vpn_connection (id : option string)
| create_tags (resource : option string) (tags : gmap string string)
  (* offered by the connection, called by none of the managers *)
| delete_tags (resource : option string) (tags : gmap string string).

#[global] Instance Query_eq_dec : EqDecision Query.
Proof. solve_decision. Defined.
#[global] Instance Call_eq_dec : EqDecision Call.
Proof. solve_decision. Defined.

(** What a call evaluates to when it does not raise.  Results that the code
    only tests with [if result:] are kept as their truth value; a create
    call yields the new object, [None] standing for a falsy result. *)
Definition ret_type (c : Call) : Type :=
  match c with
  | get_all_customer_gateways _ => list CustomerGateway
  | get_all_vpn_gateways _ => list VpnGateway
  | get_all_vpn_connections _ => list VpnConnection
  | get_all_tags _ => list Tag
  | create_customer_gateway _ _ _ => option CustomerGateway
  | create_vpn_gateway _ _ => option VpnGateway
  | create_vpn_connection _ _ _ _ => option VpnConnection
  | _ => bool
  end.

Definition is_create (c : Call) : bool :=
  match c with
  | create_customer_gateway _ _ _ | create_vpn_gateway _ _
  | create_vpn_connection _ _ _ _ => true
  | _ => false
  end.

Definition is_delete (c : Call) : bool :=
  match c with
  | delete_customer_gateway _ | delete_vpn_gateway _
  | delete_vpn_connection _ => true
  | _ => false
  end.

Definition is_create_tags (c : Call) : bool :=
  match c with create_tags _ _ => true | _ => false end.

Definition is_get_all_tags (c : Call) : bool :=
  match c with get_all_tags _ => true | _ => false end.

Definition is_delete_tags (c : Call) : bool :=
  match c with delete_tags _ _ => true | _ => false end.

Definition is_attach (c : Call) : bool :=
  match c with attach_vpn_gateway _ _ => true | _ => false end.

Definition is_detach (c : Call) : bool :=
  match c with detach_vpn_gateway _ _ => true | _ => false end.

Definition is_route_propagation (c : Call) : bool :=
  match c with
  | enable_vgw_route_propagation _ _ | disable_vgw_route_propagation _ _ => true
  | _ => false
  end.

(** The calls that only read: the listings and the tag listing. *)
Definition is_read (c : Call) : bool :=
  match c with
  | get_all_customer_gateways _ | get_all_vpn_gateways _
  | get_all_vpn_connections _ | get_all_tags _ => true
  | _ => false
  end.

Definition is_mutating (c : Call) : bool := negb (is_read c).

Definition count (P : Call -> bool) (cs : list Call) : nat :=
  length (List.filter P cs).

(** ** The connection *)

Inductive Reply (A : Type) :=
| Ret (a : A)
| Err.                     (* the call raised (boto: [EC2ResponseError]) *)
Arguments Ret {A} a.
Arguments Err {A}.

(** A connection over a remote world [W].  Every call may move the world,
    the reads too: other clients act on the same account.
    [connect_to_aws] is [Some msg] when opening the connection raises
    [NoAuthHandlerFound] with text [msg]. *)
Class Backend (W : Type) := {
  respond : forall c : Call, W -> Reply (ret_type c) * W;
  connect_to_aws : W -> option string
}.

(** ** Runs: manager state, remote world, issued calls, exceptions *)

Inductive Exn :=
| EC2ResponseError
| IndexError
| UnboundLocalError (var : string)
| TypeError
| ModuleFailure (msg : string).     (* [module.fail_json(msg=...)] exits *)

Inductive Outcome (A : Type) :=
| Return (a : A)
| Raise (e : Exn).
Arguments Return {A} a.
Arguments Raise {A} e.

#[projections(primitive=yes)]
Record Run (W S A : Type) := mkRun {
  outcome : Outcome A;
  self_after : S;
  world_after : W;
  issued : list Call
}.
Arguments mkRun {W S A}.
Arguments outcome {W S A}.
Arguments self_after {W S A}.
Arguments world_after {W S A}.
Arguments issued {W S A}.

Definition M (W S A : Type) : Type := S -> W -> Run W S A.

Section Effects.
Context {W : Type} `{!Backend W} {S : Type}.

Definition ret {A} (a : A) : M W S A :=
  fun s w => mkRun (Return a) s w [].

Definition raise {A} (e : Exn) : M W S A :=
  fun s w => mkRun (Raise e) s w [].

Definition fail_json {A} (msg : string) : M W S A :=
  raise (ModuleFailure msg).

(** The run [r], preceded by the calls [cs]. *)
Definition after {A} (cs : list Call) (r : Run W S A) : Run W S A :=
  mkRun (outcome r) (self_after r) (world_after r) (cs ++ issued r).

Definition bind {A B} (m : M W S A) (k : A -> M W S B) : M W S B :=
  fun s w =>
    let r := m s w in
    match outcome r with
    | Return a => after (issued r) (k a (self_after r) (world_after r))
    | Raise e => mkRun (Raise e) (self_after r) (world_after r) (issued r)
    end.

Definition get_self : M W S S :=
  fun s w => mkRun (Return s) s w [].

Definition modify (f : S -> S) : M W S unit :=
  fun s w => mkRun (Return tt) (f s) w [].

(** [self.aws_conn.<c>]: the call is recorded whether it raises or not. *)
Definition call (c : Call) : M W S (ret_type c) :=
  fun s w =>
    match respond c w with
    | (Ret a, w') => mkRun (Return a) s w' [c]
    | (Err, w') => mkRun (Raise EC2ResponseError) s w' [c]
    end.

(** [try: body except: handler] with a bare [except]. *)
Definition try_except {A} (body handler : M W S A) : M W S A :=
  fun s w =>
    let r := body s w in
    match outcome r with
    | Return _ => r
    | Raise _ => after (issued r) (handler (self_after r) (world_after r))
    end.

(** [l[0]] *)
Definition index0 {A} (l : list A) : M W S A :=
  match l with
  | x :: _ => ret x
  | [] => raise IndexError
  end.
End Effects.

Notation "'let*' x ':=' m 'in' k" := (bind m (fun x => k))
  (at level 10, x name, m at level 100, k at level 200, only parsing).

(** ** Code shared verbatim by the three managers *)

Section Shared.
Context {W : Type} `{!Backend W} {S : Type}.

(** [_get_aws_connection] *)
Definition _get_aws_connection : M W S unit :=
  fun s w =>
    match connect_to_aws w with
    | None => ret tt s w
    | Some msg => fail_json msg s w
    end.

(** The tag search loop of the lookup:
    [for r in rs:
       r_tags = dict(... get_all_tags(filters={'resource-id': r.id}))
       if self.tags and set(self.tags.items()).issubset(set(r_tags.items())):
           found.append(r)] *)
Fixpoint found_by_tags {R} (rid : R -> string) (tags : gmap string string)
    (rs : list R) (found : list R) : M W S (list R) :=
  match rs with
  | [] => ret found
  | r :: rest =>
      let* ts := call (get_all_tags (Some (rid r))) in
      let r_tags := tags_to_dict ts in
      if truthy_dict tags && items_issubset tags r_tags
      then found_by_tags rid tags rest (found ++ [r])
      else found_by_tags rid tags rest found
  end.

(** [_set_tags], given [self.id] and [self.tags].  It never assigns to
    [self]. *)
Definition set_tags_of (resource : option string)
    (tags : gmap string string) : M W S unit :=
  let* gettags := call (get_all_tags resource) in
  let tagdict := tags_to_dict gettags in
  let dictadd := dictadd_of tags tagdict in
  let* _ := (if truthy_dict dictadd
             then (let* tagger := call (create_tags resource dictadd) in ret tt)
             else ret tt) in
  let* gettags' := call (get_all_tags resource) in
  ret tt.
End Shared.

(** [state]: the argument spec admits only these two choices. *)
Inductive State := present | absent.

(** The report of [get_info], a dict literal in the order of the source. *)
Definition Info := list (string * PyVal).

Record Result := mkResult { res_changed : bool; res_info : Info }.

(** A local variable that an execution path may leave unassigned. *)
Inductive Local (A : Type) :=
| Unbound
| Bound (a : A).
Arguments Unbound {A}.
Arguments Bound {A} a.

(** ** [ec2_customer_gateway.py] *)

Module CustomerGatewayModule.

Record Params := mkParams {
  p_state : State;
  p_ip_address : option string;
  p_id : option string;
  p_bgp_asn : option Z;
  p_type : option string;
  p_tags : gmap string string;
  p_region : option string
}.

(** The attributes of [CustomerGatewayManager] that the code reads or
    writes after construction. *)
Record Manager := mkManager {
  ip_address : option string;
  id : option string;
  bgp_asn : option Z;
  type : option string;
  tags : gmap string string;
  changed : bool;
  status : string;
  cgw : option CustomerGateway
}.

Definition set_id (v : option string) (m : Manager) : Manager :=
  mkManager (ip_address m) v (bgp_asn m) (type m) (tags m)
            (changed m) (status m) (cgw m).
Definition set_changed (v : bool) (m : Manager) : Manager :=
  mkManager (ip_address m) (id m) (bgp_asn m) (type m) (tags m)
            v (status m) (cgw m).
Definition set_status (v : string) (m : Manager) : Manager :=
  mkManager (ip_address m) (id m) (bgp_asn m) (type m) (tags m)
            (changed m) v (cgw m).
Definition set_cgw (v : option CustomerGateway) (m : Manager) : Manager :=
  mkManager (ip_address m) (id m) (bgp_asn m) (type m) (tags m)
            (changed m) (status m) v.

(** The assignments of [__init__] that precede the connection and the
    lookup. *)
Definition fresh (p : Params) : Manager :=
  mkManager (p_ip_address p) (p_id p) (p_bgp_asn p) (p_type p) (p_tags p)
            false "gone" None.

Section Methods.
Context {W : Type} `{!Backend W}.
Local Abbreviation M := (M W Manager).

Definition _get_customer_gateway : M (option CustomerGateway) :=
  let* cgws := call (get_all_customer_gateways QAll) in
  let* self := get_self in
  if truthy (id self) then
    match List.find (fun c => bool_decide (id self = Some (cgw_id c))) cgws with
    | Some c =>
        let* _ := modify (set_status "ok") in
        ret (Some c)
    | None => ret None
    end
  else if truthy_dict (tags self) then
    let* found_cgws := found_by_tags cgw_id (tags self) cgws [] in
    if Nat.eqb (length found_cgws) 1 then
      let* c := index0 found_cgws in
      let* _ := modify (set_id (Some (cgw_id c))) in
      let* _ := modify (set_status "ok") in
      ret (Some c)
    else if Nat.ltb 1 (length found_cgws) then
      fail_json "Found more than one customer gateway based on the supplied criteria, aborting"
    else ret None
  else ret None.

Definition __init__ : M unit :=
  let* _ := _get_aws_connection in
  let* found := _get_customer_gateway in
  modify (set_cgw found).

Definition _create_cgw : M unit :=
  let* self := get_self in
  let* new := call (create_customer_gateway (type self) (ip_address self)
                                            (bgp_asn self)) in
  let* _ := modify (set_cgw new) in
  match new with
  | Some c =>
      let* _ := modify (set_id (Some (cgw_id c))) in
      let* _ := modify (set_changed true) in
      modify (set_status "created")
  | None => ret tt
  end.

Definition _delete_cgw : M unit :=
  let* self := get_self in
  let* result := call (delete_customer_gateway (id self)) in
  if (result : bool) then
    let* _ := modify (set_changed true) in
    modify (set_status "deleted")
  else ret tt.

Definition _set_tags : M unit :=
  let* self := get_self in
  set_tags_of (id self) (tags self).

Definition ensure_ok : M unit :=
  let* self := get_self in
  let* _ := match cgw self with
            | None => _create_cgw
            | Some _ => ret tt
            end in
  _set_tags.

Definition ensure_gone : M unit :=
  let* self := get_self in
  match cgw self with
  | Some _ => _delete_cgw
  | None => ret tt
  end.

Definition get_info : M Info :=
  let* self := get_self in
  let* check_aws :=
    try_except
      (if truthy (id self) then
         let* l := call (get_all_customer_gateways (QIds [id self])) in
         let* c := index0 l in
         ret (Bound (Some c))
       else if truthy (ip_address self) then
         let* l := call (get_all_customer_gateways
                           (QFilter "ipAddress" (ip_address self))) in
         let* c := index0 l in
         ret (Bound (Some c))
       else ret Unbound)
      (ret (Bound None)) in
  match check_aws with
  | Unbound => raise (UnboundLocalError "check_aws")
  | Bound None =>
      ret [("ip_address", py_str (ip_address self));
           ("id", py_str (id self));
           ("status", PyStr (status self))]
  | Bound (Some c) =>
      ret [("ip_address", cgw_ip_address c);
           ("id", PyStr (cgw_id c));
           ("bgp_asn", cgw_bgp_asn c);
           ("type", cgw_type c);
           ("status", PyStr (status self))]
  end.

Definition main (p : Params) : M Result :=
  if negb (truthy (p_region p)) then
    fail_json "Region must be specified as a parameter, in EC2_REGION or AWS_REGION environment variables or in boto configuration file"
  else if match p_state p with present => negb (truthy (p_ip_address p))
                             | absent => false end then
    fail_json "IP address is required for customer gateway creation"
  else
    let* _ := __init__ in
    let* _ := match p_state p with
              | present => ensure_ok
              | absent => ensure_gone
              end in
    let* cgw_man := get_self in
    let* info := get_info in
    ret (mkResult (changed cgw_man) info).

(** The module run on parameters [p] against the remote world [w]. *)
Definition run (p : Params) (w : W) : Run W Manager Result :=
  main p (fresh p) w.
End Methods.

End CustomerGatewayModule.

(** ** [ec2_vpn_gateway.py] *)

Module VPNGatewayModule.

Record Params := mkParams {
  p_state : State;
  p_id : option string;
  p_type : option string;
  p_availability_zone : option string;
  p_vpc : option string;
  p_route_table_ids : option (list string);
  p_tags : gmap string string;
  p_region : option string
}.

Record Manager := mkManager {
  id : option string;
  type : option string;
  availability_zone : option string;
  vpc : option string;
  route_table_ids : option (list string);
  tags : gmap string string;
  changed : bool;
  status : string;
  attach_status : string;
  vpn_gw : option VpnGateway
}.

Definition set_id (v : option string) (m : Manager) : Manager :=
  mkManager v (type m) (availability_zone m) (vpc m) (route_table_ids m)
            (tags m) (changed m) (status m) (attach_status m) (vpn_gw m).
Definition set_changed (v : bool) (m : Manager) : Manager :=
  mkManager (id m) (type m) (availability_zone m) (vpc m) (route_table_ids m)
            (tags m) v (status m) (attach_status m) (vpn_gw m).
Definition set_status (v : string) (m : Manager) : Manager :=
  mkManager (id m) (type m) (availability_zone m) (vpc m) (route_table_ids m)
            (tags m) (changed m) v (attach_status m) (vpn_gw m).
Definition set_attach_status (v : string) (m : Manager) : Manager :=
  mkManager (id m) (type m) (availability_zone m) (vpc m) (route_table_ids m)
            (tags m) (changed m) (status m) v (vpn_gw m).
Definition set_vpn_gw (v : option VpnGateway) (m : Manager) : Manager :=
  mkManager (id m) (type m) (availability_zone m) (vpc m) (route_table_ids m)
            (tags m) (changed m) (status m) (attach_status m) v.

Definition fresh (p : Params) : Manager :=
  mkManager (p_id p) (p_type p) (p_availability_zone p) (p_vpc p)
            (p_route_table_ids p) (p_tags p) false "gone" "detached" None.

Section Methods.
Context {W : Type} `{!Backend W}.
Local Abbreviation M := (M W Manager).

Definition _get_vpn_gateway : M (option VpnGateway) :=
  let* vpn_gws := call (get_all_vpn_gateways QAll) in
  let* self := get_self in
  if truthy (id self) then
    match List.find (fun g => bool_decide (id self = Some (vgw_id g))) vpn_gws with
    | Some g =>
        let* _ := modify (set_status "ok") in
        ret (Some g)
    | None => ret None
    end
  else if truthy_dict (tags self) then
    let* found_vpn_gws := found_by_tags vgw_id (tags self) vpn_gws [] in
    if Nat.eqb (length found_vpn_gws) 1 then
      let* g := index0 found_vpn_gws in
      let* _ := modify (set_id (Some (vgw_id g))) in
      let* _ := modify (set_status "ok") in
      ret (Some g)
    else if Nat.ltb 1 (length found_vpn_gws) then
      fail_json "Found more than one vpn gateway based on the supplied criteria, aborting"
    else ret None
  else ret None.

Definition __init__ : M unit :=
  let* _ := _get_aws_connection in
  let* found := _get_vpn_gateway in
  modify (set_vpn_gw found).

Definition _create_vpn_gw : M unit :=
  let* self := get_self in
  let* new := call (create_vpn_gateway (type self) (availability_zone self)) in
  let* _ := modify (set_vpn_gw new) in
  match new with
  | Some g =>
      let* _ := modify (set_changed true) in
      let* _ := modify (set_status "created") in
      modify (set_id (Some (vgw_id g)))
  | None => ret tt
  end.

Definition _delete_vpn_gw : M unit :=
  let* self := get_self in
  let* result := call (delete_vpn_gateway (id self)) in
  if (result : bool) then
    let* _ := modify (set_changed true) in
    modify (set_status "deleted")
  else ret tt.

Definition _attach_vpn_gw : M unit :=
  let* self := get_self in
  let* result := call (attach_vpn_gateway (id self) (vpc self)) in
  if (result : bool) then
    let* _ := modify (set_changed true) in
    modify (set_attach_status "attached")
  else ret tt.

Definition _detach_vpn_gw : M unit :=
  let* self := get_self in
  let* result := call (detach_vpn_gateway (id self) (vpc self)) in
  if (result : bool) then
    let* _ := modify (set_changed true) in
    modify (set_attach_status "detached")
  else ret tt.

(** The loop of [_enable_route_propagation]; [results] collects the
    truthy results. *)
Fixpoint enable_each (routes : list string) (results : list bool)
    : M (list bool) :=
  match routes with
  | [] => ret results
  | route :: rest =>
      let* self := get_self in
      let* result := call (enable_vgw_route_propagation route (id self)) in
      if (result : bool)
      then enable_each rest (results ++ [result])
      else enable_each rest results
  end.

Fixpoint disable_each (routes : list string) (results : list bool)
    : M (list bool) :=
  match routes with
  | [] => ret results
  | route :: rest =>
      let* self := get_self in
      let* result := call (disable_vgw_route_propagation route (id self)) in
      if (result : bool)
      then disable_each rest (results ++ [result])
      else disable_each rest results
  end.

Definition _enable_route_propagation : M unit :=
  let* self := get_self in
  match route_table_ids self with
  | None => raise TypeError          (* [for route in None] *)
  | Some routes =>
      let* results := enable_each routes [] in
      match results with
      | [] => ret tt
      | _ :: _ => modify (set_changed true)
      end
  end.

Definition _disable_route_propagation : M unit :=
  let* self := get_self in
  match route_table_ids self with
  | None => raise TypeError
  | Some routes =>
      let* results := disable_each routes [] in
      match results with
      | [] => ret tt
      | _ :: _ => modify (set_changed true)
      end
  end.

Definition _set_tags : M unit :=
  let* self := get_self in
  set_tags_of (id self) (tags self).

Definition ensure_ok : M unit :=
  let* self := get_self in
  let* _ := match vpn_gw self with
            | None => _create_vpn_gw
            | Some _ => ret tt
            end in
  let* _ := _set_tags in
  let* self := get_self in
  if truthy (vpc self) && truthy (id self) then _attach_vpn_gw else ret tt.

Definition ensure_gone : M unit :=
  let* self := get_self in
  let* _ := (if truthy (vpc self) && truthy (id self)
             then _detach_vpn_gw else ret tt) in
  let* self := get_self in
  match vpn_gw self with
  | Some _ => _delete_vpn_gw
  | None => ret tt
  end.

Definition get_info : M Info :=
  let* self := get_self in
  let* check_aws :=
    try_except
      (let* l := call (get_all_vpn_gateways (QIds [id self])) in
       let* g := index0 l in
       ret (Some g))
      (ret None) in
  match check_aws with
  | None =>
      ret [("id", py_str (id self));
           ("status", PyStr (status self))]
  | Some g =>
      ret [("id", PyStr (vgw_id g));
           ("availability_zone", vgw_availability_zone g);
           ("type", vgw_type g);
           ("status", PyStr (status self));
           ("attach_status", PyStr (attach_status self))]
  end.

(** What [main] does between the construction of the manager and the
    report. *)
Definition dispatch (state : State) : M unit :=
  let* vpn_gw_man := get_self in
  let routes_and_found :=
    truthy_list (route_table_ids vpn_gw_man)
    && bool_decide (vpn_gw vpn_gw_man <> None) in
  match state with
  | present =>
      if routes_and_found then _enable_route_propagation else ensure_ok
  | absent =>
      if routes_and_found then _disable_route_propagation else ensure_gone
  end.

Definition main (p : Params) : M Result :=
  if negb (truthy (p_region p)) then
    fail_json "Region must be specified as a parameter, in EC2_REGION or AWS_REGION environment variables or in boto configuration file"
  else
    let* _ := __init__ in
    let* _ := dispatch (p_state p) in
    let* vpn_gw_man := get_self in
    let* info := get_info in
    ret (mkResult (changed vpn_gw_man) info).

Definition run (p : Params) (w : W) : Run W Manager Result :=
  main p (fresh p) w.
End Methods.

End VPNGatewayModule.

(** ** [ec2_vpn_connection.py]

    The two static-route methods of the manager are called from nowhere
    and are left out. *)

Module VPNConnectionModule.

Record Params := mkParams {
  p_state : State;
  p_id : option string;
  p_type : option string;
  p_cgw : option string;
  p_vpn_gw : option string;
  p_vpc : option string;
  p_static_routes_only : bool;
  p_static_routes : option (list string);
  p_tags : gmap string string;
  p_region : option string
}.

Record Manager := mkManager {
  id : option string;
  type : option string;
  cgw : option string;
  vpn_gw : option string;
  vpc : option string;
  static_routes_only : bool;
  static_routes : option (list string);
  tags : gmap string string;
  changed : bool;
  status : string;
  vpn_conn : option VpnConnection
}.

Definition set_id (v : option string) (m : Manager) : Manager :=
  mkManager v (type m) (cgw m) (vpn_gw m) (vpc m) (static_routes_only m)
            (static_routes m) (tags m) (changed m) (status m) (vpn_conn m).
Definition set_changed (v : bool) (m : Manager) : Manager :=
  mkManager (id m) (type m) (cgw m) (vpn_gw m) (vpc m) (static_routes_only m)
            (static_routes m) (tags m) v (status m) (vpn_conn m).
Definition set_status (v : string) (m : Manager) : Manager :=
  mkManager (id m) (type m) (cgw m) (vpn_gw m) (vpc m) (static_routes_only m)
            (static_routes m) (tags m) (changed m) v (vpn_conn m).
Definition set_vpn_conn (v : option VpnConnection) (m : Manager) : Manager :=
  mkManager (id m) (type m) (cgw m) (vpn_gw m) (vpc m) (static_routes_only m)
            (static_routes m) (tags m) (changed m) (status m) v.

Definition fresh (p : Params) : Manager :=
  mkManager (p_id p) (p_type p) (p_cgw p) (p_vpn_gw p) (p_vpc p)
            (p_static_routes_only p) (p_static_routes p) (p_tags p)
            false "gone" None.

Section Methods.
Context {W : Type} `{!Backend W}.
Local Abbreviation M := (M W Manager).

Definition _get_vpn_connection : M (option VpnConnection) :=
  let* vpn_conns := call (get_all_vpn_connections QAll) in
  let* self := get_self in
  if truthy (id self) then
    match List.find (fun c => bool_decide (id self = Some (vpn_id c))) vpn_conns with
    | Some c =>
        let* _ := modify (set_status "ok") in
        ret (Some c)
    | None => ret None
    end
  else if truthy_dict (tags self) then
    let* found_vpn_conns := found_by_tags vpn_id (tags self) vpn_conns [] in
    if Nat.eqb (length found_vpn_conns) 1 then
      let* c := index0 found_vpn_conns in
      let* _ := modify (set_id (Some (vpn_id c))) in
      let* _ := modify (set_status "ok") in
      ret (Some c)
    else if Nat.ltb 1 (length found_vpn_conns) then
      fail_json "Found more than one vpn connection based on the supplied criteria, aborting"
    else ret None
  else ret None.

Definition __init__ : M unit :=
  let* _ := _get_aws_connection in
  let* found := _get_vpn_connection in
  modify (set_vpn_conn found).

Definition _create_vpn_conn : M unit :=
  let* self := get_self in
  let* new := call (create_vpn_connection (type self) (cgw self) (vpn_gw self)
                                          (static_routes_only self)) in
  let* _ := modify (set_vpn_conn new) in
  match new with
  | Some c =>
      let* _ := modify (set_changed true) in
      let* _ := modify (set_status "created") in
      modify (set_id (Some (vpn_id c)))
  | None => ret tt
  end.

Definition _delete_vpn_conn : M unit :=
  let* self := get_self in
  let* result := call (delete_vpn_connection (id self)) in
  if (result : bool) then
    let* _ := modify (set_changed true) in
    modify (set_status "deleted")
  else ret tt.

Definition _set_tags : M unit :=
  let* self := get_self in
  set_tags_of (id self) (tags self).

Definition ensure_ok : M unit :=
  let* self := get_self in
  let* _ := match vpn_conn self with
            | None => _create_vpn_conn
            | Some _ => ret tt
            end in
  _set_tags.

Definition ensure_gone : M unit :=
  let* self := get_self in
  match vpn_conn self with
  | Some _ => _delete_vpn_conn
  | None => ret tt
  end.

Definition get_info : M Info :=
  let* self := get_self in
  let* check_aws :=
    try_except
      (let* l := call (get_all_vpn_connections (QIds [id self])) in
       let* c := index0 l in
       ret (Some c))
      (ret None) in
  match check_aws with
  | None =>
      ret [("id", py_str (id self));
           ("status", PyStr (status self))]
  | Some c =>
      ret [("id", PyStr (vpn_id c));
           ("state", vpn_state c);
           ("customer_gateway_configuration",
             vpn_customer_gateway_configuration c);
           ("type", vpn_type c);
           ("customer_gateway_id", vpn_customer_gateway_id c);
           ("vpn_gateway_id", vpn_vpn_gateway_id c);
           ("tunnels", PyStr (vpn_tunnels c));
           ("options", vpn_options c);
           ("static_routes", vpn_static_routes c);
           ("status", PyStr (status self))]
  end.

Definition main (p : Params) : M Result :=
  if negb (truthy (p_region p)) then
    fail_json "Region must be specified as a parameter, in EC2_REGION or AWS_REGION environment variables or in boto configuration file"
  else
    let* _ := __init__ in
    let* _ := match p_state p with
              | present => ensure_ok
              | absent => ensure_gone
              end in
    let* vpn_conn_man := get_self in
    let* info := get_info in
    ret (mkResult (changed vpn_conn_man) info).

Definition run (p : Params) (w : W) : Run W Manager Result :=
  main p (fresh p) w.
End Methods.

End VPNConnectionModule.

(** ** A reference account

    A small executable connection, used to run the modules on concrete
    inputs: an account holds the resources of the three kinds and the tags
    attached to resource ids.  New resources get a fixed id, a call on an
    id the account does not hold raises. *)

Module Account.

Record World := mkWorld {
  cgws : list CustomerGateway;
  vgws : list VpnGateway;
  vpns : list VpnConnection;
  tagged : list (string * Tag)
}.

Definition empty : World := mkWorld [] [] [] [].

Definition wanted (ids : list (option string)) (rid : string) : bool :=
  existsb (fun o => bool_decide (o = Some rid)) ids.

Definition select {R} (rid : R -> string) (attr : R -> PyVal) (q : Query)
    (rs : list R) : Reply (list R) :=
  match q with
  | QAll => Ret rs
  | QIds ids =>
      match List.filter (fun r => wanted ids (rid r)) rs with
      | [] => Err
      | l => Ret l
      end
  | QFilter _ v =>
      Ret (List.filter (fun r => bool_decide (attr r = py_str v)) rs)
  end.

Definition tags_on (rid : option string) (w : World) : list Tag :=
  map snd (List.filter (fun p => bool_decide (Some p.1 = rid)) (tagged w)).

Definition holds (rid : option string) (ids : list string) : bool :=
  existsb (fun i => bool_decide (Some i = rid)) ids.

Definition tag_resource (rid : option string) (d : gmap string string)
    (w : World) : World :=
  match rid with
  | Some r =>
      mkWorld (cgws w) (vgws w) (vpns w)
              (tagged w ++ map (fun kv => (r, mkTag kv.1 kv.2)) (map_to_list d))
  | None => w
  end.

Definition untag_resource (rid : option string) (d : gmap string string)
    (w : World) : World :=
  mkWorld (cgws w) (vgws w) (vpns w)
          (List.filter (fun p => negb (bool_decide (Some p.1 = rid)
                                       && bool_decide (is_Some (d !! tag_name p.2))))
                       (tagged w)).

Definition answer (c : Call) : World -> Reply (ret_type c) * World :=
  match c as c0 return World -> Reply (ret_type c0) * World with
  | get_all_customer_gateways q => fun w =>
      (select cgw_id cgw_ip_address q (cgws w), w)
  | get_all_vpn_gateways q => fun w =>
      (select vgw_id vgw_availability_zone q (vgws w), w)
  | get_all_vpn_connections q => fun w =>
      (select vpn_id vpn_state q (vpns w), w)
  | get_all_tags rid => fun w => (Ret (tags_on rid w), w)
  | create_customer_gateway ty ip asn => fun w =>
      let c := mkCustomerGateway "cgw-new" (py_str ip)
                 (match asn with Some z => PyInt z | None => PyNone end)
                 (py_str ty) in
      (Ret (Some c), mkWorld (cgws w ++ [c]) (vgws w) (vpns w) (tagged w))
  | delete_customer_gateway rid => fun w =>
      if holds rid (map cgw_id (cgws w))
      then (Ret true,
            mkWorld (List.filter (fun c => negb (bool_decide (Some (cgw_id c) = rid)))
                                 (cgws w))
                    (vgws w) (vpns w) (tagged w))
      else (Err, w)
  | create_vpn_gateway ty az => fun w =>
      let g := mkVpnGateway "vgw-new" (py_str az) (py_str ty) in
      (Ret (Some g), mkWorld (cgws w) (vgws w ++ [g]) (vpns w) (tagged w))
  | delete_vpn_gateway rid => fun w =>
      if holds rid (map vgw_id (vgws w))
      then (Ret true,
            mkWorld (cgws w)
                    (List.filter (fun g => negb (bool_decide (Some (vgw_id g) = rid)))
                                 (vgws w))
                    (vpns w) (tagged w))
      else (Err, w)
  | attach_vpn_gateway rid _ => fun w =>
      if holds rid (map vgw_id (vgws w)) then (Ret true, w) else (Err, w)
  | detach_vpn_gateway rid _ => fun w =>
      if holds rid (map vgw_id (vgws w)) then (Ret true, w) else (Err, w)
  | enable_vgw_route_propagation _ rid => fun w =>
      if holds rid (map vgw_id (vgws w)) then (Ret true, w) else (Err, w)
  | disable_vgw_route_propagation _ rid => fun w =>
      if holds rid (map vgw_id (vgws w)) then (Ret true, w) else (Err, w)
  | create_vpn_connection ty cg vg _ => fun w =>
      let c := mkVpnConnection "vpn-new" (PyStr "pending") PyNone (py_str ty)
                 (py_str cg) (py_str vg) "[]" PyNone PyNone in
      (Ret (Some c), mkWorld (cgws w) (vgws w) (vpns w ++ [c]) (tagged w))
  | delete_vpn_connection rid => fun w =>
      if holds rid (map vpn_id (vpns w))
      then (Ret true,
            mkWorld (cgws w) (vgws w)
                    (List.filter (fun c => negb (bool_decide (Some (vpn_id c) = rid)))
                                 (vpns w))
                    (tagged w))
      else (Err, w)
  | create_tags rid d => fun w => (Ret true, tag_resource rid d w)
  | delete_tags rid d => fun w => (Ret true, untag_resource rid d w)
  end.

#[global] Instance backend : Backend World :=
  {| respond := answer; connect_to_aws := fun _ => None |}.

End Account.

(** ** The three managers side by side

    The modules are three copies of one pattern.  [Kind] names the copy and
    the definitions below pick, for a kind, the manager type, its
    attributes and its methods, so that a property of every resource kind
    is one statement. *)

Inductive Kind := customer_gateway | vpn_gateway | vpn_connection.

Definition Manager (k : Kind) : Type :=
  match k with
  | customer_gateway => CustomerGatewayModule.Manager
  | vpn_gateway => VPNGatewayModule.Manager
  | vpn_connection => VPNConnectionModule.Manager
  end.

Definition Params (k : Kind) : Type :=
  match k with
  | customer_gateway => CustomerGatewayModule.Params
  | vpn_gateway => VPNGatewayModule.Params
  | vpn_connection => VPNConnectionModule.Params
  end.

(** [self.id], [self.tags], [self.changed], [self.status] *)
Definition id_of (k : Kind) : Manager k -> option string :=
  match k with
  | customer_gateway => CustomerGatewayModule.id
  | vpn_gateway => VPNGatewayModule.id
  | vpn_connection => VPNConnectionModule.id
  end.

Definition tags_of (k : Kind) : Manager k -> gmap string string :=
  match k with
  | customer_gateway => CustomerGatewayModule.tags
  | vpn_gateway => VPNGatewayModule.tags
  | vpn_connection => VPNConnectionModule.tags
  end.

Definition changed_of (k : Kind) : Manager k -> bool :=
  match k with
  | customer_gateway => CustomerGatewayModule.changed
  | vpn_gateway => VPNGatewayModule.changed
  | vpn_connection => VPNConnectionModule.changed
  end.

Definition status_of (k : Kind) : Manager k -> string :=
  match k with
  | customer_gateway => CustomerGatewayModule.status
  | vpn_gateway => VPNGatewayModule.status
  | vpn_connection => VPNConnectionModule.status
  end.

(** The id of the object the lookup left in [self.cgw], [self.vpn_gw] or
    [self.vpn_conn]; [None] when it found nothing. *)
Definition found_of (k : Kind) : Manager k -> option string :=
  match k with
  | customer_gateway => fun s => cgw_id <$> CustomerGatewayModule.cgw s
  | vpn_gateway => fun s => vgw_id <$> VPNGatewayModule.vpn_gw s
  | vpn_connection => fun s => vpn_id <$> VPNConnectionModule.vpn_conn s
  end.

(** The create call of the kind, with the arguments the manager passes. *)
Definition create_call (k : Kind) : Manager k -> Call :=
  match k with
  | customer_gateway => fun s =>
      create_customer_gateway (CustomerGatewayModule.type s)
        (CustomerGatewayModule.ip_address s) (CustomerGatewayModule.bgp_asn s)
  | vpn_gateway => fun s =>
      create_vpn_gateway (VPNGatewayModule.type s)
        (VPNGatewayModule.availability_zone s)
  | vpn_connection => fun s =>
      create_vpn_connection (VPNConnectionModule.type s)
        (VPNConnectionModule.cgw s) (VPNConnectionModule.vpn_gw s)
        (VPNConnectionModule.static_routes_only s)
  end.

(** The id of the object a create call returned, [None] for a falsy
    result. *)
Definition created_id (k : Kind) :
    forall s : Manager k, ret_type (create_call k s) -> option string :=
  match k with
  | customer_gateway => fun _ new => cgw_id <$> new
  | vpn_gateway => fun _ new => vgw_id <$> new
  | vpn_connection => fun _ new => vpn_id <$> new
  end.

Definition fresh (k : Kind) : Params k -> Manager k :=
  match k with
  | customer_gateway => CustomerGatewayModule.fresh
  | vpn_gateway => VPNGatewayModule.fresh
  | vpn_connection => VPNConnectionModule.fresh
  end.

Definition state_of (k : Kind) : Params k -> State :=
  match k with
  | customer_gateway => CustomerGatewayModule.p_state
  | vpn_gateway => VPNGatewayModule.p_state
  | vpn_connection => VPNConnectionModule.p_state
  end.

(** The two checks of [main] that precede the construction of the manager:
    a region, and for a customer gateway that is to be present an IP
    address. *)
Definition required_inputs (k : Kind) : Params k -> bool :=
  match k with
  | customer_gateway => fun p =>
      truthy (CustomerGatewayModule.p_region p)
      && match CustomerGatewayModule.p_state p with
         | present => truthy (CustomerGatewayModule.p_ip_address p)
         | absent => true
         end
  | vpn_gateway => fun p => truthy (VPNGatewayModule.p_region p)
  | vpn_connection => fun p => truthy (VPNConnectionModule.p_region p)
  end.

Definition more_than_one (k : Kind) : string :=
  match k with
  | customer_gateway =>
      "Found more than one customer gateway based on the supplied criteria, aborting"
  | vpn_gateway =>
      "Found more than one vpn gateway based on the supplied criteria, aborting"
  | vpn_connection =>
      "Found more than one vpn connection based on the supplied criteria, aborting"
  end.

Section Kinds.
Context {W : Type} `{!Backend W}.

Definition lookup (k : Kind) : M W (Manager k) unit :=
  match k with
  | customer_gateway => CustomerGatewayModule.__init__
  | vpn_gateway => VPNGatewayModule.__init__
  | vpn_connection => VPNConnectionModule.__init__
  end.

Definition ensure_ok (k : Kind) : M W (Manager k) unit :=
  match k with
  | customer_gateway => CustomerGatewayModule.ensure_ok
  | vpn_gateway => VPNGatewayModule.ensure_ok
  | vpn_connection => VPNConnectionModule.ensure_ok
  end.

Definition ensure_gone (k : Kind) : M W (Manager k) unit :=
  match k with
  | customer_gateway => CustomerGatewayModule.ensure_gone
  | vpn_gateway => VPNGatewayModule.ensure_gone
  | vpn_connection => VPNConnectionModule.ensure_gone
  end.

Definition get_info (k : Kind) : M W (Manager k) Info :=
  match k with
  | customer_gateway => CustomerGatewayModule.get_info
  | vpn_gateway => VPNGatewayModule.get_info
  | vpn_connection => VPNConnectionModule.get_info
  end.

Definition _set_tags (k : Kind) : M W (Manager k) unit :=
  match k with
  | customer_gateway => CustomerGatewayModule._set_tags
  | vpn_gateway => VPNGatewayModule._set_tags
  | vpn_connection => VPNConnectionModule._set_tags
  end.

Definition run (k : Kind) : Params k -> W -> Run W (Manager k) Result :=
  match k with
  | customer_gateway => CustomerGatewayModule.run
  | vpn_gateway => VPNGatewayModule.run
  | vpn_connection => VPNConnectionModule.run
  end.

(** The ids of the resources of the kind that the unfiltered listing
    returns, as the lookup sees them. *)
Definition listed_ids (k : Kind) (w : W) : Reply (list string) * W :=
  match k with
  | customer_gateway =>
      match respond (get_all_customer_gateways QAll) w with
      | (Ret l, w') => (Ret (map cgw_id l), w')
      | (Err, w') => (Err, w')
      end
  | vpn_gateway =>
      match respond (get_all_vpn_gateways QAll) w with
      | (Ret l, w') => (Ret (map vgw_id l), w')
      | (Err, w') => (Err, w')
      end
  | vpn_connection =>
      match respond (get_all_vpn_connections QAll) w with
      | (Ret l, w') => (Ret (map vpn_id l), w')
      | (Err, w') => (Err, w')
      end
  end.

(** The tag dictionaries the connection reports for the given ids, asked
    one after the other; [None] if one of the calls raises. *)
Fixpoint remote_tags (ids : list string) (w : W)
    : option (list (gmap string string) * W) :=
  match ids with
  | [] => Some ([], w)
  | i :: rest =>
      match respond (get_all_tags (Some i)) w with
      | (Ret ts, w1) =>
          match remote_tags rest w1 with
          | Some (ds, w2) => Some (tags_to_dict ts :: ds, w2)
          | None => None
          end
      | (Err, _) => None
      end
  end.
End Kinds.

(** How many of the remote tag dictionaries contain every desired pair. *)
Definition matching (tags : gmap string string)
    (ds : list (gmap string string)) : nat :=
  length (List.filter (items_issubset tags) ds).

(** ** Two ways to bound a computation

    [emits Q m]: every call [m] issues satisfies [Q].
    [keeps P m]: [m] preserves the property [P] of the manager, also when
    it raises. *)

Definition emits {W S A} (Q : Call -> Prop) (m : M W S A) : Prop :=
  forall s w, Forall Q (issued (m s w)).

Definition keeps {W S A} (P : S -> Prop) (m : M W S A) : Prop :=
  forall s w, P s -> P (self_after (m s w)).

(** The calls of tag reconciliation on [resource]. *)
Definition tag_call (resource : option string) (c : Call) : Prop :=
  c = get_all_tags resource \/ exists d, c = create_tags resource d.

(** What follows the create step in [ensure_ok] of the VPN gateway: the
    tag reconciliation and the attachment. *)
Definition vpn_gw_tags_then_attach {W : Type} `{!Backend W}
    : M W VPNGatewayModule.Manager unit :=
  bind VPNGatewayModule._set_tags (fun _ =>
    bind get_self (fun self =>
      if truthy (VPNGatewayModule.vpc self) && truthy (VPNGatewayModule.id self)
      then VPNGatewayModule._attach_vpn_gw else ret tt)).

(** The detach call [ensure_gone] opens with: only the VPN gateway has one,
    guarded by [if self.vpc and self.id]. *)
Definition detach_calls (k : Kind) : Manager k -> list Call :=
  match k with
  | vpn_gateway => fun s =>
      if truthy (VPNGatewayModule.vpc s) && truthy (VPNGatewayModule.id s)
      then [detach_vpn_gateway (VPNGatewayModule.id s) (VPNGatewayModule.vpc s)]
      else []
  | _ => fun _ => []
  end.

(** ** Route propagation replies and sequences of operations *)

Section Observations.
Context {W : Type} `{!Backend W}.

(** The results of enabling route propagation from gateway [gid] on the
    given route tables, one call after the other; [None] if one of the
    calls raises. *)
Fixpoint enable_replies (routes : list string) (gid : option string) (w : W)
    : option (list bool * W) :=
  match routes with
  | [] => Some ([], w)
  | route :: rest =>
      match respond (enable_vgw_route_propagation route gid) w with
      | (Ret b, w1) =>
          match enable_replies rest gid w1 with
          | Some (bs, w2) => Some (b :: bs, w2)
          | None => None
          end
      | (Err, _) => None
      end
  end.

Fixpoint disable_replies (routes : list string) (gid : option string) (w : W)
    : option (list bool * W) :=
  match routes with
  | [] => Some ([], w)
  | route :: rest =>
      match respond (disable_vgw_route_propagation route gid) w with
      | (Ret b, w1) =>
          match disable_replies rest gid w1 with
          | Some (bs, w2) => Some (b :: bs, w2)
          | None => None
          end
      | (Err, _) => None
      end
  end.
End Observations.

(** The operations of a manager that a caller can sequence. *)
Inductive Operation := do_lookup | do_ensure_ok | do_ensure_gone | do_get_info.

Section Sequences.
Context {W : Type} `{!Backend W}.

Definition perform (k : Kind) (o : Operation) : M W (Manager k) unit :=
  match o with
  | do_lookup => lookup k
  | do_ensure_ok => ensure_ok k
  | do_ensure_gone => ensure_gone k
  | do_get_info => bind (get_info k) (fun _ => ret tt)
  end.

(** The operations one after the other; an exception ends the sequence,
    as it ends the invocation. *)
Fixpoint perform_all (k : Kind) (os : list Operation) : M W (Manager k) unit :=
  match os with
  | [] => ret tt
  | o :: rest => bind (perform k o) (fun _ => perform_all k rest)
  end.
End Sequences.

(** The four values of [status]. *)
Definition valid_status (st : string) : Prop :=
  st = "gone" \/ st = "ok" \/ st = "created" \/ st = "deleted".

(** The invariant of a manager: a valid status, and [changed] still set if
    it was set ([b]) at an earlier point. *)
Definition settled (k : Kind) (b : bool) (s : Manager k) : Prop :=
  valid_status (status_of k s) /\ (b = true -> changed_of k s = true).

(** The route propagation calls of a VPN gateway manager for one route
    table. *)
Definition enable_call (s : VPNGatewayModule.Manager) (route : string) : Call :=
  enable_vgw_route_propagation route (VPNGatewayModule.id s).

Definition disable_call (s : VPNGatewayModule.Manager) (route : string) : Call :=
  disable_vgw_route_propagation route (VPNGatewayModule.id s).

(** The value a run returned, if it returned. *)
Definition outcome_value {A} (o : Outcome A) : option A :=
  match o with Return a => Some a | Raise _ => None end.

(** ** Concrete inputs

    Accounts, parameters and manager states on which the modules are run
    below. *)

Module Scenario.

Definition cgw_1 : CustomerGateway :=
  mkCustomerGateway "cgw-1" (PyStr "1.1.1.1") (PyInt 65000) (PyStr "ipsec.1").

Definition name_tag : gmap string string := {[ "Name" := "example_cgw" ]}.

(** One customer gateway, without tags. *)
Definition account_cgw : Account.World := Account.mkWorld [cgw_1] [] [] [].

(** The same gateway, carrying the desired tag and one more. *)
Definition account_cgw_tagged : Account.World :=
  Account.mkWorld [cgw_1] [] [] 
    [("cgw-1", mkTag "Name" "example_cgw"); ("cgw-1", mkTag "Owner" "ops")].

(** The manager after its lookup has found [cgw-1] by id. *)
Definition cgw_found : CustomerGatewayModule.Manager :=
  CustomerGatewayModule.mkManager (Some "1.1.1.1") (Some "cgw-1")
    (Some 65000%Z) (Some "ipsec.1") name_tag false "ok" (Some cgw_1).

(** [state: present, ip_address: 1.1.1.1, bgp_asn: 65000, id: cgw-1,
     tags: {Name: example_cgw}, region: us-west-2] *)
Definition cgw_present_by_id : CustomerGatewayModule.Params :=
  CustomerGatewayModule.mkParams present (Some "1.1.1.1") (Some "cgw-1")
    (Some 65000%Z) (Some "ipsec.1") name_tag (Some "us-west-2").

(** [state: present, ip_address: 1.1.1.1, bgp_asn: 65000,
     tags: {Name: example_cgw}, region: us-west-2] *)
Definition cgw_present : CustomerGatewayModule.Params :=
  CustomerGatewayModule.mkParams present (Some "1.1.1.1") None
    (Some 65000%Z) (Some "ipsec.1") name_tag (Some "us-west-2").

(** [state: absent, tags: {Name: example_cgw}, region: us-west-2]:
    neither an id nor an IP address. *)
Definition cgw_absent_by_tags : CustomerGatewayModule.Params :=
CustomerGatewayModule.mkParams absent None None None (Some "ipsec.1")
  name_tag (Some "us-west-2").

(** [state: absent, id: vgw-1, vpc: vpc-1, tags: {Name: example_cgw},
     region: us-west-2] *)
Definition vgw_absent_by_id : VPNGatewayModule.Params :=
VPNGatewayModule.mkParams absent (Some "vgw-1") (Some "ipsec.1") None
  (Some "vpc-1") None name_tag (Some "us-west-2").

(** The VPN gateway manager those parameters give on an account without
    gateways: the lookup by id found nothing. *)
Definition vgw_not_found : VPNGatewayModule.Manager :=
VPNGatewayModule.mkManager (Some "vgw-1") (Some "ipsec.1") None (Some "vpc-1")
  None name_tag false "gone" "detached" None.

(** A customer gateway manager whose lookup by tags found nothing. *)
Definition cgw_not_found : CustomerGatewayModule.Manager :=
CustomerGatewayModule.mkManager None None None (Some "ipsec.1") name_tag
  false "gone" None.

(** Two customer gateways that both carry the desired tag. *)
Definition cgw_2 : CustomerGateway :=
mkCustomerGateway "cgw-2" (PyStr "2.2.2.2") (PyInt 65000) (PyStr "ipsec.1").

Definition account_two_cgws : Account.World :=
Account.mkWorld [cgw_1; cgw_2] [] []
  [("cgw-1", mkTag "Name" "example_cgw"); ("cgw-2", mkTag "Name" "example_cgw")].

(** An account with one VPN gateway, and the manager that found it by id,
    asked to propagate routes into two route tables. *)
Definition vgw_1 : VpnGateway :=
mkVpnGateway "vgw-1" (PyStr "us-west-2a") (PyStr "ipsec.1").

Definition account_vgw : Account.World := Account.mkWorld [] [vgw_1] [] [].

Definition vgw_found_with_routes : VPNGatewayModule.Manager :=
VPNGatewayModule.mkManager (Some "vgw-1") (Some "ipsec.1") None (Some "vpc-1")
  (Some ["rtb-1"; "rtb-2"]) name_tag false "ok" "detached" (Some vgw_1).

End Scenario.

(** ** Further vocabulary for the three managers *)

(** The unfiltered listing the lookup starts with. *)
Definition listing (k : Kind) : Call :=
  match k with
  | customer_gateway => get_all_customer_gateways QAll
  | vpn_gateway => get_all_vpn_gateways QAll
  | vpn_connection => get_all_vpn_connections QAll
  end.

(** The delete call of the kind, on [self.id]. *)
Definition delete_call (k : Kind) : Manager k -> Call :=
  match k with
  | customer_gateway => fun s =>
      delete_customer_gateway (CustomerGatewayModule.id s)
  | vpn_gateway => fun s => delete_vpn_gateway (VPNGatewayModule.id s)
  | vpn_connection => fun s => delete_vpn_connection (VPNConnectionModule.id s)
  end.

(** The truth value of what a delete call returned. *)
Definition deleted (k : Kind) :
    forall s : Manager k, ret_type (delete_call k s) -> bool :=
  match k with
  | customer_gateway => fun _ result => result
  | vpn_gateway => fun _ result => result
  | vpn_connection => fun _ result => result
  end.

(** The attach call [ensure_ok] ends with: only the VPN gateway has one,
    guarded by [if self.vpc and self.id]. *)
Definition attach_calls (k : Kind) : Manager k -> list Call :=
  match k with
  | vpn_gateway => fun s =>
      if truthy (VPNGatewayModule.vpc s) && truthy (VPNGatewayModule.id s)
      then [attach_vpn_gateway (VPNGatewayModule.id s) (VPNGatewayModule.vpc s)]
      else []
  | _ => fun _ => []
  end.

Definition region_of (k : Kind) : Params k -> option string :=
  match k with
  | customer_gateway => CustomerGatewayModule.p_region
  | vpn_gateway => VPNGatewayModule.p_region
  | vpn_connection => VPNConnectionModule.p_region
  end.

(** The two messages [main] can fail with before it builds the manager. *)
Definition region_missing : string :=
  "Region must be specified as a parameter, in EC2_REGION or AWS_REGION environment variables or in boto configuration file".

Definition ip_address_missing : string :=
  "IP address is required for customer gateway creation".

(** What [main] does with the manager between its construction and the
    report. *)
Definition act {W : Type} `{!Backend W} (k : Kind) (state : State)
    : M W (Manager k) unit :=
  match k with
  | customer_gateway =>
      match state with
      | present => CustomerGatewayModule.ensure_ok
      | absent => CustomerGatewayModule.ensure_gone
      end
  | vpn_gateway => VPNGatewayModule.dispatch state
  | vpn_connection =>
      match state with
      | present => VPNConnectionModule.ensure_ok
      | absent => VPNConnectionModule.ensure_gone
      end
  end.

(** The members of [rs] whose tag dictionary, at the same position of
    [ds], contains every desired pair. *)
Definition picked {R} (tags : gmap string string) (rs : list R)
    (ds : list (gmap string string)) : list R :=
  map fst (List.filter (fun p => items_issubset tags p.2) (zip rs ds)).

(** ** An id beside tags that several resources carry *)

Module Overlap.

(** [state: absent, id: cgw-1, ip_address: 1.1.1.1,
     tags: {Name: example_cgw}, region: us-west-2], to be run on the
    account whose two gateways both carry that tag. *)
Definition cgw_absent_id_and_tags : CustomerGatewayModule.Params :=
CustomerGatewayModule.mkParams absent (Some "1.1.1.1") (Some "cgw-1")
  (Some 65000%Z) (Some "ipsec.1") Scenario.name_tag (Some "us-west-2").

End Overlap.

(** The calls after which a manager sets [changed]: the create, delete,
    attach, detach and route propagation calls.  The tag calls are not
    among them. *)
Definition is_resource_change (c : Call) : bool :=
  is_create c || is_delete c || is_attach c || is_detach c
  || is_route_propagation c.

(** [earned flag m]: when [m] leaves [flag] set, it was set before or [m]
    issued one of those calls. *)
Definition earned {W S A} (flag : S -> bool) (m : M W S A) : Prop :=
  forall s w,
    flag (self_after (m s w)) = true ->
    flag s = true
    \/ Exists (fun c => is_resource_change c = true) (issued (m s w)).

(** [main] once its two input checks have passed: the constructor, the
    step for the desired state, the report and the result. *)
Definition module_body {W : Type} `{!Backend W} (k : Kind) (state : State)
    : M W (Manager k) Result :=
  bind (lookup k) (fun _ =>
    bind (act k state) (fun _ =>
      bind get_self (fun man =>
        bind (get_info k) (fun info =>
          ret (mkResult (changed_of k man) info))))).

(** [yields Q m]: when [m] returns, [Q] relates the manager it leaves and
    the value it returns. *)
Definition yields {W S A} (Q : S -> A -> Prop) (m : M W S A) : Prop :=
  forall s w a, outcome (m s w) = Return a -> Q (self_after (m s w)) a.

(** ** More concrete inputs *)

Module Cases.

(** [state: present, ip_address: 1.1.1.1, id: cgw-9,
     tags: {Name: example_cgw}]: an id that no gateway has. *)
Definition cgw_unknown_id : CustomerGatewayModule.Params :=
CustomerGatewayModule.mkParams present (Some "1.1.1.1") (Some "cgw-9")
  (Some 65000%Z) (Some "ipsec.1") Scenario.name_tag (Some "us-west-2").

(** [state: present, ip_address: 1.1.1.1, tags: {}]: neither an id nor a
    tag. *)
Definition cgw_no_criteria : CustomerGatewayModule.Params :=
CustomerGatewayModule.mkParams present (Some "1.1.1.1") None
  (Some 65000%Z) (Some "ipsec.1") ∅ (Some "us-west-2").

(** [state: present, tags: {Name: example_cgw}], no region. *)
Definition cgw_no_region : CustomerGatewayModule.Params :=
CustomerGatewayModule.mkParams present (Some "1.1.1.1") None
  (Some 65000%Z) (Some "ipsec.1") Scenario.name_tag None.

(** One customer gateway carrying the desired tag. *)
Definition account_one_tagged : Account.World :=
Account.mkWorld [Scenario.cgw_1] [] []
  [("cgw-1", mkTag "Name" "example_cgw")].

End Cases.

(** ** Route propagation in either direction *)

(** The call the route propagation branch of [main] issues for one route
    table: an enable call for [state: present], a disable call for
    [state: absent]. *)
Definition propagation_call (state : State) (s : VPNGatewayModule.Manager)
    (route : string) : Call :=
  match state with
  | present => enable_call s route
  | absent => disable_call s route
  end.

(** The results of those calls on the given route tables, [None] if one of
    them raises. *)
Definition propagation_replies {W : Type} `{!Backend W} (state : State)
    : list string -> option string -> W -> option (list bool * W) :=
  match state with
  | present => enable_replies
  | absent => disable_replies
  end.

(** ** A gateway the lookup does not see *)

Module Reports.

(** The customer gateway manager for [state: absent, ip_address: 1.1.1.1,
    tags: {Name: example_cgw}] after a lookup by tags that found
    nothing. *)
Definition cgw_by_address : CustomerGatewayModule.Manager :=
CustomerGatewayModule.mkManager (Some "1.1.1.1") None None (Some "ipsec.1")
  Scenario.name_tag false "gone" None.

End Reports.

(** ** The exceptions of a computation *)

(** [throws E m]: when [m] raises, the exception satisfies [E]. *)
Definition throws {W S A} (E : Exn -> Prop) (m : M W S A) : Prop :=
  forall s w e, outcome (m s w) = Raise e -> E e.

(** A remote call that raised, or a [fail_json] of the module. *)
Definition remote_or_module_failure (e : Exn) : Prop :=
  e = EC2ResponseError \/ exists msg, e = ModuleFailure msg.

(** The parameters with which the customer gateway module may reach its
    report with neither an id nor an IP address: [state: absent] and no
    [ip_address].  The other two modules report by id alone. *)
Definition no_address_to_report (k : Kind) : Params k -> Prop :=
  match k with
  | customer_gateway => fun p =>
      CustomerGatewayModule.p_state p = absent
      /\ truthy (CustomerGatewayModule.p_ip_address p) = false
  | _ => fun _ => False
  end.

(** ** [ec2_vpc_facts.py]: [find_vpc]

    [find_vpc] is a function, not a method: it runs without a manager
    (the state of its runs is [unit]).  It lists VPCs through
    [vpc_conn.get_all_vpcs], which is not among the calls of the three
    managers and has its own class here; the tags of a VPC are asked for
    through [get_all_tags] as the managers do, and these are the calls a
    run records.  [main] of the file refers to names that are defined
    nowhere and is left out. *)

Module VpcFacts.

Record Vpc := mkVpc {
  vpc_id : string;
  vpc_cidr_block : PyVal;
  vpc_state : PyVal
}.

(** [filters={key: value, ...}], in the order of the source. *)
Definition Filters := list (string * option string).

Class VpcConnection (W : Type) := {
  get_all_vpcs : Filters -> W -> Reply (list Vpc) * W
}.

Definition need_criteria : string :=
  "You must specify either a vpc_id or a cidr block + list of unique tags, aborting".

Definition more_than_one_vpc : string :=
  "Found more than one vpc based on the supplied criteria, aborting".

Section Functions.
Context {W : Type} `{!Backend W} `{!VpcConnection W}.
Local Abbreviation M := (M W unit).

(** [vpc_conn.get_all_vpcs(None, filters)] *)
Definition all_vpcs (filters : Filters) : M (list Vpc) :=
  fun s w =>
    match get_all_vpcs filters w with
    | (Ret l, w') => mkRun (Return l) s w' []
    | (Err, w') => mkRun (Raise EC2ResponseError) s w' []
    end.

(** [resource_tags] is [module.params.get('resource_tags')], possibly
    [None]; [None] and the empty mapping are both falsy in the test of the
    loop, which [found_by_tags] makes on the mapping. *)
Definition find_vpc (vpc_id cidr : option string)
    (resource_tags : option (gmap string string)) : M (option Vpc) :=
  let* _ := match vpc_id, cidr with
            | None, None => fail_json need_criteria
            | _, _ => ret tt
            end in
  let* found_vpcs :=
    match vpc_id with
    | Some _ =>
        all_vpcs [("vpc-id", vpc_id); ("state", Some "available")]
    | None =>
        let* previous_vpcs :=
          all_vpcs [("cidr", cidr); ("state", Some "available")] in
        found_by_tags VpcFacts.vpc_id (default ∅ resource_tags)
                      previous_vpcs []
    end in
  let* found_vpc := (if Nat.eqb (length found_vpcs) 1
                     then (let* v := index0 found_vpcs in ret (Some v))
                     else ret None) in
  if Nat.ltb 1 (length found_vpcs)
  then fail_json more_than_one_vpc
  else ret found_vpc.
End Functions.

(** A reference account with VPCs: the account of the managers, and the
    VPCs listed by id or by CIDR block. *)
Record Cloud := mkCloud {
  vpcs : list Vpc;
  account : Account.World
}.

Definition listed (filters : Filters) (v : Vpc) : bool :=
  forallb (fun f =>
             if String.eqb f.1 "vpc-id"
             then bool_decide (f.2 = Some (vpc_id v))
             else if String.eqb f.1 "cidr"
             then bool_decide (py_str f.2 = vpc_cidr_block v)
             else bool_decide (py_str f.2 = vpc_state v))
          filters.

#[global] Instance cloud_backend : Backend Cloud :=
  {| respond := fun c w =>
       let (reply, a) := Account.answer c (account w) in
       (reply, mkCloud (vpcs w) a);
     connect_to_aws := fun _ => None |}.

#[global] Instance cloud_vpcs : VpcConnection Cloud :=
  {| get_all_vpcs := fun filters w =>
       (Ret (List.filter (listed filters) (vpcs w)), w) |}.

Definition vpc_1 : Vpc :=
  mkVpc "vpc-1" (PyStr "10.0.0.0/16") (PyStr "available").

Definition prod_tag : gmap string string := {[ "Name" := "prod" ]}.

(** One VPC, tagged [Name: prod]. *)
Definition cloud_one_vpc : Cloud :=
  mkCloud [vpc_1]
    (Account.mkWorld [] [] [] [("vpc-1", mkTag "Name" "prod")]).

End VpcFacts.

(** * Properties *)

(** ** Counting calls *)

Lemma count_none P l : Forall (fun c => P c = false) l -> count P l = 0.
Proof.
  unfold count. induction 1 as [|c l Hc _ IH]; simpl; [done|].
  by rewrite Hc.
Qed.

Lemma filter_none (P : Call -> bool) l :
  Forall (fun c => P c = false) l -> List.filter P l = [].
Proof.
  induction 1 as [|c l Hc _ IH]; simpl; [done|]. by rewrite Hc.
Qed.

(** ** Bounding the calls and the manager state of a computation *)

Section Reasoning.
Context {W : Type} `{!Backend W} {S : Type}.
Implicit Types (Q : Call -> Prop) (P : S -> Prop).
Local Abbreviation emits := (@emits W S _).
Local Abbreviation keeps := (@keeps W S _).

Lemma emits_ret Q {A} (a : A) : emits Q (ret a).
Proof. intros s w. constructor. Qed.

Lemma emits_raise Q {A} e : emits Q (raise (A:=A) e).
Proof. intros s w. constructor. Qed.

Lemma emits_fail_json Q {A} msg : emits Q (fail_json (A:=A) msg).
Proof. apply emits_raise. Qed.

Lemma emits_get_self Q : emits Q get_self.
Proof. intros s w. constructor. Qed.

Lemma emits_modify Q f : emits Q (modify f).
Proof. intros s w. constructor. Qed.

Lemma emits_call Q c : Q c -> emits Q (call c).
Proof.
  intros Hc s w. unfold call.
  destruct (respond c w) as [[a|] w']; simpl; by repeat constructor.
Qed.

Lemma emits_bind Q {A B} (m : M W S A) (k : A -> M W S B) :
  emits Q m -> (forall a, emits Q (k a)) -> emits Q (bind m k).
Proof.
  intros Hm Hk s w. unfold bind.
  specialize (Hm s w). destruct (outcome (m s w)) as [a|e]; simpl; [|done].
  apply Forall_app. split; [done | apply Hk].
Qed.

Lemma emits_try_except Q {A} (body handler : M W S A) :
  emits Q body -> emits Q handler -> emits Q (try_except body handler).
Proof.
  intros Hb Hh s w. unfold try_except.
  specialize (Hb s w). destruct (outcome (body s w)); simpl; [done|].
  apply Forall_app. split; [done | apply Hh].
Qed.

Lemma emits_index0 Q {A} (l : list A) : emits Q (index0 l).
Proof. destruct l; [apply emits_raise | apply emits_ret]. Qed.

Lemma emits_aws_connection Q : emits Q _get_aws_connection.
Proof.
  intros s w. unfold _get_aws_connection.
  destruct (connect_to_aws w); constructor.
Qed.

Lemma emits_weaken Q Q' {A} (m : M W S A) :
  (forall c, Q c -> Q' c) -> emits Q m -> emits Q' m.
Proof. intros HQ Hm s w. eapply Forall_impl; [apply Hm | done]. Qed.

Lemma keeps_ret P {A} (a : A) : keeps P (ret a).
Proof. by intros s w. Qed.

Lemma keeps_raise P {A} e : keeps P (raise (A:=A) e).
Proof. by intros s w. Qed.

Lemma keeps_fail_json P {A} msg : keeps P (fail_json (A:=A) msg).
Proof. by intros s w. Qed.

Lemma keeps_get_self P : keeps P get_self.
Proof. by intros s w. Qed.

Lemma keeps_modify P f : (forall s, P s -> P (f s)) -> keeps P (modify f).
Proof. intros Hf s w. apply Hf. Qed.

Lemma keeps_call P c : keeps P (call c).
Proof.
  intros s w Hs. unfold call. by destruct (respond c w) as [[a|] w'].
Qed.

Lemma keeps_bind P {A B} (m : M W S A) (k : A -> M W S B) :
  keeps P m -> (forall a, keeps P (k a)) -> keeps P (bind m k).
Proof.
  intros Hm Hk s w Hs. unfold bind.
  specialize (Hm s w Hs). destruct (outcome (m s w)) as [a|e]; simpl; [|done].
  by apply Hk.
Qed.

Lemma keeps_try_except P {A} (body handler : M W S A) :
  keeps P body -> keeps P handler -> keeps P (try_except body handler).
Proof.
  intros Hb Hh s w Hs. unfold try_except.
  specialize (Hb s w Hs). destruct (outcome (body s w)); simpl; [done|].
  by apply Hh.
Qed.

Lemma keeps_index0 P {A} (l : list A) : keeps P (index0 l).
Proof. destruct l; [apply keeps_raise | apply keeps_ret]. Qed.

Lemma keeps_aws_connection P : keeps P _get_aws_connection.
Proof.
  intros s w Hs. unfold _get_aws_connection. by destruct (connect_to_aws w).
Qed.

(** The tag search only lists tags and never touches the manager. *)
Lemma emits_found_by_tags Q {R} (rid : R -> string) tags rs found :
  (forall i, Q (get_all_tags i)) -> emits Q (found_by_tags rid tags rs found).
Proof.
  intros HQ. revert found. induction rs as [|r rs IH]; intros found; simpl.
  - apply emits_ret.
  - apply emits_bind; [by apply emits_call|].
    intros ts. destruct (_ && _); apply IH.
Qed.

Lemma keeps_found_by_tags P {R} (rid : R -> string) tags rs found :
  keeps P (found_by_tags rid tags rs found).
Proof.
  revert found. induction rs as [|r rs IH]; intros found; simpl.
  - apply keeps_ret.
  - apply keeps_bind; [apply keeps_call|].
    intros ts. destruct (_ && _); apply IH.
Qed.

Lemma emits_set_tags_of resource tags :
  emits (tag_call resource) (set_tags_of resource tags).
Proof.
  unfold set_tags_of.
  apply emits_bind; [apply emits_call; by left|]. intros ts.
  apply emits_bind.
  - destruct (truthy_dict _); [|apply emits_ret].
    apply emits_bind; [|intros; apply emits_ret].
    apply emits_call. right. eauto.
  - intros _. apply emits_bind; [apply emits_call; by left|].
    intros; apply emits_ret.
Qed.

Lemma keeps_set_tags_of P resource tags :
  keeps P (set_tags_of resource tags).
Proof.
  unfold set_tags_of.
  apply keeps_bind; [apply keeps_call|]. intros ts.
  apply keeps_bind.
  - destruct (truthy_dict _); [|apply keeps_ret].
    apply keeps_bind; [apply keeps_call | intros; apply keeps_ret].
  - intros _. apply keeps_bind; [apply keeps_call | intros; apply keeps_ret].
Qed.

(** [_set_tags] leaves every attribute of the manager as it was. *)
Lemma set_tags_of_self resource tags (s : S) (w : W) :
  self_after (set_tags_of resource tags s w) = s.
Proof. by apply (keeps_set_tags_of (fun s' => s' = s)). Qed.
End Reasoning.

(** ** Tag dictionaries *)

Lemma item_in_spec key value (d : gmap string string) :
  item_in (key, value) d = true <-> d !! key = Some value.
Proof. unfold item_in. simpl. apply bool_decide_eq_true. Qed.

Lemma items_issubset_spec (a b : gmap string string) :
  items_issubset a b = true <-> a ⊆ b.
Proof.
  unfold items_issubset. rewrite forallb_forall, map_subseteq_spec. split.
  - intros H key value Hkv. apply item_in_spec, H.
    apply list_elem_of_In. by apply elem_of_map_to_list.
  - intros H [key value] Hin. apply item_in_spec, H.
    by apply elem_of_map_to_list, list_elem_of_In.
Qed.

(** [dictadd] holds exactly the desired pairs that the remote dictionary
    lacks, compared as pairs. *)
Lemma dictadd_of_lookup (tags tagdict : gmap string string) key value :
  dictadd_of tags tagdict !! key = Some value
  <-> tags !! key = Some value /\ tagdict !! key <> Some value.
Proof.
  unfold dictadd_of. rewrite map_lookup_filter_Some. simpl.
  rewrite <- (item_in_spec key value tagdict).
  destruct (item_in (key, value) tagdict); intuition congruence.
Qed.

Lemma dictadd_of_subset (tags tagdict : gmap string string) :
  tags ⊆ tagdict -> dictadd_of tags tagdict = ∅.
Proof.
  intros Hsub. apply map_eq. intros key. rewrite lookup_empty.
  destruct (dictadd_of tags tagdict !! key) as [value|] eqn:E; [|done].
  apply dictadd_of_lookup in E as [Hin Hout].
  rewrite map_subseteq_spec in Hsub. destruct Hout. by apply Hsub.
Qed.

Lemma truthy_dict_true (d : gmap string string) :
  truthy_dict d = true <-> d <> ∅.
Proof.
  unfold truthy_dict. rewrite negb_true_iff. apply bool_decide_eq_false.
Qed.

(** ** Tag reconciliation *)

Section SetTags.
Context {W : Type} `{!Backend W}.

Lemma set_tags_unfold k (s : Manager k) (w : W) :
  _set_tags k s w = set_tags_of (id_of k s) (tags_of k s) s w.
Proof. by destruct k. Qed.

Lemma tag_call_not_delete_tags resource c :
  tag_call resource c -> is_delete_tags c = false.
Proof. by intros [->|[d ->]]. Qed.

(** The create-tags calls of one reconciliation, once the first listing
    has answered. *)
Lemma set_tags_of_create_tags {S} resource tags (s : S) (w : W) ts w1 :
  respond (get_all_tags resource) w = (Ret ts, w1) ->
  List.filter is_create_tags (issued (set_tags_of resource tags s w))
  = if truthy_dict (dictadd_of tags (tags_to_dict ts))
    then [create_tags resource (dictadd_of tags (tags_to_dict ts))]
    else [].
Proof.
  intros Hget. unfold set_tags_of, bind, call; simpl. rewrite Hget; simpl.
  destruct (truthy_dict _); simpl.
  - destruct (respond (create_tags _ _) w1) as [[b|] w2]; simpl; [|done].
    by destruct (respond (get_all_tags resource) w2) as [[ts'|] w3].
  - by destruct (respond (get_all_tags resource) w1) as [[ts'|] w3].
Qed.
End SetTags.

(** C4.  Tag reconciliation only adds.  For every resource kind, manager
    and remote world, [_set_tags] issues no tag-removal call.  When the tag
    listing answers, the tag-creation calls it issues are: none if every
    desired pair is already among the remote pairs, otherwise one call
    carrying [dictadd]; and [dictadd] holds exactly the desired pairs that
    are not among the remote ones, compared by key and value.  In
    particular a remote tag set equal to or larger than the desired one
    leads to no tag-creation call. *)
Theorem set_tags_additive_only :
  forall {W : Type} `{!Backend W} (k : Kind) (s : Manager k) (w : W),
    let r := _set_tags k s w in
    count is_delete_tags (issued r) = 0
    /\ forall ts w1,
        respond (get_all_tags (id_of k s)) w = (Ret ts, w1) ->
        let tagdict := tags_to_dict ts in
        let dictadd := dictadd_of (tags_of k s) tagdict in
        List.filter is_create_tags (issued r)
          = (if truthy_dict dictadd
             then [create_tags (id_of k s) dictadd] else [])
        /\ (forall key value,
              dictadd !! key = Some value
              <-> tags_of k s !! key = Some value /\ tagdict !! key <> Some value)
        /\ (tags_of k s ⊆ tagdict -> count is_create_tags (issued r) = 0).
Proof.
  intros W B k s w r. subst r. rewrite set_tags_unfold. split.
  - apply count_none. eapply Forall_impl; [apply emits_set_tags_of|].
    apply tag_call_not_delete_tags.
  - intros ts w1 Hget tagdict dictadd. subst tagdict dictadd.
    pose proof (set_tags_of_create_tags _ (tags_of k s) s w ts w1 Hget) as Hc.
    split; [exact Hc|]. split; [apply dictadd_of_lookup|].
    intros Hsub. unfold count. rewrite Hc.
    by rewrite (dictadd_of_subset _ _ Hsub).
Qed.

(** On the untagged gateway the desired tag is the one pair added; on the
    gateway that carries it and one more tag, nothing is added. *)
Lemma set_tags_additive_only_witness :
  List.filter is_create_tags
    (issued (_set_tags customer_gateway Scenario.cgw_found Scenario.account_cgw))
  = [create_tags (Some "cgw-1") Scenario.name_tag]
  /\ count is_create_tags
       (issued (_set_tags customer_gateway Scenario.cgw_found
                  Scenario.account_cgw_tagged)) = 0.
Proof.
  split.
  - exact (proj1 (proj2 (set_tags_additive_only customer_gateway
             Scenario.cgw_found Scenario.account_cgw) [] Scenario.account_cgw
             eq_refl)).
  - refine (proj2 (proj2 (proj2 (set_tags_additive_only customer_gateway
              Scenario.cgw_found Scenario.account_cgw_tagged)
              [mkTag "Name" "example_cgw"; mkTag "Owner" "ops"]
              Scenario.account_cgw_tagged eq_refl)) _).
    apply items_issubset_spec. vm_compute. reflexivity.
Defined.

(** ** Proof steps for computations *)

(** [self = ...] at the head of a method reads the current manager. *)
Ltac read_self :=
  repeat match goal with
  | |- context [bind get_self ?k ?s ?w] =>
      change (bind get_self k s w) with (k s s w); cbv beta
  end.

(** Decompose a goal [emits Q m] or [keeps P m] along the structure of [m];
    what remains are the side conditions on single calls and on single
    assignments. *)
Ltac bound :=
  repeat match goal with
  | |- forall _, _ => intro
  | |- emits _ (bind _ _) => apply emits_bind
  | |- emits _ (try_except _ _) => apply emits_try_except
  | |- emits _ (ret _) => apply emits_ret
  | |- emits _ (raise _) => apply emits_raise
  | |- emits _ (fail_json _) => apply emits_fail_json
  | |- emits _ get_self => apply emits_get_self
  | |- emits _ (modify _) => apply emits_modify
  | |- emits _ (index0 _) => apply emits_index0
  | |- emits _ _get_aws_connection => apply emits_aws_connection
  | |- emits _ (call _) => apply emits_call
  | |- emits _ (if ?b then _ else _) => destruct b
  | |- emits _ (match ?x with _ => _ end) => destruct x
  | |- keeps _ (bind _ _) => apply keeps_bind
  | |- keeps _ (try_except _ _) => apply keeps_try_except
  | |- keeps _ (ret _) => apply keeps_ret
  | |- keeps _ (raise _) => apply keeps_raise
  | |- keeps _ (fail_json _) => apply keeps_fail_json
  | |- keeps _ get_self => apply keeps_get_self
  | |- keeps _ (modify _) => apply keeps_modify
  | |- keeps _ (index0 _) => apply keeps_index0
  | |- keeps _ _get_aws_connection => apply keeps_aws_connection
  | |- keeps _ (call _) => apply keeps_call
  | |- keeps _ (found_by_tags _ _ _ _) => apply keeps_found_by_tags
  | |- keeps _ (set_tags_of _ _) => apply keeps_set_tags_of
  | |- keeps _ (if ?b then _ else _) => destruct b
  | |- keeps _ (match ?x with _ => _ end) => destruct x
  end.

(** After a case analysis on the kind, select the manager's own
    definitions. *)
Ltac pick_kind :=
  cbv beta iota delta
    [ensure_ok ensure_gone get_info _set_tags lookup run found_of id_of
     tags_of changed_of status_of create_call created_id fresh state_of
     required_inputs more_than_one listed_ids Manager Params] in *.

Section Bind.
Context {W : Type} `{!Backend W} {S : Type}.

(** The calls of [m] come first among the calls of [m] followed by [k]. *)
Lemma issued_bind_prefix {A B} (m : M W S A) (k : A -> M W S B) s w :
  exists rest, issued (bind m k s w) = issued (m s w) ++ rest.
Proof.
  unfold bind. destruct (outcome (m s w)); simpl; eexists; [done|].
  by rewrite app_nil_r.
Qed.

Lemma set_tags_of_first resource tags (s : S) (w : W) :
  exists more,
    issued (set_tags_of resource tags s w) = get_all_tags resource :: more.
Proof.
  unfold set_tags_of.
  destruct (issued_bind_prefix (call (get_all_tags resource))
    (fun gettags =>
       bind (if truthy_dict (dictadd_of tags (tags_to_dict gettags))
             then bind (call (create_tags resource
                                (dictadd_of tags (tags_to_dict gettags))))
                       (fun _ => ret tt)
             else ret tt)
            (fun _ => bind (call (get_all_tags resource)) (fun _ => ret tt)))
    s w) as [rest ->].
  unfold call. destruct (respond _ w) as [[ts|] w1]; simpl; eauto.
Qed.

Lemma set_tags_of_no_create resource tags :
  emits (W:=W) (S:=S) (fun c => is_create c = false)
        (set_tags_of resource tags).
Proof.
  eapply emits_weaken; [|apply emits_set_tags_of].
  by intros c [->|[d ->]].
Qed.
End Bind.

(** ** The create step of the three managers *)

Section Create.
Context {W : Type} `{!Backend W}.

Lemma create_cgw_run (s : CustomerGatewayModule.Manager) (w : W) :
  let c := create_call customer_gateway s in
  CustomerGatewayModule._create_cgw s w
  = match respond c w with
    | (Ret (Some new), w1) =>
        mkRun (Return tt)
          (CustomerGatewayModule.set_status "created"
             (CustomerGatewayModule.set_changed true
                (CustomerGatewayModule.set_id (Some (cgw_id new))
                   (CustomerGatewayModule.set_cgw (Some new) s))))
          w1 [c]
    | (Ret None, w1) =>
        mkRun (Return tt) (CustomerGatewayModule.set_cgw None s) w1 [c]
    | (Err, w1) => mkRun (Raise EC2ResponseError) s w1 [c]
    end.
Proof.
  simpl. unfold CustomerGatewayModule._create_cgw. read_self.
  unfold bind, call, modify; simpl.
  by destruct (respond _ w) as [[[new|]|] w1].
Qed.

Lemma create_vpn_gw_run (s : VPNGatewayModule.Manager) (w : W) :
  let c := create_call vpn_gateway s in
  VPNGatewayModule._create_vpn_gw s w
  = match respond c w with
    | (Ret (Some new), w1) =>
        mkRun (Return tt)
          (VPNGatewayModule.set_id (Some (vgw_id new))
             (VPNGatewayModule.set_status "created"
                (VPNGatewayModule.set_changed true
                   (VPNGatewayModule.set_vpn_gw (Some new) s))))
          w1 [c]
    | (Ret None, w1) =>
        mkRun (Return tt) (VPNGatewayModule.set_vpn_gw None s) w1 [c]
    | (Err, w1) => mkRun (Raise EC2ResponseError) s w1 [c]
    end.
Proof.
  simpl. unfold VPNGatewayModule._create_vpn_gw. read_self.
  unfold bind, call, modify; simpl.
  by destruct (respond _ w) as [[[new|]|] w1].
Qed.

Lemma create_vpn_conn_run (s : VPNConnectionModule.Manager) (w : W) :
  let c := create_call vpn_connection s in
  VPNConnectionModule._create_vpn_conn s w
  = match respond c w with
    | (Ret (Some new), w1) =>
        mkRun (Return tt)
          (VPNConnectionModule.set_id (Some (vpn_id new))
             (VPNConnectionModule.set_status "created"
                (VPNConnectionModule.set_changed true
                   (VPNConnectionModule.set_vpn_conn (Some new) s))))
          w1 [c]
    | (Ret None, w1) =>
        mkRun (Return tt) (VPNConnectionModule.set_vpn_conn None s) w1 [c]
    | (Err, w1) => mkRun (Raise EC2ResponseError) s w1 [c]
    end.
Proof.
  simpl. unfold VPNConnectionModule._create_vpn_conn. read_self.
  unfold bind, call, modify; simpl.
  by destruct (respond _ w) as [[[new|]|] w1].
Qed.

Lemma vpn_gw_tags_then_attach_no_create :
  emits (fun c => is_create c = false) vpn_gw_tags_then_attach.
Proof.
  unfold vpn_gw_tags_then_attach, VPNGatewayModule._set_tags,
    VPNGatewayModule._attach_vpn_gw.
  bound; try done. apply set_tags_of_no_create.
Qed.

(** Tag reconciliation and attachment keep the id, a [changed] flag that
    is set, and the status. *)
Lemma vpn_gw_tags_then_attach_keeps i st :
  keeps (fun s => VPNGatewayModule.id s = i
                  /\ VPNGatewayModule.changed s = true
                  /\ VPNGatewayModule.status s = st)
        vpn_gw_tags_then_attach.
Proof.
  unfold vpn_gw_tags_then_attach, VPNGatewayModule._set_tags,
    VPNGatewayModule._attach_vpn_gw.
  bound; destruct s; simpl in *; intuition.
Qed.
End Create.

(** ** [ensure_ok] *)

Section EnsureOk.
Context {W : Type} `{!Backend W}.

Lemma cgw_ensure_ok_not_found (s : CustomerGatewayModule.Manager) (w : W) :
  CustomerGatewayModule.cgw s = None ->
  CustomerGatewayModule.ensure_ok s w
  = bind CustomerGatewayModule._create_cgw
         (fun _ => CustomerGatewayModule._set_tags) s w.
Proof.
  intros Hnone. unfold CustomerGatewayModule.ensure_ok. read_self.
  by rewrite Hnone.
Qed.

Lemma vpn_gw_ensure_ok_not_found (s : VPNGatewayModule.Manager) (w : W) :
  VPNGatewayModule.vpn_gw s = None ->
  VPNGatewayModule.ensure_ok s w
  = bind VPNGatewayModule._create_vpn_gw
         (fun _ => vpn_gw_tags_then_attach) s w.
Proof.
  intros Hnone. unfold VPNGatewayModule.ensure_ok. read_self.
  by rewrite Hnone.
Qed.

Lemma vpn_conn_ensure_ok_not_found (s : VPNConnectionModule.Manager) (w : W) :
  VPNConnectionModule.vpn_conn s = None ->
  VPNConnectionModule.ensure_ok s w
  = bind VPNConnectionModule._create_vpn_conn
         (fun _ => VPNConnectionModule._set_tags) s w.
Proof.
  intros Hnone. unfold VPNConnectionModule.ensure_ok. read_self.
  by rewrite Hnone.
Qed.

Lemma set_tags_no_create k : emits (fun c => is_create c = false) (_set_tags k).
Proof.
  intros s w. rewrite set_tags_unfold. apply set_tags_of_no_create.
Qed.

End EnsureOk.

(** C1.  For every resource kind: when the lookup found nothing,
    [ensure_ok] issues exactly one create call, the one with the manager's
    arguments; and if that call returns the new object, the manager ends
    with the id of that object, [changed = True] and status ['created'],
    whatever the later tag and attach calls do. *)
Theorem ensure_ok_creates_once :
  forall {W : Type} `{!Backend W} (k : Kind) (s : Manager k) (w : W),
    found_of k s = None ->
    let r := ensure_ok k s w in
    List.filter is_create (issued r) = [create_call k s]
    /\ forall new w1 i,
        respond (create_call k s) w = (Ret new, w1) ->
        created_id k s new = Some i ->
        id_of k (self_after r) = Some i
        /\ changed_of k (self_after r) = true
        /\ status_of k (self_after r) = "created".
Proof.
  intros W B k s w Hnone r. subst r. destruct k; pick_kind.
  - assert (CustomerGatewayModule.cgw s = None) as Hc
      by (by destruct (CustomerGatewayModule.cgw s)).
    rewrite (cgw_ensure_ok_not_found s w Hc). unfold bind; cbv zeta.
    pose proof (create_cgw_run s w) as Hrun. simpl in Hrun. rewrite Hrun.
    destruct (respond _ w) as [[[new|]|] w1]; simpl.
    + split.
      * f_equal. apply filter_none.
        exact (set_tags_of_no_create _ _ _ _).
      * intros new' w1' i [= <- <-] [= <-].
        rewrite set_tags_of_self. by destruct s.
    + split; [|by intros new' w1' i [= <- <-]].
      f_equal. apply filter_none.
      exact (set_tags_of_no_create _ _ _ _).
    + split; [done | by intros new' w1' i [=]].
  - assert (VPNGatewayModule.vpn_gw s = None) as Hc
      by (by destruct (VPNGatewayModule.vpn_gw s)).
    rewrite (vpn_gw_ensure_ok_not_found s w Hc). unfold bind; cbv zeta.
    pose proof (create_vpn_gw_run s w) as Hrun. simpl in Hrun. rewrite Hrun.
    destruct (respond _ w) as [[[new|]|] w1]; simpl.
    + split.
      * f_equal. apply filter_none.
        exact (vpn_gw_tags_then_attach_no_create _ _).
      * intros new' w1' i [= <- <-] [= <-].
        apply (vpn_gw_tags_then_attach_keeps (Some (vgw_id new)) "created").
        by destruct s.
    + split; [|by intros new' w1' i [= <- <-]].
      f_equal. apply filter_none.
      exact (vpn_gw_tags_then_attach_no_create _ _).
    + split; [done | by intros new' w1' i [=]].
  - assert (VPNConnectionModule.vpn_conn s = None) as Hc
      by (by destruct (VPNConnectionModule.vpn_conn s)).
    rewrite (vpn_conn_ensure_ok_not_found s w Hc). unfold bind; cbv zeta.
    pose proof (create_vpn_conn_run s w) as Hrun. simpl in Hrun. rewrite Hrun.
    destruct (respond _ w) as [[[new|]|] w1]; simpl.
    + split.
      * f_equal. apply filter_none.
        exact (set_tags_of_no_create _ _ _ _).
      * intros new' w1' i [= <- <-] [= <-].
        rewrite set_tags_of_self. by destruct s.
    + split; [|by intros new' w1' i [= <- <-]].
      f_equal. apply filter_none.
      exact (set_tags_of_no_create _ _ _ _).
    + split; [done | by intros new' w1' i [=]].
Qed.

(** No matching gateway in the account: one create call, and the manager
    records the id the account assigned. *)
Lemma ensure_ok_creates_once_witness :
  let s := fresh customer_gateway Scenario.cgw_present in
  let r := ensure_ok customer_gateway s Account.empty in
  found_of customer_gateway s = None
  /\ List.filter is_create (issued r)
     = [create_customer_gateway (Some "ipsec.1") (Some "1.1.1.1") (Some 65000%Z)]
  /\ id_of customer_gateway (self_after r) = Some "cgw-new"
  /\ changed_of customer_gateway (self_after r) = true
  /\ status_of customer_gateway (self_after r) = "created".
Proof.
  intros s r.
  pose proof (ensure_ok_creates_once customer_gateway s Account.empty eq_refl)
    as [Hone Hnew].
  split; [reflexivity|]. split; [exact Hone|].
  exact (Hnew (Some (mkCustomerGateway "cgw-new" (PyStr "1.1.1.1")
                       (PyInt 65000) (PyStr "ipsec.1")))
              (Account.mkWorld
                 [mkCustomerGateway "cgw-new" (PyStr "1.1.1.1")
                    (PyInt 65000) (PyStr "ipsec.1")] [] [] [])
              "cgw-new" eq_refl eq_refl).
Defined.

(** The failing run of C5.  The manager has found [cgw-1], which carries
    no tag; the desired tag is missing, [_set_tags] issues the batch call
    for it, and [changed] is still [False] afterwards.  The module run,
    which has written a tag, reports [changed = False]. *)
Lemma set_tags_marks_changed_counterexample :
  let s := Scenario.cgw_found in
  let w := Scenario.account_cgw in
  let r := _set_tags customer_gateway s w in
  respond (get_all_tags (id_of customer_gateway s)) w = (Ret [], w)
  /\ dictadd_of (tags_of customer_gateway s) (tags_to_dict []) <> ∅
  /\ List.filter is_create_tags (issued r)
     = [create_tags (Some "cgw-1") Scenario.name_tag]
  /\ changed_of customer_gateway (self_after r) = false
  /\ res_changed <$> outcome_value (outcome (run customer_gateway
                       Scenario.cgw_present_by_id Scenario.account_cgw))
     = Some false.
Proof.
  intros s w r. split; [reflexivity|]. split.
  - apply truthy_dict_true. vm_compute. reflexivity.
  - split; [|split]; vm_compute; reflexivity.
Qed.

(** C5.  What [_set_tags] does, for every resource kind: when the tag
    listing answers and some desired pair is missing remotely, it issues
    exactly one tag-creation call, carrying exactly the missing pairs, and
    the [changed] flag of the manager is left as it was.  The result of
    the call is bound to [tagger], which is never read; the delete, attach
    and detach methods test the result of their call and set [changed]. *)
Theorem set_tags_single_batch :
  forall {W : Type} `{!Backend W} (k : Kind) (s : Manager k) (w : W) ts w1,
    respond (get_all_tags (id_of k s)) w = (Ret ts, w1) ->
    let dictadd := dictadd_of (tags_of k s) (tags_to_dict ts) in
    dictadd <> ∅ ->
    let r := _set_tags k s w in
    List.filter is_create_tags (issued r) = [create_tags (id_of k s) dictadd]
    /\ changed_of k (self_after r) = changed_of k s.
Proof.
  intros W B k s w ts w1 Hget dictadd Hmissing r. subst r dictadd.
  rewrite set_tags_unfold. split.
  - rewrite (set_tags_of_create_tags _ _ s w ts w1 Hget).
    apply truthy_dict_true in Hmissing. by rewrite Hmissing.
  - by rewrite set_tags_of_self.
Qed.

Lemma set_tags_single_batch_witness :
  let r := _set_tags customer_gateway Scenario.cgw_found Scenario.account_cgw in
  List.filter is_create_tags (issued r)
  = [create_tags (Some "cgw-1") Scenario.name_tag]
  /\ changed_of customer_gateway (self_after r) = false.
Proof.
  intros r.
  refine (set_tags_single_batch customer_gateway Scenario.cgw_found
            Scenario.account_cgw [] Scenario.account_cgw eq_refl _).
  apply truthy_dict_true. vm_compute. reflexivity.
Defined.

(** ** [ensure_gone] *)

(** C6, against the claim.  VPN gateway, [state: absent] with an id and a
    vpc, on an account that holds no gateway: the lookup finds nothing, and
    [ensure_gone] still issues the detach call, a mutating call, which the
    account rejects; the run ends in that exception instead of reporting
    [changed = False], [status = 'gone']. *)
Lemma ensure_gone_noop_counterexample :
  let s := Scenario.vgw_not_found in
  let r := ensure_gone vpn_gateway s Account.empty in
  self_after (lookup vpn_gateway (fresh vpn_gateway Scenario.vgw_absent_by_id)
                Account.empty) = s
  /\ found_of vpn_gateway s = None
  /\ issued r = [detach_vpn_gateway (Some "vgw-1") (Some "vpc-1")]
  /\ is_mutating (detach_vpn_gateway (Some "vgw-1") (Some "vpc-1")) = true
  /\ outcome r = Raise EC2ResponseError
  /\ issued (run vpn_gateway Scenario.vgw_absent_by_id Account.empty)
     = [get_all_vpn_gateways QAll;
        detach_vpn_gateway (Some "vgw-1") (Some "vpc-1")]
  /\ outcome (run vpn_gateway Scenario.vgw_absent_by_id Account.empty)
     = Raise EC2ResponseError.
Proof. repeat split; vm_compute; reflexivity. Qed.

(** C6, as the code has it.  For every resource kind: when the lookup found
    nothing, [ensure_gone] issues no delete call and leaves the status as
    it was.  The only call it can issue is the detach call of the VPN
    gateway, issued when both a vpc and an id are known; whenever that call
    is not due (always, for a customer gateway and a VPN connection)
    [ensure_gone] does nothing at all: no call, the manager and its
    [changed] flag untouched. *)
Theorem ensure_gone_not_found :
  forall {W : Type} `{!Backend W} (k : Kind) (s : Manager k) (w : W),
    found_of k s = None ->
    let r := ensure_gone k s w in
    issued r = detach_calls k s
    /\ count is_delete (issued r) = 0
    /\ status_of k (self_after r) = status_of k s
    /\ (detach_calls k s = [] ->
        outcome r = Return tt /\ self_after r = s /\ world_after r = w
        /\ changed_of k (self_after r) = changed_of k s).
Proof.
  intros W B k s w Hnone r. subst r. destruct k; pick_kind; unfold detach_calls.
  - destruct (CustomerGatewayModule.cgw s) eqn:Hc; [done|].
    unfold CustomerGatewayModule.ensure_gone. read_self. by rewrite Hc.
  - destruct (VPNGatewayModule.vpn_gw s) eqn:Hc; [done|].
    unfold VPNGatewayModule.ensure_gone, VPNGatewayModule._detach_vpn_gw.
    read_self. destruct (truthy _ && truthy _).
    + unfold bind, call, modify, get_self; simpl.
      destruct (respond _ w) as [[[|]|] w1]; simpl; rewrite ?Hc; simpl;
        by repeat split.
    + unfold bind, ret, get_self; simpl. by rewrite Hc.
  - destruct (VPNConnectionModule.vpn_conn s) eqn:Hc; [done|].
    unfold VPNConnectionModule.ensure_gone. read_self. by rewrite Hc.
Qed.

(** Nothing found by tags and no id: the customer gateway manager is left
    alone. *)
Lemma ensure_gone_not_found_witness :
  let r := ensure_gone customer_gateway Scenario.cgw_not_found Account.empty in
  found_of customer_gateway Scenario.cgw_not_found = None
  /\ issued r = []
  /\ status_of customer_gateway (self_after r) = "gone"
  /\ changed_of customer_gateway (self_after r) = false.
Proof.
  intros r.
  pose proof (ensure_gone_not_found customer_gateway Scenario.cgw_not_found
                Account.empty eq_refl) as (Hcalls & _ & Hstatus & Hnoop).
  split; [reflexivity|]. split; [exact Hcalls|]. split; [exact Hstatus|].
  exact (proj2 (proj2 (proj2 (Hnoop eq_refl)))).
Defined.

(** ** [get_info] *)

Section GetInfo.
Context {W : Type} `{!Backend W}.

(** The report of the VPN gateway manager never raises. *)
Lemma vpn_gw_get_info_returns (s : VPNGatewayModule.Manager) (w : W) :
  exists info, outcome (VPNGatewayModule.get_info s w) = Return info.
Proof.
  unfold VPNGatewayModule.get_info. read_self.
  unfold bind, try_except, call, index0, ret; simpl.
  destruct (respond _ w) as [[[|g l]|] w1]; simpl; eauto.
Qed.

(** Nor does the report of the VPN connection manager. *)
Lemma vpn_conn_get_info_returns (s : VPNConnectionModule.Manager) (w : W) :
  exists info, outcome (VPNConnectionModule.get_info s w) = Return info.
Proof.
  unfold VPNConnectionModule.get_info. read_self.
  unfold bind, try_except, call, index0, ret; simpl.
  destruct (respond _ w) as [[[|c l]|] w1]; simpl; eauto.
Qed.

(** The report of the customer gateway manager raises exactly when neither
    an id nor an IP address is known: no branch of the [try] assigns
    [check_aws], and the test that follows reads it. *)
Lemma cgw_get_info_raises_iff (s : CustomerGatewayModule.Manager) (w : W) :
  outcome (CustomerGatewayModule.get_info s w)
    = Raise (UnboundLocalError "check_aws")
  <-> truthy (CustomerGatewayModule.id s) = false
      /\ truthy (CustomerGatewayModule.ip_address s) = false.
Proof.
  unfold CustomerGatewayModule.get_info. read_self.
  destruct (truthy (CustomerGatewayModule.id s));
    [|destruct (truthy (CustomerGatewayModule.ip_address s))];
    unfold bind, try_except, call, index0, ret, raise; simpl;
    try (destruct (respond _ w) as [[[|c l]|] w1]; simpl);
    intuition congruence.
Qed.
End GetInfo.

(** C7, the failing run.  Customer gateway, [state: absent], tags only, no
    matching gateway: [ensure_gone] has nothing to do and [get_info] raises
    [UnboundLocalError], for neither an id nor an IP address is known.  On
    every connection, [get_info] of the customer gateway manager raises in
    exactly that case. *)
Theorem cgw_get_info_unbound_check_aws :
  outcome (run customer_gateway Scenario.cgw_absent_by_tags Account.empty)
    = Raise (UnboundLocalError "check_aws")
  /\ forall {W : Type} `{!Backend W} (s : CustomerGatewayModule.Manager) (w : W),
      outcome (CustomerGatewayModule.get_info s w)
        = Raise (UnboundLocalError "check_aws")
      <-> truthy (CustomerGatewayModule.id s) = false
          /\ truthy (CustomerGatewayModule.ip_address s) = false.
Proof.
  split; [vm_compute; reflexivity|].
  intros W B s w. apply cgw_get_info_raises_iff.
Qed.

(** ** The lookup *)

Section Lookup.
Context {W : Type} `{!Backend W}.

Lemma bind_raise {S A B} (m : M W S A) (k : A -> M W S B) s w e :
  outcome (m s w) = Raise e ->
  bind m k s w = mkRun (Raise e) (self_after (m s w)) (world_after (m s w))
                       (issued (m s w)).
Proof. intros He. unfold bind. by rewrite He. Qed.

(** The tag search against the tag dictionaries the connection reports:
    it appends as many resources as there are dictionaries containing the
    desired pairs, and asks for the tags of each resource once. *)
Lemma found_by_tags_run {S R} (rid : R -> string) tags (rs : list R) :
  forall found (s : S) (w : W) ds w2,
    truthy_dict tags = true ->
    remote_tags (map rid rs) w = Some (ds, w2) ->
    exists picks,
      found_by_tags rid tags rs found s w
      = mkRun (Return (found ++ picks)) s w2
              (map (fun r => get_all_tags (Some (rid r))) rs)
      /\ length picks = matching tags ds.
Proof.
  induction rs as [|r rs IH]; intros found s w ds w2 Htags Hremote.
  - injection Hremote as <- <-. exists []. by rewrite app_nil_r.
  - simpl in Hremote.
    destruct (respond (get_all_tags (Some (rid r))) w) as [[ts|] w1] eqn:Hr;
      [|done].
    destruct (remote_tags (map rid rs) w1) as [[ds' w2']|] eqn:Hrest; [|done].
    injection Hremote as <- <-.
    simpl. unfold bind at 1, call. rewrite Hr. simpl. rewrite Htags. simpl.
    unfold matching. simpl.
    destruct (items_issubset tags (tags_to_dict ts)).
    + destruct (IH (found ++ [r]) s w1 ds' w2' Htags Hrest) as (picks & -> & Hlen).
      exists (r :: picks). simpl. rewrite <- app_assoc. simpl.
      split; [done|]. by rewrite Hlen.
    + destruct (IH found s w1 ds' w2' Htags Hrest) as (picks & -> & Hlen).
      exists picks. by split.
Qed.

Lemma several_found {R} (picks : list R) :
  1 < length picks ->
  Nat.eqb (length picks) 1 = false /\ Nat.ltb 1 (length picks) = true.
Proof.
  intros Hlen. split.
  - apply Nat.eqb_neq. lia.
  - by apply Nat.ltb_lt.
Qed.

Lemma reads_of_tags {R} (rid : R -> string) (rs : list R) :
  Forall (fun c => is_mutating c = false)
         (map (fun r => get_all_tags (Some (rid r))) rs).
Proof. apply Forall_forall. intros c Hc. apply list_elem_of_fmap in Hc as [r [-> _]]. done. Qed.

Lemma cgw_lookup_several (s : CustomerGatewayModule.Manager) (w : W) l w1 ds w2 :
  truthy (CustomerGatewayModule.id s) = false ->
  truthy_dict (CustomerGatewayModule.tags s) = true ->
  respond (get_all_customer_gateways QAll) w = (Ret l, w1) ->
  remote_tags (map cgw_id l) w1 = Some (ds, w2) ->
  1 < matching (CustomerGatewayModule.tags s) ds ->
  let r := CustomerGatewayModule._get_customer_gateway s w in
  outcome r = Raise (ModuleFailure (more_than_one customer_gateway))
  /\ Forall (fun c => is_mutating c = false) (issued r).
Proof.
  intros Hid Htags Hlist Hremote Hmany r.
  assert (r = mkRun (Raise (ModuleFailure (more_than_one customer_gateway))) s w2
                (get_all_customer_gateways QAll
                 :: map (fun x => get_all_tags (Some (cgw_id x))) l)) as ->.
  { subst r. unfold CustomerGatewayModule._get_customer_gateway.
    unfold bind, call. rewrite Hlist. simpl. rewrite Hid, Htags.
    destruct (found_by_tags_run cgw_id _ l [] s w1 ds w2 Htags Hremote)
      as (picks & Hrun & Hlen).
    rewrite Hrun. rewrite <- Hlen in Hmany.
    destruct (several_found picks Hmany) as [Hone Hmore].
    cbn -[Nat.eqb Nat.ltb]. rewrite Hone, Hmore. unfold after. simpl.
    by rewrite ?app_nil_r. }
  simpl. split; [done|]. constructor; [done | apply reads_of_tags].
Qed.

Lemma vpn_gw_lookup_several (s : VPNGatewayModule.Manager) (w : W) l w1 ds w2 :
  truthy (VPNGatewayModule.id s) = false ->
  truthy_dict (VPNGatewayModule.tags s) = true ->
  respond (get_all_vpn_gateways QAll) w = (Ret l, w1) ->
  remote_tags (map vgw_id l) w1 = Some (ds, w2) ->
  1 < matching (VPNGatewayModule.tags s) ds ->
  let r := VPNGatewayModule._get_vpn_gateway s w in
  outcome r = Raise (ModuleFailure (more_than_one vpn_gateway))
  /\ Forall (fun c => is_mutating c = false) (issued r).
Proof.
  intros Hid Htags Hlist Hremote Hmany r.
  assert (r = mkRun (Raise (ModuleFailure (more_than_one vpn_gateway))) s w2
                (get_all_vpn_gateways QAll
                 :: map (fun x => get_all_tags (Some (vgw_id x))) l)) as ->.
  { subst r. unfold VPNGatewayModule._get_vpn_gateway.
    unfold bind, call. rewrite Hlist. simpl. rewrite Hid, Htags.
    destruct (found_by_tags_run vgw_id _ l [] s w1 ds w2 Htags Hremote)
      as (picks & Hrun & Hlen).
    rewrite Hrun. rewrite <- Hlen in Hmany.
    destruct (several_found picks Hmany) as [Hone Hmore].
    cbn -[Nat.eqb Nat.ltb]. rewrite Hone, Hmore. unfold after. simpl.
    by rewrite ?app_nil_r. }
  simpl. split; [done|]. constructor; [done | apply reads_of_tags].
Qed.

Lemma vpn_conn_lookup_several (s : VPNConnectionModule.Manager) (w : W) l w1 ds w2 :
  truthy (VPNConnectionModule.id s) = false ->
  truthy_dict (VPNConnectionModule.tags s) = true ->
  respond (get_all_vpn_connections QAll) w = (Ret l, w1) ->
  remote_tags (map vpn_id l) w1 = Some (ds, w2) ->
  1 < matching (VPNConnectionModule.tags s) ds ->
  let r := VPNConnectionModule._get_vpn_connection s w in
  outcome r = Raise (ModuleFailure (more_than_one vpn_connection))
  /\ Forall (fun c => is_mutating c = false) (issued r).
Proof.
  intros Hid Htags Hlist Hremote Hmany r.
  assert (r = mkRun (Raise (ModuleFailure (more_than_one vpn_connection))) s w2
                (get_all_vpn_connections QAll
                 :: map (fun x => get_all_tags (Some (vpn_id x))) l)) as ->.
  { subst r. unfold VPNConnectionModule._get_vpn_connection.
    unfold bind, call. rewrite Hlist. simpl. rewrite Hid, Htags.
    destruct (found_by_tags_run vpn_id _ l [] s w1 ds w2 Htags Hremote)
      as (picks & Hrun & Hlen).
    rewrite Hrun. rewrite <- Hlen in Hmany.
    destruct (several_found picks Hmany) as [Hone Hmore].
    cbn -[Nat.eqb Nat.ltb]. rewrite Hone, Hmore. unfold after. simpl.
    by rewrite ?app_nil_r. }
  simpl. split; [done|]. constructor; [done | apply reads_of_tags].
Qed.

(** A lookup that aborts takes the constructor and the module run with
    it: nothing further is issued. *)
Lemma aborts_in_lookup {S A} (look : M W S A) (store : A -> M W S unit)
    (rest : unit -> M W S Result) (s : S) (w : W) e :
  connect_to_aws w = None ->
  outcome (look s w) = Raise e ->
  let r := bind (bind _get_aws_connection (fun _ => bind look store))
                rest s w in
  outcome r = Raise e /\ issued r = issued (look s w).
Proof.
  intros Hconn He r.
  assert (bind _get_aws_connection (fun _ => bind look store) s w
          = mkRun (Raise e) (self_after (look s w)) (world_after (look s w))
                  (issued (look s w))) as Hinit.
  { unfold bind at 1, _get_aws_connection. rewrite Hconn. simpl.
    by rewrite (bind_raise look store s w e He). }
  subst r. rewrite (bind_raise _ _ s w e); by rewrite Hinit.
Qed.
End Lookup.

(** C3, as the code has it.  For every resource kind and both desired
    states: the module is run with its required inputs, without an id and
    with non-empty tags; the listing
    and the tag listings answer; more than one of the listed resources
    carries every desired pair.  Then the run aborts with the kind's
    "Found more than one ..." failure, raised by the lookup in the
    constructor, so that neither [ensure_ok] nor [ensure_gone] gets to act,
    and every call issued up to the abort is a read. *)
Theorem lookup_more_than_one_aborts :
  forall {W : Type} `{!Backend W} (k : Kind) (p : Params k) (w : W)
         ids w1 ds w2,
    required_inputs k p = true ->
    connect_to_aws w = None ->
    truthy (id_of k (fresh k p)) = false ->
    tags_of k (fresh k p) <> ∅ ->
    listed_ids k w = (Ret ids, w1) ->
    remote_tags ids w1 = Some (ds, w2) ->
    1 < matching (tags_of k (fresh k p)) ds ->
    let r := run k p w in
    outcome r = Raise (ModuleFailure (more_than_one k))
    /\ Forall (fun c => is_mutating c = false) (issued r).
Proof.
  intros W B k p w ids w1 ds w2 Hreq Hconn Hid Htags Hlist Hremote Hmany r.
  subst r. apply truthy_dict_true in Htags. destruct k; pick_kind.
  - destruct (respond (get_all_customer_gateways QAll) w) as [[l|] w'] eqn:Hl;
      [|done].
    injection Hlist as <- <-.
    destruct (cgw_lookup_several _ w l w' ds w2 Hid Htags Hl Hremote Hmany)
      as [Hout Hreads].
    unfold CustomerGatewayModule.run, CustomerGatewayModule.main.
    apply andb_true_iff in Hreq as [-> Hip]. simpl.
    replace (match CustomerGatewayModule.p_state p with
             | present => negb (truthy (CustomerGatewayModule.p_ip_address p))
             | absent => false
             end) with false
      by (destruct (CustomerGatewayModule.p_state p); [by rewrite Hip | done]).
    unfold CustomerGatewayModule.__init__.
    match goal with
    | |- context [bind (bind _get_aws_connection (fun _ => bind ?look ?store))
                       ?rest ?s _] =>
        destruct (aborts_in_lookup look store rest s w _ Hconn Hout)
          as [-> ->]
    end.
    by split.
  - destruct (respond (get_all_vpn_gateways QAll) w) as [[l|] w'] eqn:Hl;
      [|done].
    injection Hlist as <- <-.
    destruct (vpn_gw_lookup_several _ w l w' ds w2 Hid Htags Hl Hremote Hmany)
      as [Hout Hreads].
    unfold VPNGatewayModule.run, VPNGatewayModule.main.
    rewrite Hreq. simpl. unfold VPNGatewayModule.__init__.
    match goal with
    | |- context [bind (bind _get_aws_connection (fun _ => bind ?look ?store))
                       ?rest ?s _] =>
        destruct (aborts_in_lookup look store rest s w _ Hconn Hout)
          as [-> ->]
    end.
    by split.
  - destruct (respond (get_all_vpn_connections QAll) w) as [[l|] w'] eqn:Hl;
      [|done].
    injection Hlist as <- <-.
    destruct (vpn_conn_lookup_several _ w l w' ds w2 Hid Htags Hl Hremote Hmany)
      as [Hout Hreads].
    unfold VPNConnectionModule.run, VPNConnectionModule.main.
    rewrite Hreq. simpl. unfold VPNConnectionModule.__init__.
    match goal with
    | |- context [bind (bind _get_aws_connection (fun _ => bind ?look ?store))
                       ?rest ?s _] =>
        destruct (aborts_in_lookup look store rest s w _ Hconn Hout)
          as [-> ->]
    end.
    by split.
Qed.

(** Two customer gateways carry the desired tag: the run for
    [state: present] aborts after three reads. *)
Lemma lookup_more_than_one_aborts_witness :
  let r := run customer_gateway Scenario.cgw_present Scenario.account_two_cgws in
  outcome r
  = Raise (ModuleFailure
      "Found more than one customer gateway based on the supplied criteria, aborting")
  /\ Forall (fun c => is_mutating c = false) (issued r).
Proof.
  refine (lookup_more_than_one_aborts customer_gateway Scenario.cgw_present
            Scenario.account_two_cgws ["cgw-1"; "cgw-2"]
            Scenario.account_two_cgws
            [Scenario.name_tag; Scenario.name_tag]
            Scenario.account_two_cgws eq_refl eq_refl eq_refl _ eq_refl
            eq_refl _).
  - apply truthy_dict_true. vm_compute. reflexivity.
  - vm_compute. lia.
Defined.

(** C3, against the claim.  Customer gateway, [state: absent], run with
    the id [cgw-1] beside the tag [Name: example_cgw], on the account
    whose two gateways both carry that tag: more than one resource matches
    the tag criteria, yet the lookup goes by the id and never asks for a
    tag, the run does not abort, [ensure_gone] deletes [cgw-1], and the
    result reports [changed = True]. *)
Lemma supplied_id_overrides_tag_ambiguity_counterexample :
  let p := Overlap.cgw_absent_id_and_tags in
  let w := Scenario.account_two_cgws in
  let r := run customer_gateway p w in
  required_inputs customer_gateway p = true
  /\ listed_ids customer_gateway w = (Ret ["cgw-1"; "cgw-2"], w)
  /\ remote_tags ["cgw-1"; "cgw-2"] w
     = Some ([Scenario.name_tag; Scenario.name_tag], w)
  /\ matching (tags_of customer_gateway (fresh customer_gateway p))
              [Scenario.name_tag; Scenario.name_tag] = 2
  /\ issued r = [get_all_customer_gateways QAll;
                 delete_customer_gateway (Some "cgw-1");
                 get_all_customer_gateways (QIds [Some "cgw-1"])]
  /\ is_mutating (delete_customer_gateway (Some "cgw-1")) = true
  /\ res_changed <$> outcome_value (outcome r) = Some true.
Proof. intros p w r. repeat split; vm_compute; reflexivity. Qed.

(** ** Route propagation of the VPN gateway *)

Section RoutePropagation.
Context {W : Type} `{!Backend W}.
Import VPNGatewayModule.

(** The loop asks for the route tables in order and stops at the first
    call that raises; it never assigns to the manager. *)
Lemma enable_each_prefix routes :
  forall results (s : Manager) (w : W),
    self_after (enable_each routes results s w) = s
    /\ exists n, issued (enable_each routes results s w)
                 = map (enable_call s) (take n routes).
Proof.
  induction routes as [|route rest IH]; intros results s w; simpl.
  - split; [done|]. by exists 0.
  - read_self. unfold bind, call.
    destruct (respond _ w) as [[b|] w1]; simpl.
    + destruct b.
      * destruct (IH (results ++ [true]) s w1) as [-> [n ->]].
        split; [done|]. by exists (S n).
      * destruct (IH results s w1) as [-> [n ->]].
        split; [done|]. by exists (S n).
    + split; [done|]. by exists 1.
Qed.

Lemma disable_each_prefix routes :
  forall results (s : Manager) (w : W),
    self_after (disable_each routes results s w) = s
    /\ exists n, issued (disable_each routes results s w)
                 = map (disable_call s) (take n routes).
Proof.
  induction routes as [|route rest IH]; intros results s w; simpl.
  - split; [done|]. by exists 0.
  - read_self. unfold bind, call.
    destruct (respond _ w) as [[b|] w1]; simpl.
    + destruct b.
      * destruct (IH (results ++ [true]) s w1) as [-> [n ->]].
        split; [done|]. by exists (S n).
      * destruct (IH results s w1) as [-> [n ->]].
        split; [done|]. by exists (S n).
    + split; [done|]. by exists 1.
Qed.

(** When no call raises, the loop asks once per route table and collects
    the truthy results. *)
Lemma enable_each_run routes :
  forall results (s : Manager) (w : W) bs w2,
    enable_replies routes (id s) w = Some (bs, w2) ->
    enable_each routes results s w
    = mkRun (Return (results ++ List.filter (fun b => b) bs)) s w2
            (map (enable_call s) routes).
Proof.
  induction routes as [|route rest IH]; intros results s w bs w2 Hrep;
    simpl in *.
  - injection Hrep as <- <-. simpl. by rewrite app_nil_r.
  - read_self. unfold bind, call.
    destruct (respond _ w) as [[b|] w1]; [|done].
    destruct (enable_replies rest (id s) w1) as [[bs' w2']|] eqn:Hrest; [|done].
    injection Hrep as <- <-. simpl.
    destruct b; rewrite (IH _ s w1 bs' w2' Hrest); simpl; [|done].
    by rewrite <- app_assoc.
Qed.

Lemma collected_truthy (bs : list bool) :
  List.filter (fun b => b) bs = [] <-> existsb (fun b => b) bs = false.
Proof.
  induction bs as [|[] bs IH]; simpl; [done| |done]. split; discriminate.
Qed.

Lemma dispatch_routes (state : State) (s : Manager) (w : W) routes g :
  route_table_ids s = Some routes -> routes <> [] -> vpn_gw s = Some g ->
  dispatch state s w
  = match state with
    | present => _enable_route_propagation s w
    | absent => _disable_route_propagation s w
    end.
Proof.
  intros Hroutes Hne Hgw. unfold dispatch. read_self.
  rewrite Hroutes, Hgw. destruct routes; [done|]. simpl.
  by destruct state.
Qed.

Lemma enable_route_propagation_calls (s : Manager) (w : W) routes :
  route_table_ids s = Some routes ->
  exists n, issued (_enable_route_propagation s w)
            = map (enable_call s) (take n routes).
Proof.
  intros Hroutes. unfold _enable_route_propagation. read_self.
  rewrite Hroutes. unfold bind.
  destruct (enable_each_prefix routes [] s w) as [Hself [n Hn]].
  exists n. destruct (outcome (enable_each routes [] s w)) as [[|b bs]|e];
    simpl; by rewrite ?app_nil_r.
Qed.

Lemma disable_route_propagation_calls (s : Manager) (w : W) routes :
  route_table_ids s = Some routes ->
  exists n, issued (_disable_route_propagation s w)
            = map (disable_call s) (take n routes).
Proof.
  intros Hroutes. unfold _disable_route_propagation. read_self.
  rewrite Hroutes. unfold bind.
  destruct (disable_each_prefix routes [] s w) as [Hself [n Hn]].
  exists n. destruct (outcome (disable_each routes [] s w)) as [[|b bs]|e];
    simpl; by rewrite ?app_nil_r.
Qed.
(** In the route propagation branch every call is an enable call, or a
    disable call, for one of the listed route tables. *)
Lemma dispatch_route_calls (state : State) (s : Manager) (w : W) routes g :
  route_table_ids s = Some routes -> routes <> [] -> vpn_gw s = Some g ->
  Forall (fun c => exists route,
              route ∈ routes
              /\ c = match state with
                    | present => enable_call s route
                    | absent => disable_call s route
                    end)
         (issued (dispatch state s w)).
Proof.
  intros Hroutes Hne Hgw.
  rewrite (dispatch_routes state s w routes g Hroutes Hne Hgw).
  destruct state.
  - destruct (enable_route_propagation_calls s w routes Hroutes) as [n ->].
    apply Forall_forall. intros c Hc.
    apply list_elem_of_fmap in Hc as [route [-> Hin]].
    exists route. split; [|done]. by eapply subseteq_take.
  - destruct (disable_route_propagation_calls s w routes Hroutes) as [n ->].
    apply Forall_forall. intros c Hc.
    apply list_elem_of_fmap in Hc as [route [-> Hin]].
    exists route. split; [|done]. by eapply subseteq_take.
Qed.
End RoutePropagation.

(** C8.  VPN gateway, [state: present], a non-empty list of route tables
    and a gateway found by the lookup: [main] does not take the
    [ensure_ok] branch but the route propagation one; the calls it issues
    are enable calls for the listed route tables, in order and at most once
    each (the loop stops at a call that raises); when no call raises there
    is exactly one enable call per listed route table, and [changed] ends
    up true as soon as one of the results is truthy. *)
Theorem route_propagation_enabled_per_table :
  forall {W : Type} `{!Backend W} (s : VPNGatewayModule.Manager) (w : W)
         routes g,
    VPNGatewayModule.route_table_ids s = Some routes ->
    routes <> [] ->
    VPNGatewayModule.vpn_gw s = Some g ->
    let r := VPNGatewayModule.dispatch present s w in
    r = VPNGatewayModule._enable_route_propagation s w
    /\ (exists n, issued r = map (enable_call s) (take n routes))
    /\ forall bs w2,
        enable_replies routes (VPNGatewayModule.id s) w = Some (bs, w2) ->
        outcome r = Return tt
        /\ issued r = map (enable_call s) routes
        /\ VPNGatewayModule.changed (self_after r)
           = VPNGatewayModule.changed s || existsb (fun b => b) bs.
Proof.
  intros W B s w routes g Hroutes Hne Hgw r. subst r.
  rewrite (dispatch_routes present s w routes g Hroutes Hne Hgw).
  split; [done|]. split; [by apply enable_route_propagation_calls|].
  intros bs w2 Hrep. unfold VPNGatewayModule._enable_route_propagation.
  read_self. rewrite Hroutes. unfold bind.
  rewrite (enable_each_run routes [] s w bs w2 Hrep). simpl.
  pose proof (collected_truthy bs) as Hcol.
  destruct (List.filter (fun b => b) bs) as [|b bs']; simpl.
  - rewrite (proj1 Hcol eq_refl). rewrite orb_false_r, app_nil_r. done.
  - destruct (existsb (fun b0 => b0) bs) eqn:He.
    + rewrite orb_true_r, app_nil_r. repeat split.
    + discriminate (proj2 Hcol eq_refl).
Qed.

(** The gateway [vgw-1] found by id, two route tables: two enable calls,
    and [changed] becomes true. *)
Lemma route_propagation_enabled_per_table_witness :
  let s := Scenario.vgw_found_with_routes in
  let r := VPNGatewayModule.dispatch present s Scenario.account_vgw in
  issued r = [enable_vgw_route_propagation "rtb-1" (Some "vgw-1");
              enable_vgw_route_propagation "rtb-2" (Some "vgw-1")]
  /\ VPNGatewayModule.changed (self_after r) = true.
Proof.
  intros s r.
  assert (Hne : ["rtb-1"; "rtb-2"] <> @nil string) by discriminate.
  pose proof (route_propagation_enabled_per_table s Scenario.account_vgw
                ["rtb-1"; "rtb-2"] Scenario.vgw_1 eq_refl Hne eq_refl)
    as (_ & _ & Hall).
  destruct (Hall [true; true] Scenario.account_vgw eq_refl) as (_ & Hcalls & Hch).
  split; [exact Hcalls | exact Hch].
Defined.

(** C10.  VPN gateway, a non-empty list of route tables and a gateway
    found by the lookup: whatever the connection answers, every call that
    [main] issues between the construction of the manager and the report
    is an enable call ([state: present]) or a disable call
    ([state: absent]) for one of the listed route tables.  So there is no
    tag listing and no tag creation, no create, no attach, no detach and no
    delete call. *)
Theorem route_propagation_touches_nothing_else :
  forall {W : Type} `{!Backend W} (state : State)
         (s : VPNGatewayModule.Manager) (w : W) routes g,
    VPNGatewayModule.route_table_ids s = Some routes ->
    routes <> [] ->
    VPNGatewayModule.vpn_gw s = Some g ->
    let r := VPNGatewayModule.dispatch state s w in
    Forall (fun c => exists route,
                route ∈ routes
                /\ c = match state with
                      | present => enable_call s route
                      | absent => disable_call s route
                      end) (issued r)
    /\ count is_create_tags (issued r) = 0
    /\ count is_get_all_tags (issued r) = 0
    /\ count is_create (issued r) = 0
    /\ count is_attach (issued r) = 0
    /\ count is_detach (issued r) = 0
    /\ count is_delete (issued r) = 0.
Proof.
  intros W B state s w routes g Hroutes Hne Hgw r. subst r.
  pose proof (dispatch_route_calls state s w routes g Hroutes Hne Hgw) as Hall.
  split; [exact Hall|].
  repeat split; apply count_none; (eapply Forall_impl; [exact Hall|]);
    intros c [route [_ ->]]; destruct state; try done.
Qed.

(** Same gateway and route tables, [state: absent]: two disable calls and
    nothing else. *)
Lemma route_propagation_touches_nothing_else_witness :
  let s := Scenario.vgw_found_with_routes in
  let r := VPNGatewayModule.dispatch absent s Scenario.account_vgw in
  count is_detach (issued r) = 0 /\ count is_delete (issued r) = 0.
Proof.
  intros s r.
  assert (Hne : ["rtb-1"; "rtb-2"] <> @nil string) by discriminate.
  pose proof (route_propagation_touches_nothing_else absent s
                Scenario.account_vgw ["rtb-1"; "rtb-2"] Scenario.vgw_1
                eq_refl Hne eq_refl)
    as (_ & _ & _ & _ & _ & Hdetach & Hdelete).
  split; [exact Hdetach | exact Hdelete].
Defined.

(** ** The status and the [changed] flag along a sequence of operations *)

Section Invariant.
Context {W : Type} `{!Backend W}.

Lemma bind_assoc {S A B C} (m : M W S A) (f : A -> M W S B)
    (g : B -> M W S C) s w :
  bind (bind m f) g s w = bind m (fun a => bind (f a) g) s w.
Proof.
  unfold bind. destruct (outcome (m s w)) as [a|e]; simpl; [|done].
  destruct (outcome (f a _ _)) as [b|e]; simpl; [|done].
  unfold after. simpl. by rewrite app_assoc.
Qed.

Lemma bind_ext {S A B} (m : M W S A) (f g : A -> M W S B) s w :
  (forall a s' w', f a s' w' = g a s' w') -> bind m f s w = bind m g s w.
Proof.
  intros Hfg. unfold bind. destruct (outcome (m s w)); [|done].
  by rewrite Hfg.
Qed.

Lemma perform_all_app k (ops1 ops2 : list Operation) (s : Manager k) (w : W) :
  perform_all k (ops1 ++ ops2) s w
  = bind (perform_all k ops1) (fun _ => perform_all k ops2) s w.
Proof.
  revert s w. induction ops1 as [|o ops1 IH]; intros s w; [reflexivity|].
  simpl. rewrite bind_assoc. apply bind_ext. intros _. apply IH.
Qed.

(** Every assignment the managers make to [status] stores one of the four
    values, and every assignment to [changed] stores [True]. *)
Ltac settle :=
  match goal with
  | s : CustomerGatewayModule.Manager, H : settled _ _ ?s' |- settled _ _ _ =>
      destruct s'
  | s : VPNGatewayModule.Manager, H : settled _ _ ?s' |- settled _ _ _ =>
      destruct s'
  | s : VPNConnectionModule.Manager, H : settled _ _ ?s' |- settled _ _ _ =>
      destruct s'
  end;
  unfold settled, valid_status in *; simpl in *; intuition.

Lemma perform_settled k b (o : Operation) : keeps (settled k b) (perform k o).
Proof.
  destruct k, o; unfold perform; pick_kind.
  - unfold CustomerGatewayModule.__init__,
      CustomerGatewayModule._get_customer_gateway.
    bound; settle.
  - unfold CustomerGatewayModule.ensure_ok, CustomerGatewayModule._create_cgw,
      CustomerGatewayModule._set_tags.
    bound; settle.
  - unfold CustomerGatewayModule.ensure_gone, CustomerGatewayModule._delete_cgw.
    bound; settle.
  - unfold CustomerGatewayModule.get_info. bound; settle.
  - unfold VPNGatewayModule.__init__, VPNGatewayModule._get_vpn_gateway.
    bound; settle.
  - unfold VPNGatewayModule.ensure_ok, VPNGatewayModule._create_vpn_gw,
      VPNGatewayModule._set_tags, VPNGatewayModule._attach_vpn_gw.
    bound; settle.
  - unfold VPNGatewayModule.ensure_gone, VPNGatewayModule._delete_vpn_gw,
      VPNGatewayModule._detach_vpn_gw.
    bound; settle.
  - unfold VPNGatewayModule.get_info. bound; settle.
  - unfold VPNConnectionModule.__init__,
      VPNConnectionModule._get_vpn_connection.
    bound; settle.
  - unfold VPNConnectionModule.ensure_ok, VPNConnectionModule._create_vpn_conn,
      VPNConnectionModule._set_tags.
    bound; settle.
  - unfold VPNConnectionModule.ensure_gone,
      VPNConnectionModule._delete_vpn_conn.
    bound; settle.
  - unfold VPNConnectionModule.get_info. bound; settle.
Qed.

Lemma perform_all_settled k b (ops : list Operation) :
  keeps (settled k b) (perform_all k ops).
Proof.
  induction ops as [|o ops IH]; simpl.
  - apply keeps_ret.
  - apply keeps_bind; [apply perform_settled | intros _; apply IH].
Qed.

Lemma fresh_settled k (p : Params k) : settled k false (fresh k p).
Proof. destruct k; split; try done; by left. Qed.

(** The route propagation branch of the VPN gateway, which [main] can take
    instead of [ensure_ok] and [ensure_gone], keeps the invariant too. *)
Lemma vpn_gw_dispatch_settled b (state : State) :
  keeps (settled vpn_gateway b) (VPNGatewayModule.dispatch state).
Proof.
  assert (forall routes results,
            keeps (settled vpn_gateway b)
                  (VPNGatewayModule.enable_each routes results)) as Hen.
  { intros routes results s w Hs.
    by rewrite (proj1 (enable_each_prefix routes results s w)). }
  assert (forall routes results,
            keeps (settled vpn_gateway b)
                  (VPNGatewayModule.disable_each routes results)) as Hdis.
  { intros routes results s w Hs.
    by rewrite (proj1 (disable_each_prefix routes results s w)). }
  unfold VPNGatewayModule.dispatch. apply keeps_bind; [apply keeps_get_self|].
  intros s. destruct state, (_ && _).
  - unfold VPNGatewayModule._enable_route_propagation.
    bound; try apply Hen; settle.
  - exact (perform_settled vpn_gateway b do_ensure_ok).
  - unfold VPNGatewayModule._disable_route_propagation.
    bound; try apply Hdis; settle.
  - exact (perform_settled vpn_gateway b do_ensure_gone).
Qed.
End Invariant.

(** C9.  For every resource kind, parameters and sequence of lookups,
    [ensure_ok], [ensure_gone] and [get_info] run on the manager built from
    the parameters, whatever the connection answers: [changed] starts
    false; the status is one of ['gone'], ['ok'], ['created'], ['deleted']
    at the end of the sequence, hence at every point of it; and if
    [changed] is true after a first part of the sequence it is true after
    any continuation. *)
Theorem status_valid_changed_monotone :
  forall {W : Type} `{!Backend W} (k : Kind) (p : Params k)
         (ops1 ops2 : list Operation) (w : W),
    let s0 := fresh k p in
    changed_of k s0 = false
    /\ valid_status (status_of k (self_after (perform_all k (ops1 ++ ops2) s0 w)))
    /\ (changed_of k (self_after (perform_all k ops1 s0 w)) = true ->
        changed_of k (self_after (perform_all k (ops1 ++ ops2) s0 w)) = true).
Proof.
  intros W B k p ops1 ops2 w s0. split; [by destruct k|]. split.
  - apply (perform_all_settled k false (ops1 ++ ops2) s0 w), fresh_settled.
  - intros Hchanged. rewrite perform_all_app. unfold bind.
    pose proof (perform_all_settled k false ops1 s0 w (fresh_settled k p))
      as [Hvalid _].
    destruct (outcome (perform_all k ops1 s0 w)); simpl; [|done].
    by apply (perform_all_settled k true ops2).
Qed.

(** A customer gateway created by [ensure_ok] and then reported and
    deleted: [changed] is true after the first step and stays true. *)
Lemma status_valid_changed_monotone_witness :
  let s0 := fresh customer_gateway Scenario.cgw_present in
  let ops1 := [do_lookup; do_ensure_ok] in
  let ops2 := [do_get_info; do_ensure_gone] in
  changed_of customer_gateway
    (self_after (perform_all customer_gateway ops1 s0 Account.empty)) = true
  /\ changed_of customer_gateway
       (self_after (perform_all customer_gateway (ops1 ++ ops2) s0
                      Account.empty)) = true.
Proof.
  intros s0 ops1 ops2.
  assert (changed_of customer_gateway
            (self_after (perform_all customer_gateway ops1 s0 Account.empty))
          = true) as Hfirst by (vm_compute; reflexivity).
  split; [exact Hfirst|].
  exact (proj2 (proj2 (status_valid_changed_monotone customer_gateway
                         Scenario.cgw_present ops1 ops2 Account.empty))
               Hfirst).
Defined.

(** ** Whole runs of the modules *)

Section Runs.
Context {W : Type} `{!Backend W}.

Lemma issued_bind {S A B} (Q : Call -> Prop) (m : M W S A)
    (k : A -> M W S B) s w :
  Forall Q (issued (m s w)) ->
  (forall a, outcome (m s w) = Return a ->
             Forall Q (issued (k a (self_after (m s w)) (world_after (m s w))))) ->
  Forall Q (issued (bind m k s w)).
Proof.
  intros Hm Hk. unfold bind.
  destruct (outcome (m s w)) as [a|e]; simpl; [|done].
  apply Forall_app. split; [done | by apply Hk].
Qed.

(** The constructors only read. *)
Lemma cgw_init_reads :
  emits (fun c => is_read c = true) CustomerGatewayModule.__init__.
Proof.
  unfold CustomerGatewayModule.__init__,
    CustomerGatewayModule._get_customer_gateway.
  bound; try done. by apply emits_found_by_tags.
Qed.

Lemma vpn_gw_init_reads :
  emits (fun c => is_read c = true) VPNGatewayModule.__init__.
Proof.
  unfold VPNGatewayModule.__init__, VPNGatewayModule._get_vpn_gateway.
  bound; try done. by apply emits_found_by_tags.
Qed.

Lemma vpn_conn_init_reads :
  emits (fun c => is_read c = true) VPNConnectionModule.__init__.
Proof.
  unfold VPNConnectionModule.__init__,
    VPNConnectionModule._get_vpn_connection.
  bound; try done. by apply emits_found_by_tags.
Qed.

Lemma vpn_gw_get_info_reads :
  emits (fun c => is_read c = true) VPNGatewayModule.get_info.
Proof. unfold VPNGatewayModule.get_info. bound; done. Qed.

(** The constructor of the VPN gateway manager leaves the list of route
    tables as the parameters gave it. *)
Lemma vpn_gw_init_route_tables routes :
  keeps (fun s => VPNGatewayModule.route_table_ids s = routes)
        VPNGatewayModule.__init__.
Proof.
  unfold VPNGatewayModule.__init__, VPNGatewayModule._get_vpn_gateway.
  bound; by match goal with s : VPNGatewayModule.Manager |- _ => destruct s end.
Qed.

(** The frame of route propagation on the whole run of the VPN gateway
    module: with route tables in the parameters and a gateway found by the
    constructor, every call of the run is a read (the lookup and the fetch
    for the report) or a route propagation call. *)
Lemma vpn_gw_run_route_propagation_only (p : VPNGatewayModule.Params) (w : W) :
  truthy_list (VPNGatewayModule.p_route_table_ids p) = true ->
  VPNGatewayModule.vpn_gw
    (self_after (VPNGatewayModule.__init__ (VPNGatewayModule.fresh p) w))
  <> None ->
  Forall (fun c => is_read c = true \/ is_route_propagation c = true)
         (issued (VPNGatewayModule.run p w)).
Proof.
  intros Hroutes Hfound. unfold VPNGatewayModule.run, VPNGatewayModule.main.
  destruct (negb _); [constructor|].
  pose proof (vpn_gw_init_route_tables (VPNGatewayModule.p_route_table_ids p)
                (VPNGatewayModule.fresh p) w eq_refl) as Hkept.
  set (r0 := VPNGatewayModule.__init__ (VPNGatewayModule.fresh p) w) in *.
  apply issued_bind.
  { eapply Forall_impl; [apply vpn_gw_init_reads|]. by left. }
  intros _ _. apply issued_bind.
  - destruct (VPNGatewayModule.p_route_table_ids p) as [[|route routes]|]
      eqn:Hp; try done.
    destruct (VPNGatewayModule.vpn_gw (self_after r0)) as [g|] eqn:Hg; [|done].
    eapply Forall_impl;
      [apply (dispatch_route_calls _ _ _ (route :: routes) g); done|].
    intros c [rt [_ ->]]. right. by destruct (VPNGatewayModule.p_state p).
  - intros _ _. read_self. apply issued_bind.
    + eapply Forall_impl; [apply vpn_gw_get_info_reads|]. by left.
    + intros info _. constructor.
Qed.

(** The minimal report: the fetch by id raised or returned nothing. *)
Lemma vpn_gw_get_info_minimal (s : VPNGatewayModule.Manager) (w : W) :
  (forall g l, (respond (get_all_vpn_gateways (QIds [VPNGatewayModule.id s])) w).1
               <> Ret (g :: l)) ->
  outcome (VPNGatewayModule.get_info s w)
  = Return [("id", py_str (VPNGatewayModule.id s));
            ("status", PyStr (VPNGatewayModule.status s))].
Proof.
  intros Hnone. unfold VPNGatewayModule.get_info. read_self.
  unfold bind, try_except, call, index0, ret, raise; simpl.
  destruct (respond _ w) as [[[|g l]|] w1]; simpl in *; try done.
  by destruct (Hnone g l).
Qed.

Lemma vpn_conn_get_info_minimal (s : VPNConnectionModule.Manager) (w : W) :
  (forall c l,
     (respond (get_all_vpn_connections (QIds [VPNConnectionModule.id s])) w).1
     <> Ret (c :: l)) ->
  outcome (VPNConnectionModule.get_info s w)
  = Return [("id", py_str (VPNConnectionModule.id s));
            ("status", PyStr (VPNConnectionModule.status s))].
Proof.
  intros Hnone. unfold VPNConnectionModule.get_info. read_self.
  unfold bind, try_except, call, index0, ret, raise; simpl.
  destruct (respond _ w) as [[[|c l]|] w1]; simpl in *; try done.
  by destruct (Hnone c l).
Qed.

Lemma cgw_get_info_minimal (s : CustomerGatewayModule.Manager) (w : W) :
  truthy (CustomerGatewayModule.id s) = true ->
  (forall c l,
     (respond (get_all_customer_gateways (QIds [CustomerGatewayModule.id s])) w).1
     <> Ret (c :: l)) ->
  outcome (CustomerGatewayModule.get_info s w)
  = Return [("ip_address", py_str (CustomerGatewayModule.ip_address s));
            ("id", py_str (CustomerGatewayModule.id s));
            ("status", PyStr (CustomerGatewayModule.status s))].
Proof.
  intros Hid Hnone. unfold CustomerGatewayModule.get_info. read_self.
  rewrite Hid.
  unfold bind, try_except, call, index0, ret, raise; simpl.
  destruct (respond _ w) as [[[|c l]|] w1]; simpl in *; try done.
  by destruct (Hnone c l).
Qed.
End Runs.

(** The end-to-end scenario of the customer gateway: present, with an IP
    address, an ASN and a name tag, no gateway in the account. *)
Example cgw_created_end_to_end :
  outcome (run customer_gateway Scenario.cgw_present Account.empty)
  = Return (mkResult true
      [("ip_address", PyStr "1.1.1.1"); ("id", PyStr "cgw-new");
       ("bgp_asn", PyInt 65000); ("type", PyStr "ipsec.1");
       ("status", PyStr "created")]).
Proof. vm_compute. reflexivity. Qed.

(** ** The id after the lookup *)

Section LookupId.
Context {W : Type} `{!Backend W}.

Lemma found_by_tags_self {S R} (rid : R -> string) tags rs found
    (s : S) (w : W) :
  self_after (found_by_tags rid tags rs found s w) = s.
Proof. by apply (keeps_found_by_tags (fun s' => s' = s)). Qed.

Lemma cgw_lookup_adopts_id (s : CustomerGatewayModule.Manager) (w : W) c :
  let r := CustomerGatewayModule.__init__ s w in
  outcome r = Return tt ->
  CustomerGatewayModule.cgw (self_after r) = Some c ->
  CustomerGatewayModule.id (self_after r) = Some (cgw_id c).
Proof.
  intros r. subst r. unfold CustomerGatewayModule.__init__,
    CustomerGatewayModule._get_customer_gateway, bind, call,
    _get_aws_connection.
  destruct (connect_to_aws w); [done|]. simpl.
  destruct (respond (get_all_customer_gateways QAll) w) as [[l|] w1]; simpl;
    [|done].
  destruct (truthy (CustomerGatewayModule.id s)) eqn:Hid.
  - destruct (List.find _ l) as [c'|] eqn:Hfind; simpl; [|done].
    intros _ [= <-]. apply find_some in Hfind as [_ Hc].
    by apply bool_decide_eq_true in Hc.
  - destruct (truthy_dict _); [|done].
    pose proof (found_by_tags_self cgw_id (CustomerGatewayModule.tags s)
                  l [] s w1) as Hs.
    destruct (outcome (found_by_tags cgw_id _ l [] s w1)) as [found|e]; simpl;
      [|done].
    rewrite Hs. destruct found as [|c1 [|c2 found]]; simpl; try done.
    by intros _ [= <-].
Qed.

Lemma vpn_gw_lookup_adopts_id (s : VPNGatewayModule.Manager) (w : W) g :
  let r := VPNGatewayModule.__init__ s w in
  outcome r = Return tt ->
  VPNGatewayModule.vpn_gw (self_after r) = Some g ->
  VPNGatewayModule.id (self_after r) = Some (vgw_id g).
Proof.
  intros r. subst r. unfold VPNGatewayModule.__init__,
    VPNGatewayModule._get_vpn_gateway, bind, call, _get_aws_connection.
  destruct (connect_to_aws w); [done|]. simpl.
  destruct (respond (get_all_vpn_gateways QAll) w) as [[l|] w1]; simpl;
    [|done].
  destruct (truthy (VPNGatewayModule.id s)) eqn:Hid.
  - destruct (List.find _ l) as [g'|] eqn:Hfind; simpl; [|done].
    intros _ [= <-]. apply find_some in Hfind as [_ Hg].
    by apply bool_decide_eq_true in Hg.
  - destruct (truthy_dict _); [|done].
    pose proof (found_by_tags_self vgw_id (VPNGatewayModule.tags s)
                  l [] s w1) as Hs.
    destruct (outcome (found_by_tags vgw_id _ l [] s w1)) as [found|e]; simpl;
      [|done].
    rewrite Hs. destruct found as [|g1 [|g2 found]]; simpl; try done.
    by intros _ [= <-].
Qed.

Lemma vpn_conn_lookup_adopts_id (s : VPNConnectionModule.Manager) (w : W) c :
  let r := VPNConnectionModule.__init__ s w in
  outcome r = Return tt ->
  VPNConnectionModule.vpn_conn (self_after r) = Some c ->
  VPNConnectionModule.id (self_after r) = Some (vpn_id c).
Proof.
  intros r. subst r. unfold VPNConnectionModule.__init__,
    VPNConnectionModule._get_vpn_connection, bind, call, _get_aws_connection.
  destruct (connect_to_aws w); [done|]. simpl.
  destruct (respond (get_all_vpn_connections QAll) w) as [[l|] w1]; simpl;
    [|done].
  destruct (truthy (VPNConnectionModule.id s)) eqn:Hid.
  - destruct (List.find _ l) as [c'|] eqn:Hfind; simpl; [|done].
    intros _ [= <-]. apply find_some in Hfind as [_ Hc].
    by apply bool_decide_eq_true in Hc.
  - destruct (truthy_dict _); [|done].
    pose proof (found_by_tags_self vpn_id (VPNConnectionModule.tags s)
                  l [] s w1) as Hs.
    destruct (outcome (found_by_tags vpn_id _ l [] s w1)) as [found|e]; simpl;
      [|done].
    rewrite Hs. destruct found as [|c1 [|c2 found]]; simpl; try done.
    by intros _ [= <-].
Qed.

(** For every kind: a constructor that returns with a resource found has
    the id of that resource in [self.id], whether it searched by id or by
    tags; the tag reconciliation and the delete that follow act on it. *)
Lemma lookup_adopts_id k (s : Manager k) (w : W) i :
  outcome (lookup k s w) = Return tt ->
  found_of k (self_after (lookup k s w)) = Some i ->
  id_of k (self_after (lookup k s w)) = Some i.
Proof.
  destruct k; pick_kind; intros Hret Hfound.
  - destruct (CustomerGatewayModule.cgw _) as [c|] eqn:Hc; [|done].
    injection Hfound as <-. by apply cgw_lookup_adopts_id.
  - destruct (VPNGatewayModule.vpn_gw _) as [g|] eqn:Hg; [|done].
    injection Hfound as <-. by apply vpn_gw_lookup_adopts_id.
  - destruct (VPNConnectionModule.vpn_conn _) as [c|] eqn:Hc; [|done].
    injection Hfound as <-. by apply vpn_conn_lookup_adopts_id.
Qed.
End LookupId.

(** * Further properties of the code *)

(** ** Tag dictionaries *)

Lemma tags_to_dict_snoc ts t :
  tags_to_dict (ts ++ [t]) = <[tag_name t := tag_value t]> (tags_to_dict ts).
Proof. unfold tags_to_dict. by rewrite foldl_app. Qed.

(** X1.  The dictionary built from a tag listing holds, for every name, the
    value of the last tag of that name in the listing, and nothing for a
    name that does not occur.  When the names of the listing are distinct,
    the pairs of the dictionary are exactly the tags of the listing. *)
Theorem tags_to_dict_last_wins :
  forall (ts : list Tag) (key : string),
    tags_to_dict ts !! key
    = tag_value <$> last (List.filter (fun t => bool_decide (tag_name t = key)) ts)
    /\ (NoDup (map tag_name ts) ->
        forall value, tags_to_dict ts !! key = Some value <-> mkTag key value ∈ ts).
Proof.
  intros ts key. induction ts as [|t ts [IHlast IHall]] using rev_ind.
  - split; [done|]. intros _ value. rewrite elem_of_nil.
    unfold tags_to_dict; simpl. by rewrite lookup_empty.
  - rewrite tags_to_dict_snoc, List.filter_app. simpl. split.
    + destruct (bool_decide (tag_name t = key)) eqn:Hname.
      * apply bool_decide_eq_true in Hname as <-.
        by rewrite lookup_insert_eq, last_snoc.
      * apply bool_decide_eq_false in Hname.
        by rewrite lookup_insert_ne, app_nil_r.
    + rewrite map_app. simpl. intros Hdup value.
      apply NoDup_app in Hdup as (Hts & Hfresh & _).
      rewrite elem_of_app, list_elem_of_singleton.
      destruct (decide (tag_name t = key)) as [<-|Hne].
      * rewrite lookup_insert_eq. split.
        -- intros [= <-]. right. by destruct t.
        -- intros [Hin|Heq].
           ++ destruct (Hfresh (tag_name t)).
              ** apply list_elem_of_fmap. by exists (mkTag (tag_name t) value).
              ** by apply list_elem_of_singleton.
           ++ destruct t as [n v]. simpl in *. by injection Heq as ->.
      * rewrite lookup_insert_ne by done. rewrite (IHall Hts value).
        split; [by left|]. intros [Hin|Heq]; [done|]. destruct Hne.
        by rewrite <- Heq.
Qed.

(** Two tags of the same name: the later value is the one kept. *)
Lemma tags_to_dict_last_wins_witness :
  tags_to_dict [mkTag "Name" "old"; mkTag "Owner" "ops"; mkTag "Name" "new"]
    !! "Name" = Some "new"
  /\ (tags_to_dict [mkTag "Name" "new"; mkTag "Owner" "ops"] !! "Owner"
      = Some "ops"
      <-> mkTag "Owner" "ops" ∈ [mkTag "Name" "new"; mkTag "Owner" "ops"]).
Proof.
  split.
  - exact (proj1 (tags_to_dict_last_wins
             [mkTag "Name" "old"; mkTag "Owner" "ops"; mkTag "Name" "new"]
             "Name")).
  - refine (proj2 (tags_to_dict_last_wins
              [mkTag "Name" "new"; mkTag "Owner" "ops"] "Owner") _ "ops").
    simpl. apply NoDup_cons. split; [|apply NoDup_singleton].
    intros Hin. apply list_elem_of_singleton in Hin. discriminate.
Defined.

(** X2.  What tag reconciliation computes converges in one step.  The
    pairs to add are desired pairs; once the remote dictionary is
    overwritten with them (a tag-creation call replaces the value of a name
    that exists), every desired pair is present, a second computation finds
    nothing to add, and every remote tag whose name is not desired is as it
    was. *)
Theorem dictadd_converges :
  forall (tags tagdict : gmap string string),
    let dictadd := dictadd_of tags tagdict in
    dictadd ⊆ tags
    /\ tags ⊆ dictadd ∪ tagdict
    /\ dictadd_of tags (dictadd ∪ tagdict) = ∅
    /\ (forall key, tags !! key = None ->
                   (dictadd ∪ tagdict) !! key = tagdict !! key).
Proof.
  intros tags tagdict dictadd.
  assert (Hsub : tags ⊆ dictadd ∪ tagdict).
  { apply map_subseteq_spec. intros key value Hkv.
    destruct (decide (tagdict !! key = Some value)) as [Hd|Hd].
    - apply lookup_union_Some_raw. right. split; [|done].
      destruct (dictadd !! key) as [v|] eqn:Ha; [|done].
      apply dictadd_of_lookup in Ha as [Ht Hn]. congruence.
    - apply lookup_union_Some_raw. left. by apply dictadd_of_lookup. }
  split; [apply map_filter_subseteq|]. split; [done|].
  split; [by apply dictadd_of_subset|].
  intros key Hnone. apply option_eq. intros value.
  rewrite lookup_union_Some_raw. split; [|by right; split; [|done];
    destruct (dictadd !! key) as [v|] eqn:Ha; [|done];
    apply dictadd_of_lookup in Ha as [Ht _]; congruence].
  intros [Ha|[_ Hd]]; [|done].
  apply dictadd_of_lookup in Ha as [Ht _]. congruence.
Qed.


(** ** Mutating calls and the [changed] flag *)

Section Earned.
Context {W : Type} `{!Backend W} {S : Type} (flag : S -> bool).
Local Abbreviation earned := (@earned W S _ flag).

Lemma earned_of_self {A} (m : M W S A) :
  (forall s w, self_after (m s w) = s) -> earned m.
Proof. intros Hself s w. rewrite Hself. by left. Qed.

Lemma earned_ret {A} (a : A) : earned (ret a).
Proof. by apply earned_of_self. Qed.

Lemma earned_raise {A} e : earned (raise (A:=A) e).
Proof. by apply earned_of_self. Qed.

Lemma earned_fail_json {A} msg : earned (fail_json (A:=A) msg).
Proof. by apply earned_of_self. Qed.

Lemma earned_get_self : earned get_self.
Proof. by apply earned_of_self. Qed.

Lemma earned_call c : earned (call c).
Proof.
  apply earned_of_self. intros s w. unfold call.
  by destruct (respond c w) as [[a|] w1].
Qed.

Lemma earned_index0 {A} (l : list A) : earned (index0 l).
Proof. apply earned_of_self. by destruct l. Qed.

Lemma earned_aws_connection : earned _get_aws_connection.
Proof.
  apply earned_of_self. intros s w. unfold _get_aws_connection.
  by destruct (connect_to_aws w).
Qed.

Lemma earned_modify f :
  (forall s, flag (f s) = true -> flag s = true) -> earned (modify f).
Proof. intros Hf s w Hset. left. by apply Hf. Qed.

Lemma earned_bind {A B} (m : M W S A) (k : A -> M W S B) :
  earned m -> (forall a, earned (k a)) -> earned (bind m k).
Proof.
  intros Hm Hk s w. unfold bind.
  destruct (outcome (m s w)) as [a|e]; simpl; [|apply Hm].
  intros Hset. destruct (Hk a _ _ Hset) as [Hmid|Hcall].
  - destruct (Hm s w Hmid) as [Hs|Hcall]; [by left|].
    right. apply Exists_app. by left.
  - right. apply Exists_app. by right.
Qed.

Lemma earned_try_except {A} (body handler : M W S A) :
  earned body -> earned handler -> earned (try_except body handler).
Proof.
  intros Hb Hh s w. unfold try_except.
  destruct (outcome (body s w)) as [a|e]; simpl; [apply Hb|].
  intros Hset. destruct (Hh _ _ Hset) as [Hmid|Hcall].
  - destruct (Hb s w Hmid) as [Hs|Hcall]; [by left|].
    right. apply Exists_app. by left.
  - right. apply Exists_app. by right.
Qed.

(** Whatever follows one of those calls is accounted for by that call. *)
Lemma earned_mutating c (k : ret_type c -> M W S unit) :
  is_resource_change c = true -> earned (bind (call c) k).
Proof.
  intros Hc s w _. right. unfold bind, call.
  destruct (respond c w) as [[a|] w1]; simpl; by apply Exists_cons_hd.
Qed.

Lemma earned_found_by_tags {R} (rid : R -> string) tags rs found :
  earned (found_by_tags rid tags rs found).
Proof.
  apply earned_of_self. intros s w.
  by apply (keeps_found_by_tags (fun s' => s' = s)).
Qed.

Lemma earned_set_tags_of resource tags : earned (set_tags_of resource tags).
Proof. apply earned_of_self. intros s w. apply set_tags_of_self. Qed.
End Earned.

(** Decompose a goal [earned flag m] along the structure of [m]. *)
Ltac earn :=
  repeat match goal with
  | |- forall _, _ => intro
  | |- earned _ (bind (call _) _) =>
      first [ apply earned_mutating; reflexivity | apply earned_bind ]
  | |- earned _ (bind _ _) => apply earned_bind
  | |- earned _ (try_except _ _) => apply earned_try_except
  | |- earned _ (ret _) => apply earned_ret
  | |- earned _ (raise _) => apply earned_raise
  | |- earned _ (fail_json _) => apply earned_fail_json
  | |- earned _ get_self => apply earned_get_self
  | |- earned _ (modify _) => apply earned_modify
  | |- earned _ (index0 _) => apply earned_index0
  | |- earned _ _get_aws_connection => apply earned_aws_connection
  | |- earned _ (call _) => apply earned_call
  | |- earned _ (found_by_tags _ _ _ _) => apply earned_found_by_tags
  | |- earned _ (set_tags_of _ _) => apply earned_set_tags_of
  | |- earned _ (if ?b then _ else _) => destruct b
  | |- earned _ (match ?x with _ => _ end) => destruct x
  end.

Section EarnedByManagers.
Context {W : Type} `{!Backend W}.

Ltac by_fields :=
  match goal with
  | s : CustomerGatewayModule.Manager |- _ => by destruct s
  | s : VPNGatewayModule.Manager |- _ => by destruct s
  | s : VPNConnectionModule.Manager |- _ => by destruct s
  end.

Lemma enable_each_quiet routes :
  forall results (s : VPNGatewayModule.Manager) (w : W) res,
    outcome (VPNGatewayModule.enable_each routes results s w) = Return res ->
    issued (VPNGatewayModule.enable_each routes results s w) = [] ->
    res = results.
Proof.
  destruct routes as [|route rest]; intros results s w res; simpl.
  - by intros [= <-].
  - read_self. unfold bind, call.
    by destruct (respond _ w) as [[b|] w1].
Qed.

Lemma disable_each_quiet routes :
  forall results (s : VPNGatewayModule.Manager) (w : W) res,
    outcome (VPNGatewayModule.disable_each routes results s w) = Return res ->
    issued (VPNGatewayModule.disable_each routes results s w) = [] ->
    res = results.
Proof.
  destruct routes as [|route rest]; intros results s w res; simpl.
  - by intros [= <-].
  - read_self. unfold bind, call.
    by destruct (respond _ w) as [[b|] w1].
Qed.

Lemma mutating_head (f : string -> Call) (l : list string) :
  (forall route, is_resource_change (f route) = true) -> l <> [] ->
  Exists (fun c => is_resource_change c = true) (map f l).
Proof. intros Hf Hl. destruct l; [done|]. by apply Exists_cons_hd. Qed.

Lemma earned_enable_route_propagation :
  earned VPNGatewayModule.changed VPNGatewayModule._enable_route_propagation.
Proof.
  intros s w. unfold VPNGatewayModule._enable_route_propagation. read_self.
  destruct (VPNGatewayModule.route_table_ids s) as [routes|]; [|by left].
  unfold bind.
  destruct (enable_each_prefix routes [] s w) as [Hself [n Hn]].
  pose proof (enable_each_quiet routes [] s w) as Hquiet.
  destruct (outcome (VPNGatewayModule.enable_each routes [] s w))
    as [[|b bs]|e]; simpl; rewrite ?Hself; try by left.
  intros _. right. rewrite app_nil_r, Hn.
  apply mutating_head; [done|]. intros Hnil.
  rewrite Hn, Hnil in Hquiet. by specialize (Hquiet _ eq_refl eq_refl).
Qed.

Lemma earned_disable_route_propagation :
  earned VPNGatewayModule.changed VPNGatewayModule._disable_route_propagation.
Proof.
  intros s w. unfold VPNGatewayModule._disable_route_propagation. read_self.
  destruct (VPNGatewayModule.route_table_ids s) as [routes|]; [|by left].
  unfold bind.
  destruct (disable_each_prefix routes [] s w) as [Hself [n Hn]].
  pose proof (disable_each_quiet routes [] s w) as Hquiet.
  destruct (outcome (VPNGatewayModule.disable_each routes [] s w))
    as [[|b bs]|e]; simpl; rewrite ?Hself; try by left.
  intros _. right. rewrite app_nil_r, Hn.
  apply mutating_head; [done|]. intros Hnil.
  rewrite Hn, Hnil in Hquiet. by specialize (Hquiet _ eq_refl eq_refl).
Qed.

Lemma earned_lookup k : earned (changed_of k) (lookup k).
Proof.
  destruct k; pick_kind.
  - unfold CustomerGatewayModule.__init__,
      CustomerGatewayModule._get_customer_gateway.
    earn; by_fields.
  - unfold VPNGatewayModule.__init__, VPNGatewayModule._get_vpn_gateway.
    earn; by_fields.
  - unfold VPNConnectionModule.__init__,
      VPNConnectionModule._get_vpn_connection.
    earn; by_fields.
Qed.

Lemma earned_get_info k : earned (changed_of k) (get_info k).
Proof.
  destruct k; pick_kind.
  - unfold CustomerGatewayModule.get_info. earn.
  - unfold VPNGatewayModule.get_info. earn.
  - unfold VPNConnectionModule.get_info. earn.
Qed.

Lemma earned_act k state : earned (changed_of k) (act k state).
Proof.
  destruct k, state; unfold act; pick_kind.
  - unfold CustomerGatewayModule.ensure_ok, CustomerGatewayModule._create_cgw,
      CustomerGatewayModule._set_tags.
    earn.
  - unfold CustomerGatewayModule.ensure_gone, CustomerGatewayModule._delete_cgw.
    earn.
  - unfold VPNGatewayModule.dispatch. apply earned_bind; [apply earned_get_self|].
    intros man. destruct (_ && _); [apply earned_enable_route_propagation|].
    unfold VPNGatewayModule.ensure_ok, VPNGatewayModule._create_vpn_gw,
      VPNGatewayModule._set_tags, VPNGatewayModule._attach_vpn_gw.
    earn.
  - unfold VPNGatewayModule.dispatch. apply earned_bind; [apply earned_get_self|].
    intros man. destruct (_ && _); [apply earned_disable_route_propagation|].
    unfold VPNGatewayModule.ensure_gone, VPNGatewayModule._delete_vpn_gw,
      VPNGatewayModule._detach_vpn_gw.
    earn.
  - unfold VPNConnectionModule.ensure_ok, VPNConnectionModule._create_vpn_conn,
      VPNConnectionModule._set_tags.
    earn.
  - unfold VPNConnectionModule.ensure_gone,
      VPNConnectionModule._delete_vpn_conn.
    earn.
Qed.

Lemma earned_module_body k state : earned (changed_of k) (module_body k state).
Proof.
  unfold module_body.
  apply earned_bind; [apply earned_lookup|]. intros _.
  apply earned_bind; [apply earned_act|]. intros _.
  apply earned_bind; [apply earned_get_self|]. intros man.
  apply earned_bind; [apply earned_get_info|]. intros info.
  apply earned_ret.
Qed.
End EarnedByManagers.

(** ** The module runs, step by step *)

Section ModuleBody.
Context {W : Type} `{!Backend W}.

Lemma run_body k (p : Params k) (w : W) :
  required_inputs k p = true ->
  run k p w = module_body k (state_of k p) (fresh k p) w.
Proof.
  intros Hreq. destruct k; pick_kind.
  - unfold CustomerGatewayModule.run, CustomerGatewayModule.main.
    apply andb_true_iff in Hreq as [-> Hip]. simpl.
    by destruct (CustomerGatewayModule.p_state p); [rewrite Hip|].
  - unfold VPNGatewayModule.run, VPNGatewayModule.main. by rewrite Hreq.
  - unfold VPNConnectionModule.run, VPNConnectionModule.main. by rewrite Hreq.
Qed.

Lemma yields_bind {S A B} (Q : S -> B -> Prop) (m : M W S A)
    (k : A -> M W S B) :
  (forall a, yields Q (k a)) -> yields Q (bind m k).
Proof.
  intros Hk s w b. unfold bind.
  destruct (outcome (m s w)) as [a|e]; simpl; [apply Hk | done].
Qed.

Lemma get_info_self k (s : Manager k) (w : W) :
  self_after (get_info k s w) = s.
Proof.
  assert (keeps (fun s' => s' = s) (get_info k)) as Hkeeps.
  { destruct k; pick_kind.
    - unfold CustomerGatewayModule.get_info. bound.
    - unfold VPNGatewayModule.get_info. bound.
    - unfold VPNConnectionModule.get_info. bound. }
  exact (Hkeeps s w eq_refl).
Qed.

Lemma get_info_reads k :
  emits (W:=W) (fun c => is_read c = true) (get_info k).
Proof.
  destruct k; pick_kind.
  - unfold CustomerGatewayModule.get_info. bound; done.
  - unfold VPNGatewayModule.get_info. bound; done.
  - unfold VPNConnectionModule.get_info. bound; done.
Qed.

Lemma lookup_reads k : emits (W:=W) (fun c => is_read c = true) (lookup k).
Proof.
  destruct k; [apply cgw_init_reads|apply vpn_gw_init_reads|
               apply vpn_conn_init_reads].
Qed.

(** The result carries the [changed] flag the manager ends with. *)
Lemma module_body_result k state :
  yields (fun s res => res_changed res = changed_of k s) (module_body k state).
Proof.
  unfold module_body. apply yields_bind. intros _. apply yields_bind.
  intros _ s w res. read_self. unfold bind.
  destruct (outcome (get_info k s w)) as [info|e] eqn:Hinfo; simpl; [|done].
  intros [= <-]. simpl. by rewrite get_info_self.
Qed.
End ModuleBody.

(** X3.  The [changed] a run reports is earned: whenever a module run
    returns a result with [changed = True], it has issued at least one
    create, delete, attach, detach or route propagation call.  A run that
    only reads, or only reads and writes tags, reports
    [changed = False]. *)
Theorem reported_change_is_earned :
  forall {W : Type} `{!Backend W} (k : Kind) (p : Params k) (w : W) res,
    outcome (run k p w) = Return res ->
    res_changed res = true ->
    Exists (fun c => is_resource_change c = true) (issued (run k p w)).
Proof.
  intros W B k p w res Hres Hchanged.
  destruct (required_inputs k p) eqn:Hreq.
  - rewrite (run_body k p w Hreq) in *.
    pose proof (module_body_result k _ _ _ _ Hres) as Hflag. simpl in Hflag.
    rewrite Hchanged in Hflag.
    destruct (earned_module_body k _ _ _ (eq_sym Hflag)) as [Hfresh|Hcall];
      [|done].
    by destruct k.
  - destruct k; pick_kind.
    + unfold CustomerGatewayModule.run, CustomerGatewayModule.main in Hres.
      destruct (truthy (CustomerGatewayModule.p_region p)); [|done].
      simpl in *. destruct (CustomerGatewayModule.p_state p); [|done].
      by destruct (truthy (CustomerGatewayModule.p_ip_address p)).
    + unfold VPNGatewayModule.run, VPNGatewayModule.main in Hres.
      by rewrite Hreq in Hres.
    + unfold VPNConnectionModule.run, VPNConnectionModule.main in Hres.
      by rewrite Hreq in Hres.
Qed.

(** The customer gateway created from scratch: the run reports
    [changed = True], and a create call is among its calls. *)
Lemma reported_change_is_earned_witness :
  Exists (fun c => is_resource_change c = true)
         (issued (run customer_gateway Scenario.cgw_present Account.empty)).
Proof.
  exact (reported_change_is_earned customer_gateway Scenario.cgw_present
           Account.empty
           (mkResult true
              [("ip_address", PyStr "1.1.1.1"); ("id", PyStr "cgw-new");
               ("bgp_asn", PyInt 65000); ("type", PyStr "ipsec.1");
               ("status", PyStr "created")])
           eq_refl eq_refl).
Defined.

(** ** The lookup, branch by branch *)

Section LookupBranches.
Context {W : Type} `{!Backend W}.

(** The scan for an id returns the first listed resource with that id. *)
Lemma find_by_id {R} (rid : R -> string) (me : option string) (rs : list R) i :
  me = Some i ->
  match List.find (fun r => bool_decide (me = Some (rid r))) rs with
  | Some r => rid r = i /\ i ∈ map rid rs
  | None => i ∉ map rid rs
  end.
Proof.
  intros ->. induction rs as [|r rs IH]; simpl; [apply not_elem_of_nil|].
  destruct (bool_decide (Some i = Some (rid r))) eqn:Hr.
  - apply bool_decide_eq_true in Hr as [= ->]. split; [done|]. by left.
  - apply bool_decide_eq_false in Hr.
    destruct (List.find _ rs) as [r'|].
    + destruct IH as [-> Hin]. split; [done|]. by right.
    + apply not_elem_of_cons. split; [congruence | done].
Qed.

Lemma picked_ids {R} (rid : R -> string) tags (rs : list R) ds :
  map rid (picked tags rs ds) = picked tags (map rid rs) ds.
Proof.
  unfold picked. revert ds. induction rs as [|r rs IH]; intros [|d ds];
    simpl; try done.
  destruct (items_issubset tags d); simpl; by rewrite IH.
Qed.

(** The tag search returns the listed resources whose remote tags contain
    every desired pair, in listing order. *)
Lemma found_by_tags_picked {S R} (rid : R -> string) tags (rs : list R) :
  forall found (s : S) (w : W) ds w2,
    truthy_dict tags = true ->
    remote_tags (map rid rs) w = Some (ds, w2) ->
    found_by_tags rid tags rs found s w
    = mkRun (Return (found ++ picked tags rs ds)) s w2
            (map (fun r => get_all_tags (Some (rid r))) rs).
Proof.
  induction rs as [|r rs IH]; intros found s w ds w2 Htags Hremote.
  - injection Hremote as <- <-. unfold picked. simpl. by rewrite app_nil_r.
  - simpl in Hremote.
    destruct (respond (get_all_tags (Some (rid r))) w) as [[ts|] w1] eqn:Hr;
      [|done].
    destruct (remote_tags (map rid rs) w1) as [[ds' w2']|] eqn:Hrest; [|done].
    injection Hremote as <- <-.
    simpl. unfold bind at 1, call. rewrite Hr. simpl. rewrite Htags. simpl.
    unfold picked. simpl.
    destruct (items_issubset tags (tags_to_dict ts)); simpl.
    + rewrite (IH (found ++ [r]) s w1 ds' w2' Htags Hrest).
      unfold after, picked. simpl. by rewrite <- app_assoc.
    + by rewrite (IH found s w1 ds' w2' Htags Hrest).
Qed.
End LookupBranches.

Section LookupRuns.
Context {W : Type} `{!Backend W}.

Lemma truthy_some i : i <> "" -> truthy (Some i) = true.
Proof. intros Hi. simpl. apply negb_true_iff. by apply String.eqb_neq. Qed.

Lemma cgw_lookup_by_id (s : CustomerGatewayModule.Manager) (w : W) l w1 :
  truthy (CustomerGatewayModule.id s) = true ->
  connect_to_aws w = None ->
  respond (get_all_customer_gateways QAll) w = (Ret l, w1) ->
  CustomerGatewayModule.__init__ s w
  = mkRun (Return tt)
      match List.find (fun c => bool_decide (CustomerGatewayModule.id s
                                             = Some (cgw_id c))) l with
      | Some c => CustomerGatewayModule.set_cgw (Some c)
                    (CustomerGatewayModule.set_status "ok" s)
      | None => CustomerGatewayModule.set_cgw None s
      end
      w1 [get_all_customer_gateways QAll].
Proof.
  intros Hid Hconn Hlist.
  unfold CustomerGatewayModule.__init__,
    CustomerGatewayModule._get_customer_gateway, bind, call,
    _get_aws_connection.
  rewrite Hconn. simpl. rewrite Hlist. simpl. rewrite Hid.
  by destruct (List.find _ l).
Qed.

Lemma cgw_lookup_by_tags (s : CustomerGatewayModule.Manager) (w : W)
    l w1 ds w2 :
  truthy (CustomerGatewayModule.id s) = false ->
  truthy_dict (CustomerGatewayModule.tags s) = true ->
  connect_to_aws w = None ->
  respond (get_all_customer_gateways QAll) w = (Ret l, w1) ->
  remote_tags (map cgw_id l) w1 = Some (ds, w2) ->
  let calls := get_all_customer_gateways QAll
               :: map (fun c => get_all_tags (Some (cgw_id c))) l in
  CustomerGatewayModule.__init__ s w
  = match picked (CustomerGatewayModule.tags s) l ds with
    | [] => mkRun (Return tt) (CustomerGatewayModule.set_cgw None s) w2 calls
    | [c] =>
        mkRun (Return tt)
          (CustomerGatewayModule.set_cgw (Some c)
             (CustomerGatewayModule.set_status "ok"
                (CustomerGatewayModule.set_id (Some (cgw_id c)) s)))
          w2 calls
    | _ :: _ :: _ =>
        mkRun (Raise (ModuleFailure (more_than_one customer_gateway))) s w2
              calls
    end.
Proof.
  intros Hid Htags Hconn Hlist Hremote calls. subst calls.
  unfold CustomerGatewayModule.__init__,
    CustomerGatewayModule._get_customer_gateway, bind, call,
    _get_aws_connection.
  rewrite Hconn. simpl. rewrite Hlist. simpl. rewrite Hid, Htags.
  rewrite (found_by_tags_picked cgw_id _ l [] s w1 ds w2 Htags Hremote).
  simpl. destruct (picked _ l ds) as [|c [|c' rest]]; simpl;
    unfold after; simpl; by rewrite ?app_nil_r.
Qed.

Lemma cgw_lookup_blind (s : CustomerGatewayModule.Manager) (w : W) l w1 :
  truthy (CustomerGatewayModule.id s) = false ->
  truthy_dict (CustomerGatewayModule.tags s) = false ->
  connect_to_aws w = None ->
  respond (get_all_customer_gateways QAll) w = (Ret l, w1) ->
  CustomerGatewayModule.__init__ s w
  = mkRun (Return tt) (CustomerGatewayModule.set_cgw None s) w1
          [get_all_customer_gateways QAll].
Proof.
  intros Hid Htags Hconn Hlist.
  unfold CustomerGatewayModule.__init__,
    CustomerGatewayModule._get_customer_gateway, bind, call,
    _get_aws_connection.
  rewrite Hconn. simpl. rewrite Hlist. simpl. by rewrite Hid, Htags.
Qed.
Lemma vpn_gw_lookup_by_id (s : VPNGatewayModule.Manager) (w : W) l w1 :
  truthy (VPNGatewayModule.id s) = true ->
  connect_to_aws w = None ->
  respond (get_all_vpn_gateways QAll) w = (Ret l, w1) ->
  VPNGatewayModule.__init__ s w
  = mkRun (Return tt)
      match List.find (fun c => bool_decide (VPNGatewayModule.id s
                                             = Some (vgw_id c))) l with
      | Some c => VPNGatewayModule.set_vpn_gw (Some c)
                    (VPNGatewayModule.set_status "ok" s)
      | None => VPNGatewayModule.set_vpn_gw None s
      end
      w1 [get_all_vpn_gateways QAll].
Proof.
  intros Hid Hconn Hlist.
  unfold VPNGatewayModule.__init__,
    VPNGatewayModule._get_vpn_gateway, bind, call,
    _get_aws_connection.
  rewrite Hconn. simpl. rewrite Hlist. simpl. rewrite Hid.
  by destruct (List.find _ l).
Qed.

Lemma vpn_gw_lookup_by_tags (s : VPNGatewayModule.Manager) (w : W)
    l w1 ds w2 :
  truthy (VPNGatewayModule.id s) = false ->
  truthy_dict (VPNGatewayModule.tags s) = true ->
  connect_to_aws w = None ->
  respond (get_all_vpn_gateways QAll) w = (Ret l, w1) ->
  remote_tags (map vgw_id l) w1 = Some (ds, w2) ->
  let calls := get_all_vpn_gateways QAll
               :: map (fun c => get_all_tags (Some (vgw_id c))) l in
  VPNGatewayModule.__init__ s w
  = match picked (VPNGatewayModule.tags s) l ds with
    | [] => mkRun (Return tt) (VPNGatewayModule.set_vpn_gw None s) w2 calls
    | [c] =>
        mkRun (Return tt)
          (VPNGatewayModule.set_vpn_gw (Some c)
             (VPNGatewayModule.set_status "ok"
                (VPNGatewayModule.set_id (Some (vgw_id c)) s)))
          w2 calls
    | _ :: _ :: _ =>
        mkRun (Raise (ModuleFailure (more_than_one vpn_gateway))) s w2
              calls
    end.
Proof.
  intros Hid Htags Hconn Hlist Hremote calls. subst calls.
  unfold VPNGatewayModule.__init__,
    VPNGatewayModule._get_vpn_gateway, bind, call,
    _get_aws_connection.
  rewrite Hconn. simpl. rewrite Hlist. simpl. rewrite Hid, Htags.
  rewrite (found_by_tags_picked vgw_id _ l [] s w1 ds w2 Htags Hremote).
  simpl. destruct (picked _ l ds) as [|c [|c' rest]]; simpl;
    unfold after; simpl; by rewrite ?app_nil_r.
Qed.

Lemma vpn_gw_lookup_blind (s : VPNGatewayModule.Manager) (w : W) l w1 :
  truthy (VPNGatewayModule.id s) = false ->
  truthy_dict (VPNGatewayModule.tags s) = false ->
  connect_to_aws w = None ->
  respond (get_all_vpn_gateways QAll) w = (Ret l, w1) ->
  VPNGatewayModule.__init__ s w
  = mkRun (Return tt) (VPNGatewayModule.set_vpn_gw None s) w1
          [get_all_vpn_gateways QAll].
Proof.
  intros Hid Htags Hconn Hlist.
  unfold VPNGatewayModule.__init__,
    VPNGatewayModule._get_vpn_gateway, bind, call,
    _get_aws_connection.
  rewrite Hconn. simpl. rewrite Hlist. simpl. by rewrite Hid, Htags.
Qed.
Lemma vpn_conn_lookup_by_id (s : VPNConnectionModule.Manager) (w : W) l w1 :
  truthy (VPNConnectionModule.id s) = true ->
  connect_to_aws w = None ->
  respond (get_all_vpn_connections QAll) w = (Ret l, w1) ->
  VPNConnectionModule.__init__ s w
  = mkRun (Return tt)
      match List.find (fun c => bool_decide (VPNConnectionModule.id s
                                             = Some (vpn_id c))) l with
      | Some c => VPNConnectionModule.set_vpn_conn (Some c)
                    (VPNConnectionModule.set_status "ok" s)
      | None => VPNConnectionModule.set_vpn_conn None s
      end
      w1 [get_all_vpn_connections QAll].
Proof.
  intros Hid Hconn Hlist.
  unfold VPNConnectionModule.__init__,
    VPNConnectionModule._get_vpn_connection, bind, call,
    _get_aws_connection.
  rewrite Hconn. simpl. rewrite Hlist. simpl. rewrite Hid.
  by destruct (List.find _ l).
Qed.

Lemma vpn_conn_lookup_by_tags (s : VPNConnectionModule.Manager) (w : W)
    l w1 ds w2 :
  truthy (VPNConnectionModule.id s) = false ->
  truthy_dict (VPNConnectionModule.tags s) = true ->
  connect_to_aws w = None ->
  respond (get_all_vpn_connections QAll) w = (Ret l, w1) ->
  remote_tags (map vpn_id l) w1 = Some (ds, w2) ->
  let calls := get_all_vpn_connections QAll
               :: map (fun c => get_all_tags (Some (vpn_id c))) l in
  VPNConnectionModule.__init__ s w
  = match picked (VPNConnectionModule.tags s) l ds with
    | [] => mkRun (Return tt) (VPNConnectionModule.set_vpn_conn None s) w2 calls
    | [c] =>
        mkRun (Return tt)
          (VPNConnectionModule.set_vpn_conn (Some c)
             (VPNConnectionModule.set_status "ok"
                (VPNConnectionModule.set_id (Some (vpn_id c)) s)))
          w2 calls
    | _ :: _ :: _ =>
        mkRun (Raise (ModuleFailure (more_than_one vpn_connection))) s w2
              calls
    end.
Proof.
  intros Hid Htags Hconn Hlist Hremote calls. subst calls.
  unfold VPNConnectionModule.__init__,
    VPNConnectionModule._get_vpn_connection, bind, call,
    _get_aws_connection.
  rewrite Hconn. simpl. rewrite Hlist. simpl. rewrite Hid, Htags.
  rewrite (found_by_tags_picked vpn_id _ l [] s w1 ds w2 Htags Hremote).
  simpl. destruct (picked _ l ds) as [|c [|c' rest]]; simpl;
    unfold after; simpl; by rewrite ?app_nil_r.
Qed.

Lemma vpn_conn_lookup_blind (s : VPNConnectionModule.Manager) (w : W) l w1 :
  truthy (VPNConnectionModule.id s) = false ->
  truthy_dict (VPNConnectionModule.tags s) = false ->
  connect_to_aws w = None ->
  respond (get_all_vpn_connections QAll) w = (Ret l, w1) ->
  VPNConnectionModule.__init__ s w
  = mkRun (Return tt) (VPNConnectionModule.set_vpn_conn None s) w1
          [get_all_vpn_connections QAll].
Proof.
  intros Hid Htags Hconn Hlist.
  unfold VPNConnectionModule.__init__,
    VPNConnectionModule._get_vpn_connection, bind, call,
    _get_aws_connection.
  rewrite Hconn. simpl. rewrite Hlist. simpl. by rewrite Hid, Htags.
Qed.
End LookupRuns.

(** X4.  Lookup by id.  For every resource kind: when an id is given, the
    constructor issues a single call, the unfiltered listing, and never
    asks for tags, whatever tags were supplied; it keeps the given id.  If
    the listing holds the id the resource is found and the status becomes
    ['ok']; if not, nothing is found and the status stays as it was, even
    when some listed resource carries the desired tags. *)
Theorem lookup_by_id_ignores_tags :
  forall {W : Type} `{!Backend W} (k : Kind) (s : Manager k) (w : W)
         i ids w1,
    id_of k s = Some i -> i <> "" ->
    connect_to_aws w = None ->
    listed_ids k w = (Ret ids, w1) ->
    let r := lookup k s w in
    outcome r = Return tt
    /\ issued r = [listing k]
    /\ id_of k (self_after r) = Some i
    /\ (i ∈ ids ->
        found_of k (self_after r) = Some i
        /\ status_of k (self_after r) = "ok")
    /\ (i ∉ ids ->
        found_of k (self_after r) = None
        /\ status_of k (self_after r) = status_of k s).
Proof.
  intros W B k s w i ids w1 Hid Hne Hconn Hlist r. subst r.
  pose proof (truthy_some i Hne) as Htruthy. rewrite <- Hid in Htruthy.
  destruct k; pick_kind; unfold listing.
  - destruct (respond (get_all_customer_gateways QAll) w) as [[l|] w'] eqn:Hl;
      [|done].
    injection Hlist as <- <-.
    rewrite (cgw_lookup_by_id s w l w' Htruthy Hconn Hl). simpl.
    pose proof (find_by_id cgw_id _ l i Hid) as Hfind.
    destruct (List.find _ l) as [c|]; simpl.
    + destruct Hfind as [-> Hin]. by repeat split.
    + by repeat split.
  - destruct (respond (get_all_vpn_gateways QAll) w) as [[l|] w'] eqn:Hl;
      [|done].
    injection Hlist as <- <-.
    rewrite (vpn_gw_lookup_by_id s w l w' Htruthy Hconn Hl). simpl.
    pose proof (find_by_id vgw_id _ l i Hid) as Hfind.
    destruct (List.find _ l) as [c|]; simpl.
    + destruct Hfind as [-> Hin]. by repeat split.
    + by repeat split.
  - destruct (respond (get_all_vpn_connections QAll) w) as [[l|] w'] eqn:Hl;
      [|done].
    injection Hlist as <- <-.
    rewrite (vpn_conn_lookup_by_id s w l w' Htruthy Hconn Hl). simpl.
    pose proof (find_by_id vpn_id _ l i Hid) as Hfind.
    destruct (List.find _ l) as [c|]; simpl.
    + destruct Hfind as [-> Hin]. by repeat split.
    + by repeat split.
Qed.

(** Both gateways of the account carry the desired tag, but the id given
    belongs to neither: nothing is found, after one listing call. *)
Lemma lookup_by_id_ignores_tags_witness :
  let r := lookup customer_gateway
             (fresh customer_gateway Cases.cgw_unknown_id)
             Scenario.account_two_cgws in
  issued r = [get_all_customer_gateways QAll]
  /\ found_of customer_gateway (self_after r) = None.
Proof.
  intros r.
  assert (Hne : "cgw-9" <> "") by discriminate.
  assert (Hout : "cgw-9" ∉ ["cgw-1"; "cgw-2"]).
  { intros Hin. apply elem_of_cons in Hin as [Hin|Hin]; [discriminate|].
    apply list_elem_of_singleton in Hin. discriminate. }
  pose proof (lookup_by_id_ignores_tags customer_gateway
                (fresh customer_gateway Cases.cgw_unknown_id)
                Scenario.account_two_cgws "cgw-9" ["cgw-1"; "cgw-2"]
                Scenario.account_two_cgws eq_refl Hne eq_refl eq_refl)
    as (_ & Hcalls & _ & _ & Hnone).
  split; [exact Hcalls | exact (proj1 (Hnone Hout))].
Defined.

(** X5.  Lookup by tags.  For every resource kind: without an id and with
    tags, when the listing and the tag listings answer, the constructor
    asks for the tags of every listed resource, once and in listing order,
    and looks at the listed ids whose remote tags contain every desired
    pair: none, and nothing is found, id and status staying as they were;
    exactly one, and that resource is found, its id adopted and the status
    set to ['ok']; more, and the constructor fails with the kind's "Found
    more than one" message. *)
Theorem lookup_by_tags_picks :
  forall {W : Type} `{!Backend W} (k : Kind) (s : Manager k) (w : W)
         ids w1 ds w2,
    truthy (id_of k s) = false ->
    tags_of k s <> ∅ ->
    connect_to_aws w = None ->
    listed_ids k w = (Ret ids, w1) ->
    remote_tags ids w1 = Some (ds, w2) ->
    let r := lookup k s w in
    issued r = listing k :: map (fun i => get_all_tags (Some i)) ids
    /\ match picked (tags_of k s) ids ds with
       | [] =>
           outcome r = Return tt
           /\ found_of k (self_after r) = None
           /\ id_of k (self_after r) = id_of k s
           /\ status_of k (self_after r) = status_of k s
       | [i] =>
           outcome r = Return tt
           /\ found_of k (self_after r) = Some i
           /\ id_of k (self_after r) = Some i
           /\ status_of k (self_after r) = "ok"
       | _ :: _ :: _ =>
           outcome r = Raise (ModuleFailure (more_than_one k))
       end.
Proof.
  intros W B k s w ids w1 ds w2 Hid Htags Hconn Hlist Hremote r. subst r.
  apply truthy_dict_true in Htags.
  destruct k; pick_kind; unfold listing.
  - destruct (respond (get_all_customer_gateways QAll) w) as [[l|] w'] eqn:Hl;
      [|done].
    injection Hlist as <- <-.
    rewrite (cgw_lookup_by_tags s w l w' ds w2 Hid Htags Hconn Hl Hremote).
    rewrite <- picked_ids.
    destruct (picked _ l ds) as [|c [|c' rest]]; simpl;
      by rewrite map_map.
  - destruct (respond (get_all_vpn_gateways QAll) w) as [[l|] w'] eqn:Hl;
      [|done].
    injection Hlist as <- <-.
    rewrite (vpn_gw_lookup_by_tags s w l w' ds w2 Hid Htags Hconn Hl Hremote).
    rewrite <- picked_ids.
    destruct (picked _ l ds) as [|c [|c' rest]]; simpl;
      by rewrite map_map.
  - destruct (respond (get_all_vpn_connections QAll) w) as [[l|] w'] eqn:Hl;
      [|done].
    injection Hlist as <- <-.
    rewrite (vpn_conn_lookup_by_tags s w l w' ds w2 Hid Htags Hconn Hl Hremote).
    rewrite <- picked_ids.
    destruct (picked _ l ds) as [|c [|c' rest]]; simpl;
      by rewrite map_map.
Qed.

(** One gateway carries the desired tag: it is found and its id adopted. *)
Lemma lookup_by_tags_picks_witness :
  let r := lookup customer_gateway
             (fresh customer_gateway Scenario.cgw_present)
             Cases.account_one_tagged in
  found_of customer_gateway (self_after r) = Some "cgw-1"
  /\ id_of customer_gateway (self_after r) = Some "cgw-1"
  /\ status_of customer_gateway (self_after r) = "ok".
Proof.
  intros r.
  assert (Htags : Scenario.name_tag <> ∅)
    by (apply truthy_dict_true; vm_compute; reflexivity).
  pose proof (lookup_by_tags_picks customer_gateway
                (fresh customer_gateway Scenario.cgw_present)
                Cases.account_one_tagged ["cgw-1"] Cases.account_one_tagged
                [Scenario.name_tag] Cases.account_one_tagged
                eq_refl Htags eq_refl eq_refl eq_refl) as [_ Hpick].
  exact (proj2 Hpick).
Defined.

(** ** Where the mutating calls of a run come from *)

Section RunFrame.
Context {W : Type} `{!Backend W}.

Lemma filter_issued_bind {S A B} (P : Call -> bool) (m : M W S A)
    (k : A -> M W S B) s w :
  List.filter P (issued (bind m k s w))
  = List.filter P (issued (m s w))
    ++ match outcome (m s w) with
       | Return a =>
           List.filter P (issued (k a (self_after (m s w)) (world_after (m s w))))
       | Raise _ => []
       end.
Proof.
  unfold bind. destruct (outcome (m s w)); simpl.
  - by rewrite List.filter_app.
  - by rewrite app_nil_r.
Qed.

Lemma filter_reads (P : Call -> bool) l :
  (forall c, is_read c = true -> P c = false) ->
  Forall (fun c => is_read c = true) l -> List.filter P l = [].
Proof.
  intros HP Hl. apply filter_none. eapply Forall_impl; [exact Hl | exact HP].
Qed.

(** Of a module run only the step for the desired state issues calls that
    are not reads. *)
Lemma module_body_filter (P : Call -> bool) k state (s : Manager k) (w : W) :
  (forall c, is_read c = true -> P c = false) ->
  List.filter P (issued (module_body k state s w))
  = match outcome (lookup k s w) with
    | Return _ =>
        List.filter P (issued (act k state (self_after (lookup k s w))
                                 (world_after (lookup k s w))))
    | Raise _ => []
    end.
Proof.
  intros HP. unfold module_body. rewrite filter_issued_bind.
  rewrite (filter_reads P _ HP (lookup_reads k s w)). simpl.
  destruct (outcome (lookup k s w)) as [[]|e]; [|done].
  rewrite filter_issued_bind.
  destruct (outcome (act k state _ _)) as [[]|e]; [|by rewrite app_nil_r].
  read_self. rewrite filter_issued_bind.
  rewrite (filter_reads P _ HP (get_info_reads k _ _)). simpl.
  destruct (outcome (get_info k _ _)); simpl; by rewrite app_nil_r.
Qed.
End RunFrame.

(** X6.  For each of the three modules, in a run of [main] that passes the
    input checks, the calls that are not reads are exactly those of the
    step taken for the desired state ([ensure_ok], [ensure_gone] or route
    propagation), run on the manager and the remote world the constructor
    leaves; the constructor's lookup and the final [get_info] only read,
    and a constructor that aborts leaves no mutating call behind. *)
Theorem run_mutations_come_from_act :
  forall {W : Type} `{!Backend W} (k : Kind) (p : Params k) (w : W),
    required_inputs k p = true ->
    let r0 := lookup k (fresh k p) w in
    List.filter is_mutating (issued (run k p w))
    = match outcome r0 with
      | Return _ =>
          List.filter is_mutating
            (issued (act k (state_of k p) (self_after r0) (world_after r0)))
      | Raise _ => []
      end.
Proof.
  intros W B k p w Hreq r0. subst r0. rewrite (run_body k p w Hreq).
  apply module_body_filter. intros c Hc. unfold is_mutating. by rewrite Hc.
Qed.

(** The customer gateway created from scratch: the mutating calls of the
    run are those of [ensure_ok]. *)
Lemma run_mutations_come_from_act_witness :
  List.filter is_mutating
    (issued (run customer_gateway Scenario.cgw_present Account.empty))
  = List.filter is_mutating
      (issued (ensure_ok customer_gateway
                 (fresh customer_gateway Scenario.cgw_present) Account.empty)).
Proof.
  exact (run_mutations_come_from_act customer_gateway Scenario.cgw_present
           Account.empty eq_refl).
Defined.

(** ** Runs that find nothing *)

Section NothingFound.
Context {W : Type} `{!Backend W}.

Lemma ensure_ok_create_calls k (s : Manager k) (w : W) :
  found_of k s = None ->
  List.filter is_create (issued (ensure_ok k s w)) = [create_call k s].
Proof.
  intros Hnone. destruct k; pick_kind.
  - assert (CustomerGatewayModule.cgw s = None) as Hc
      by (by destruct (CustomerGatewayModule.cgw s)).
    rewrite (cgw_ensure_ok_not_found s w Hc), filter_issued_bind.
    pose proof (create_cgw_run s w) as Hrun. simpl in Hrun. rewrite Hrun.
    destruct (respond _ w) as [[[new|]|] w1]; simpl; try done;
      f_equal; apply filter_none;
      first [ exact (set_tags_no_create customer_gateway _ _)
            | exact (set_tags_of_no_create _ _ _ _) ].
  - assert (VPNGatewayModule.vpn_gw s = None) as Hc
      by (by destruct (VPNGatewayModule.vpn_gw s)).
    rewrite (vpn_gw_ensure_ok_not_found s w Hc), filter_issued_bind.
    pose proof (create_vpn_gw_run s w) as Hrun. simpl in Hrun. rewrite Hrun.
    destruct (respond _ w) as [[[new|]|] w1]; simpl; try done;
      f_equal; apply filter_none;
      exact (vpn_gw_tags_then_attach_no_create _ _).
  - assert (VPNConnectionModule.vpn_conn s = None) as Hc
      by (by destruct (VPNConnectionModule.vpn_conn s)).
    rewrite (vpn_conn_ensure_ok_not_found s w Hc), filter_issued_bind.
    pose proof (create_vpn_conn_run s w) as Hrun. simpl in Hrun. rewrite Hrun.
    destruct (respond _ w) as [[[new|]|] w1]; simpl; try done;
      f_equal; apply filter_none;
      first [ exact (set_tags_no_create vpn_connection _ _)
            | exact (set_tags_of_no_create _ _ _ _) ].
Qed.

(** With nothing found, the step for [state: present] is [ensure_ok], for
    the VPN gateway too, whatever route tables are listed. *)
Lemma act_present_not_found k (s : Manager k) (w : W) :
  found_of k s = None -> act k present s w = ensure_ok k s w.
Proof.
  intros Hnone. destruct k; try done. unfold act; pick_kind.
  unfold VPNGatewayModule.dispatch. read_self.
  destruct (VPNGatewayModule.vpn_gw s); [done|].
  by rewrite andb_false_r.
Qed.

(** The constructor when there is neither an id nor a tag to search by. *)
Lemma lookup_blind k (s : Manager k) (w : W) ids w1 :
  truthy (id_of k s) = false -> tags_of k s = ∅ ->
  connect_to_aws w = None ->
  listed_ids k w = (Ret ids, w1) ->
  let r := lookup k s w in
  outcome r = Return tt /\ world_after r = w1 /\ issued r = [listing k]
  /\ found_of k (self_after r) = None
  /\ create_call k (self_after r) = create_call k s
  /\ id_of k (self_after r) = id_of k s
  /\ status_of k (self_after r) = status_of k s.
Proof.
  intros Hid Htags Hconn Hlist r. subst r.
  assert (truthy_dict (tags_of k s) = false) as Hfalsy
    by (rewrite Htags; apply negb_false_iff; by apply bool_decide_eq_true).
  destruct k; pick_kind; unfold listing.
  - destruct (respond (get_all_customer_gateways QAll) w) as [[l|] w'] eqn:Hl;
      [|done].
    injection Hlist as <- <-.
    by rewrite (cgw_lookup_blind s w l w' Hid Hfalsy Hconn Hl).
  - destruct (respond (get_all_vpn_gateways QAll) w) as [[l|] w'] eqn:Hl;
      [|done].
    injection Hlist as <- <-.
    by rewrite (vpn_gw_lookup_blind s w l w' Hid Hfalsy Hconn Hl).
  - destruct (respond (get_all_vpn_connections QAll) w) as [[l|] w'] eqn:Hl;
      [|done].
    injection Hlist as <- <-.
    by rewrite (vpn_conn_lookup_blind s w l w' Hid Hfalsy Hconn Hl).
Qed.
End NothingFound.

(** X7.  Nothing to search by.  For each of the three modules: run with
    [state: present], no id and an empty tag mapping, the constructor
    issues the listing and finds nothing, whatever the listing holds, and
    the run issues exactly one create call.  Such a run creates one more
    resource each time it is repeated. *)
Theorem no_criteria_always_creates :
  forall {W : Type} `{!Backend W} (k : Kind) (p : Params k) (w : W) ids w1,
    required_inputs k p = true ->
    state_of k p = present ->
    truthy (id_of k (fresh k p)) = false ->
    tags_of k (fresh k p) = ∅ ->
    connect_to_aws w = None ->
    listed_ids k w = (Ret ids, w1) ->
    found_of k (self_after (lookup k (fresh k p) w)) = None
    /\ List.filter is_create (issued (run k p w)) = [create_call k (fresh k p)].
Proof.
  intros W B k p w ids w1 Hreq Hstate Hid Htags Hconn Hlist.
  destruct (lookup_blind k (fresh k p) w ids w1 Hid Htags Hconn Hlist)
    as (Hout & Hw & _ & Hnone & Hcreate & _).
  split; [done|].
  rewrite (run_body k p w Hreq), (module_body_filter is_create); [|by intros []].
  rewrite Hout, Hstate, (act_present_not_found _ _ _ Hnone).
  by rewrite (ensure_ok_create_calls _ _ _ Hnone), Hcreate.
Qed.

(** A gateway with the wanted IP address exists, but the run has no id and
    no tag to recognise it by: it creates another one. *)
Lemma no_criteria_always_creates_witness :
  List.filter is_create
    (issued (run customer_gateway Cases.cgw_no_criteria Scenario.account_cgw))
  = [create_customer_gateway (Some "ipsec.1") (Some "1.1.1.1") (Some 65000%Z)].
Proof.
  exact (proj2 (no_criteria_always_creates customer_gateway
                  Cases.cgw_no_criteria Scenario.account_cgw ["cgw-1"]
                  Scenario.account_cgw eq_refl eq_refl eq_refl eq_refl
                  eq_refl eq_refl)).
Defined.

(** X8.  Missing inputs.  For each of the three modules: a run without a
    region fails with the region message, and a customer gateway run with a
    region and [state: present] but no IP address fails with the IP address
    message; the region is checked first.  In both cases the failure comes
    before the manager is built: no call is issued and the remote world is
    untouched. *)
Theorem missing_input_aborts_before_any_call :
  forall {W : Type} `{!Backend W} (k : Kind) (p : Params k) (w : W),
    required_inputs k p = false ->
    let r := run k p w in
    issued r = []
    /\ world_after r = w
    /\ outcome r
       = Raise (ModuleFailure (if truthy (region_of k p)
                               then ip_address_missing else region_missing)).
Proof.
  intros W B k p w Hreq r. subst r. destruct k; pick_kind; unfold region_of.
  - unfold CustomerGatewayModule.run, CustomerGatewayModule.main.
    destruct (truthy (CustomerGatewayModule.p_region p)); [|done].
    simpl in *. destruct (CustomerGatewayModule.p_state p); [|done].
    by rewrite Hreq.
  - unfold VPNGatewayModule.run, VPNGatewayModule.main. by rewrite Hreq.
  - unfold VPNConnectionModule.run, VPNConnectionModule.main. by rewrite Hreq.
Qed.

Lemma missing_input_aborts_before_any_call_witness :
  let r := run customer_gateway Cases.cgw_no_region Account.empty in
  issued r = [] /\ outcome r = Raise (ModuleFailure region_missing).
Proof.
  intros r.
  pose proof (missing_input_aborts_before_any_call customer_gateway
                Cases.cgw_no_region Account.empty eq_refl)
    as (Hcalls & _ & Hout).
  split; [exact Hcalls | exact Hout].
Defined.

(** ** [ensure_gone] on a resource that was found *)

(** X9.  For every resource kind: when the lookup found a resource,
    [ensure_gone] never creates and never tags, and when it returns it has
    issued exactly one delete call, on [self.id].  Where no detach call is
    due (always, for a customer gateway and a VPN connection) that delete
    call is its only call: a truthy result sets the status to ['deleted']
    and [changed] to true and keeps the id, a falsy result leaves the
    manager as it was. *)
Theorem ensure_gone_found_deletes :
  forall {W : Type} `{!Backend W} (k : Kind) (s : Manager k) (w : W) i,
    found_of k s = Some i ->
    let r := ensure_gone k s w in
    (outcome r = Return tt ->
     List.filter is_delete (issued r) = [delete_call k s])
    /\ count is_create (issued r) = 0
    /\ count is_create_tags (issued r) = 0
    /\ (detach_calls k s = [] ->
        forall result w1,
          respond (delete_call k s) w = (Ret result, w1) ->
          issued r = [delete_call k s]
          /\ outcome r = Return tt
          /\ world_after r = w1
          /\ if deleted k s result
             then status_of k (self_after r) = "deleted"
                  /\ changed_of k (self_after r) = true
                  /\ id_of k (self_after r) = id_of k s
             else self_after r = s).
Proof.
  intros W B k s w i Hfound r. subst r.
  destruct k; pick_kind; unfold delete_call, deleted, detach_calls.
  - destruct (CustomerGatewayModule.cgw s) as [c|] eqn:Hc; [|done].
    unfold CustomerGatewayModule.ensure_gone,
      CustomerGatewayModule._delete_cgw.
    read_self. rewrite Hc. read_self. unfold bind, call, modify.
    destruct (respond _ w) as [[[|]|] w1]; simpl;
      (split; [done|]); (split; [done|]); (split; [done|]);
      intros _ result w1' [= <- <-]; by destruct s.
  - destruct (VPNGatewayModule.vpn_gw s) as [g|] eqn:Hg; [|done].
    unfold VPNGatewayModule.ensure_gone, VPNGatewayModule._detach_vpn_gw,
      VPNGatewayModule._delete_vpn_gw.
    read_self. destruct (truthy _ && truthy _).
    + unfold bind, call, modify, get_self. simpl.
      destruct (respond (detach_vpn_gateway _ _) w) as [[[|]|] w1]; simpl;
        rewrite ?Hg; simpl;
        try (destruct (respond (delete_vpn_gateway _) w1) as [[[|]|] w2];
             simpl);
        by repeat split.
    + unfold bind at 1, ret. simpl. read_self. rewrite Hg. read_self.
      unfold bind, call, modify.
      destruct (respond _ w) as [[[|]|] w1]; simpl;
        (split; [done|]); (split; [done|]); (split; [done|]);
        intros _ result w1' [= <- <-]; by destruct s.
  - destruct (VPNConnectionModule.vpn_conn s) as [c|] eqn:Hc; [|done].
    unfold VPNConnectionModule.ensure_gone,
      VPNConnectionModule._delete_vpn_conn.
    read_self. rewrite Hc. read_self. unfold bind, call, modify.
    destruct (respond _ w) as [[[|]|] w1]; simpl;
      (split; [done|]); (split; [done|]); (split; [done|]);
      intros _ result w1' [= <- <-]; by destruct s.
Qed.

(** The gateway found by id is deleted; the manager keeps its id. *)
Lemma ensure_gone_found_deletes_witness :
  let r := ensure_gone customer_gateway Scenario.cgw_found
             Scenario.account_cgw in
  issued r = [delete_customer_gateway (Some "cgw-1")]
  /\ status_of customer_gateway (self_after r) = "deleted"
  /\ changed_of customer_gateway (self_after r) = true
  /\ id_of customer_gateway (self_after r) = Some "cgw-1".
Proof.
  intros r.
  pose proof (ensure_gone_found_deletes customer_gateway Scenario.cgw_found
                Scenario.account_cgw "cgw-1" eq_refl) as (_ & _ & _ & Hdel).
  destruct (Hdel eq_refl true Account.empty eq_refl) as (Hcalls & _ & _ & Hst).
  split; [exact Hcalls | exact Hst].
Defined.

(** ** [ensure_ok] on a resource that was found *)

Section EnsureOkFound.
Context {W : Type} `{!Backend W}.

(** Tag reconciliation when every desired pair is already there: two tag
    listings at most, nothing else. *)
Lemma set_tags_of_in_sync {S} resource tags (s : S) (w : W) ts w1 :
  respond (get_all_tags resource) w = (Ret ts, w1) ->
  tags ⊆ tags_to_dict ts ->
  Forall (fun c => c = get_all_tags resource)
         (issued (set_tags_of resource tags s w)).
Proof.
  intros Hget Hsub.
  assert (truthy_dict (∅ : gmap string string) = false) as Hempty
    by (apply negb_false_iff; by apply bool_decide_eq_true).
  unfold set_tags_of, bind, call. rewrite Hget. simpl.
  rewrite (dictadd_of_subset _ _ Hsub), Hempty. simpl.
  destruct (respond (get_all_tags resource) w1) as [[ts'|] w2]; simpl;
    by repeat constructor.
Qed.

Lemma ensure_ok_found k (s : Manager k) (w : W) i :
  found_of k s = Some i ->
  ensure_ok k s w
  = match k return Manager k -> Run W (Manager k) unit with
    | vpn_gateway => fun s => vpn_gw_tags_then_attach s w
    | k' => fun s => _set_tags k' s w
    end s.
Proof.
  intros Hfound. destruct k; pick_kind.
  - destruct (CustomerGatewayModule.cgw s) as [c|] eqn:Hc; [|done].
    unfold CustomerGatewayModule.ensure_ok. read_self. rewrite Hc.
    reflexivity.
  - destruct (VPNGatewayModule.vpn_gw s) as [g|] eqn:Hc; [|done].
    unfold VPNGatewayModule.ensure_ok. read_self. rewrite Hc.
    reflexivity.
  - destruct (VPNConnectionModule.vpn_conn s) as [c|] eqn:Hc; [|done].
    unfold VPNConnectionModule.ensure_ok. read_self. rewrite Hc.
    reflexivity.
Qed.
End EnsureOkFound.

(** X10.  A resource in sync.  For every resource kind: when the lookup
    found a resource whose remote tags contain every desired pair and no
    attach call is due (always, for a customer gateway and a VPN
    connection), [ensure_ok] issues nothing but listings of that resource's
    tags and leaves the manager, its [changed] flag included, as it was. *)
Theorem ensure_ok_in_sync_is_quiet :
  forall {W : Type} `{!Backend W} (k : Kind) (s : Manager k) (w : W)
         i ts w1,
    found_of k s = Some i ->
    respond (get_all_tags (id_of k s)) w = (Ret ts, w1) ->
    tags_of k s ⊆ tags_to_dict ts ->
    attach_calls k s = [] ->
    let r := ensure_ok k s w in
    Forall (fun c => c = get_all_tags (id_of k s)) (issued r)
    /\ self_after r = s.
Proof.
  intros W B k s w i ts w1 Hfound Hget Hsub Hattach r. subst r.
  rewrite (ensure_ok_found k s w i Hfound).
  pose proof (set_tags_of_in_sync _ _ s w ts w1 Hget Hsub) as Hquiet.
  destruct k; pick_kind; rewrite <- ?set_tags_unfold in Hquiet.
  - split; [exact Hquiet | apply set_tags_of_self].
  - pose proof (set_tags_of_self (VPNGatewayModule.id s)
                  (VPNGatewayModule.tags s) s w) as Hself.
    unfold attach_calls in Hattach.
    split; unfold vpn_gw_tags_then_attach, bind at 1;
      (destruct (outcome (VPNGatewayModule._set_tags s w)); simpl;
       [|first [exact Hquiet | exact Hself]]);
      rewrite !Hself;
      (destruct (truthy _ && truthy _); [done|]); simpl.
    + rewrite app_nil_r. exact Hquiet.
    + reflexivity.
  - split; [exact Hquiet | apply set_tags_of_self].
Qed.

(** The gateway carries the desired tag and one more: [ensure_ok] twice
    lists its tags and changes nothing. *)
Lemma ensure_ok_in_sync_is_quiet_witness :
  let r := ensure_ok customer_gateway Scenario.cgw_found
             Scenario.account_cgw_tagged in
  Forall (fun c => c = get_all_tags (Some "cgw-1")) (issued r)
  /\ self_after r = Scenario.cgw_found.
Proof.
  intros r.
  refine (ensure_ok_in_sync_is_quiet customer_gateway Scenario.cgw_found
            Scenario.account_cgw_tagged "cgw-1"
            [mkTag "Name" "example_cgw"; mkTag "Owner" "ops"]
            Scenario.account_cgw_tagged eq_refl eq_refl _ eq_refl).
  apply items_issubset_spec. vm_compute. reflexivity.
Defined.

(** ** Route propagation: the disable direction, and a call that raises *)

Section RoutePropagationRuns.
Context {W : Type} `{!Backend W}.
Import VPNGatewayModule.

Lemma disable_each_run routes :
  forall results (s : Manager) (w : W) bs w2,
    disable_replies routes (id s) w = Some (bs, w2) ->
    disable_each routes results s w
    = mkRun (Return (results ++ List.filter (fun b => b) bs)) s w2
            (map (disable_call s) routes).
Proof.
  induction routes as [|route rest IH]; intros results s w bs w2 Hrep;
    simpl in *.
  - injection Hrep as <- <-. simpl. by rewrite app_nil_r.
  - read_self. unfold bind, call.
    destruct (respond _ w) as [[b|] w1]; [|done].
    destruct (disable_replies rest (id s) w1) as [[bs' w2']|] eqn:Hrest;
      [|done].
    injection Hrep as <- <-. simpl.
    destruct b; rewrite (IH _ s w1 bs' w2' Hrest); simpl; [|done].
    by rewrite <- app_assoc.
Qed.

(** A call that raises ends the loop: the calls so far are a non-empty
    prefix of the list, and the results collected are lost with the
    frame. *)
Lemma enable_each_raises routes :
  forall results (s : Manager) (w : W),
    enable_replies routes (id s) w = None ->
    outcome (enable_each routes results s w) = Raise EC2ResponseError
    /\ exists n, n < length routes
                 /\ issued (enable_each routes results s w)
                    = map (enable_call s) (take (S n) routes).
Proof.
  induction routes as [|route rest IH]; intros results s w Hrep;
    simpl in *; [done|].
  read_self. unfold bind, call.
  destruct (respond _ w) as [[b|] w1]; simpl.
  - destruct (enable_replies rest (id s) w1) as [[bs' w2']|] eqn:Hrest;
      [done|].
    destruct b.
    + destruct (IH (results ++ [true]) s w1 Hrest) as [-> [n [Hn ->]]].
      split; [done|]. exists (S n). split; [lia | done].
    + destruct (IH results s w1 Hrest) as [-> [n [Hn ->]]].
      split; [done|]. exists (S n). split; [lia | done].
  - split; [done|]. exists 0. split; [lia | by rewrite take_0].
Qed.

Lemma disable_each_raises routes :
  forall results (s : Manager) (w : W),
    disable_replies routes (id s) w = None ->
    outcome (disable_each routes results s w) = Raise EC2ResponseError
    /\ exists n, n < length routes
                 /\ issued (disable_each routes results s w)
                    = map (disable_call s) (take (S n) routes).
Proof.
  induction routes as [|route rest IH]; intros results s w Hrep;
    simpl in *; [done|].
  read_self. unfold bind, call.
  destruct (respond _ w) as [[b|] w1]; simpl.
  - destruct (disable_replies rest (id s) w1) as [[bs' w2']|] eqn:Hrest;
      [done|].
    destruct b.
    + destruct (IH (results ++ [true]) s w1 Hrest) as [-> [n [Hn ->]]].
      split; [done|]. exists (S n). split; [lia | done].
    + destruct (IH results s w1 Hrest) as [-> [n [Hn ->]]].
      split; [done|]. exists (S n). split; [lia | done].
  - split; [done|]. exists 0. split; [lia | by rewrite take_0].
Qed.
End RoutePropagationRuns.

(** X11.  Route propagation, the disable direction.  VPN gateway,
    [state: absent], a non-empty list of route tables and a gateway found
    by the lookup: [main] runs [_disable_route_propagation] and not
    [ensure_gone]; when no call raises it issues exactly one disable call
    per listed route table, in order, and the manager it leaves differs
    from the one it started with at most in [changed], which is set as soon
    as one result is truthy: the gateway is neither detached nor deleted
    and its status stays. *)
Theorem route_propagation_disabled_per_table :
  forall {W : Type} `{!Backend W} (s : VPNGatewayModule.Manager) (w : W)
         routes g bs w2,
    VPNGatewayModule.route_table_ids s = Some routes ->
    routes <> [] ->
    VPNGatewayModule.vpn_gw s = Some g ->
    disable_replies routes (VPNGatewayModule.id s) w = Some (bs, w2) ->
    let r := VPNGatewayModule.dispatch absent s w in
    outcome r = Return tt
    /\ issued r = map (disable_call s) routes
    /\ world_after r = w2
    /\ self_after r
       = if existsb (fun b => b) bs
         then VPNGatewayModule.set_changed true s else s.
Proof.
  intros W B s w routes g bs w2 Hroutes Hne Hgw Hrep r. subst r.
  rewrite (dispatch_routes absent s w routes g Hroutes Hne Hgw).
  unfold VPNGatewayModule._disable_route_propagation.
  read_self. rewrite Hroutes. unfold bind.
  rewrite (disable_each_run routes [] s w bs w2 Hrep). simpl.
  pose proof (collected_truthy bs) as Hcol.
  destruct (List.filter (fun b => b) bs) as [|b bs']; simpl.
  - rewrite (proj1 Hcol eq_refl), app_nil_r. done.
  - destruct (existsb (fun b0 => b0) bs) eqn:He.
    + by rewrite app_nil_r.
    + discriminate (proj2 Hcol eq_refl).
Qed.

(** The gateway [vgw-1] found by id, two route tables, [state: absent]:
    two disable calls, [changed] set, the status still ['ok']. *)
Lemma route_propagation_disabled_per_table_witness :
  let s := Scenario.vgw_found_with_routes in
  let r := VPNGatewayModule.dispatch absent s Scenario.account_vgw in
  issued r = [disable_vgw_route_propagation "rtb-1" (Some "vgw-1");
              disable_vgw_route_propagation "rtb-2" (Some "vgw-1")]
  /\ self_after r = VPNGatewayModule.set_changed true s.
Proof.
  intros s r.
  assert (Hne : ["rtb-1"; "rtb-2"] <> @nil string) by discriminate.
  pose proof (route_propagation_disabled_per_table s Scenario.account_vgw
                ["rtb-1"; "rtb-2"] Scenario.vgw_1 [true; true]
                Scenario.account_vgw eq_refl Hne eq_refl eq_refl)
    as (_ & Hcalls & _ & Hself).
  split; [exact Hcalls | exact Hself].
Defined.

(** X12.  Route propagation, a call that raises.  In either direction, with
    a non-empty list of route tables and a gateway found: when one of the
    calls raises, the run of [main] ends there with that error; the calls
    issued are those for the route tables up to and including the failing
    one, none is undone, and the manager is left exactly as it was: the
    truthy results of the earlier calls are lost and [changed] is not
    set. *)
Theorem route_propagation_failure_keeps_manager :
  forall {W : Type} `{!Backend W} (state : State)
         (s : VPNGatewayModule.Manager) (w : W) routes g,
    VPNGatewayModule.route_table_ids s = Some routes ->
    routes <> [] ->
    VPNGatewayModule.vpn_gw s = Some g ->
    propagation_replies state routes (VPNGatewayModule.id s) w = None ->
    let r := VPNGatewayModule.dispatch state s w in
    outcome r = Raise EC2ResponseError
    /\ self_after r = s
    /\ exists n, n < length routes
                 /\ issued r = map (propagation_call state s)
                                   (take (S n) routes).
Proof.
  intros W B state s w routes g Hroutes Hne Hgw Hrep r. subst r.
  rewrite (dispatch_routes state s w routes g Hroutes Hne Hgw).
  destruct state; simpl in Hrep.
  - unfold VPNGatewayModule._enable_route_propagation.
    read_self. rewrite Hroutes. unfold bind.
    destruct (enable_each_prefix routes [] s w) as [Hself _].
    destruct (enable_each_raises routes [] s w Hrep) as [Hout [n [Hn Hcalls]]].
    rewrite Hout. simpl. split; [done|]. split; [done|].
    exists n. by split.
  - unfold VPNGatewayModule._disable_route_propagation.
    read_self. rewrite Hroutes. unfold bind.
    destruct (disable_each_prefix routes [] s w) as [Hself _].
    destruct (disable_each_raises routes [] s w Hrep) as [Hout [n [Hn Hcalls]]].
    rewrite Hout. simpl. split; [done|]. split; [done|].
    exists n. by split.
Qed.

(** The manager holds a gateway that the account no longer has: the first
    enable call raises, the second route table is never asked for. *)
Lemma route_propagation_failure_keeps_manager_witness :
  let s := Scenario.vgw_found_with_routes in
  let r := VPNGatewayModule.dispatch present s Account.empty in
  outcome r = Raise EC2ResponseError /\ self_after r = s.
Proof.
  intros s r.
  assert (Hne : ["rtb-1"; "rtb-2"] <> @nil string) by discriminate.
  pose proof (route_propagation_failure_keeps_manager present s Account.empty
                ["rtb-1"; "rtb-2"] Scenario.vgw_1 eq_refl Hne eq_refl eq_refl)
    as (Hout & Hself & _).
  split; [exact Hout | exact Hself].
Defined.

(** ** The report *)

(** X13.  The report of the VPN gateway and of the VPN connection manager.
    [get_info] issues exactly one call, the listing restricted to
    [self.id] (whether an id is known or not), leaves the manager as it
    was and always returns: the full report, read off the first listed
    resource and the status kept by the manager, when the listing is not
    empty; the minimal report, id and status of the manager, when the
    listing is empty or the call raised. *)
Theorem vpn_get_info_one_fetch_never_raises :
  forall {W : Type} `{!Backend W},
    (forall (s : VPNGatewayModule.Manager) (w : W),
       let c := get_all_vpn_gateways (QIds [VPNGatewayModule.id s]) in
       let r := VPNGatewayModule.get_info s w in
       issued r = [c] /\ self_after r = s /\ world_after r = (respond c w).2
       /\ outcome r
          = Return match (respond c w).1 with
                   | Ret (g :: _) =>
                       [("id", PyStr (vgw_id g));
                        ("availability_zone", vgw_availability_zone g);
                        ("type", vgw_type g);
                        ("status", PyStr (VPNGatewayModule.status s));
                        ("attach_status",
                          PyStr (VPNGatewayModule.attach_status s))]
                   | _ =>
                       [("id", py_str (VPNGatewayModule.id s));
                        ("status", PyStr (VPNGatewayModule.status s))]
                   end)
    /\ (forall (s : VPNConnectionModule.Manager) (w : W),
         let c := get_all_vpn_connections (QIds [VPNConnectionModule.id s]) in
         let r := VPNConnectionModule.get_info s w in
         issued r = [c] /\ self_after r = s
         /\ world_after r = (respond c w).2
         /\ outcome r
            = Return match (respond c w).1 with
                     | Ret (v :: _) =>
                         [("id", PyStr (vpn_id v));
                          ("state", vpn_state v);
                          ("customer_gateway_configuration",
                            vpn_customer_gateway_configuration v);
                          ("type", vpn_type v);
                          ("customer_gateway_id", vpn_customer_gateway_id v);
                          ("vpn_gateway_id", vpn_vpn_gateway_id v);
                          ("tunnels", PyStr (vpn_tunnels v));
                          ("options", vpn_options v);
                          ("static_routes", vpn_static_routes v);
                          ("status", PyStr (VPNConnectionModule.status s))]
                     | _ =>
                         [("id", py_str (VPNConnectionModule.id s));
                          ("status", PyStr (VPNConnectionModule.status s))]
                     end).
Proof.
  intros W B. split; intros s w c r; subst c r.
  - unfold VPNGatewayModule.get_info. read_self.
    unfold bind, try_except, call, index0, ret, raise; simpl.
    by destruct (respond _ w) as [[[|g l]|] w1].
  - unfold VPNConnectionModule.get_info. read_self.
    unfold bind, try_except, call, index0, ret, raise; simpl.
    by destruct (respond _ w) as [[[|v l]|] w1].
Qed.

(** X14.  The report of the customer gateway manager without an id.  When
    [self.id] is falsy and an IP address is known, [get_info] issues one
    call, the listing filtered by that address, leaves the manager as it
    was and returns: with a non-empty listing, the attributes of the first
    gateway listed, its id included, under the status the manager keeps;
    otherwise the minimal report.  The gateway reported need not be one
    the lookup found. *)
Theorem cgw_get_info_by_ip_address :
  forall {W : Type} `{!Backend W} (s : CustomerGatewayModule.Manager) (w : W),
    truthy (CustomerGatewayModule.id s) = false ->
    truthy (CustomerGatewayModule.ip_address s) = true ->
    let c := get_all_customer_gateways
               (QFilter "ipAddress" (CustomerGatewayModule.ip_address s)) in
    let r := CustomerGatewayModule.get_info s w in
    issued r = [c] /\ self_after r = s /\ world_after r = (respond c w).2
    /\ outcome r
       = Return match (respond c w).1 with
                | Ret (g :: _) =>
                    [("ip_address", cgw_ip_address g);
                     ("id", PyStr (cgw_id g));
                     ("bgp_asn", cgw_bgp_asn g);
                     ("type", cgw_type g);
                     ("status", PyStr (CustomerGatewayModule.status s))]
                | _ =>
                    [("ip_address", py_str (CustomerGatewayModule.ip_address s));
                     ("id", py_str (CustomerGatewayModule.id s));
                     ("status", PyStr (CustomerGatewayModule.status s))]
                end.
Proof.
  intros W B s w Hid Hip c r. subst c r.
  unfold CustomerGatewayModule.get_info. read_self. rewrite Hid, Hip.
  unfold bind, try_except, call, index0, ret, raise; simpl.
  by destruct (respond _ w) as [[[|g l]|] w1].
Qed.

(** The lookup by tags found nothing and [ensure_gone] had nothing to do,
    yet the report describes the gateway that has the given address, as
    ['gone']. *)
Lemma cgw_get_info_by_ip_address_witness :
  outcome (CustomerGatewayModule.get_info Reports.cgw_by_address
             Scenario.account_cgw)
  = Return [("ip_address", PyStr "1.1.1.1"); ("id", PyStr "cgw-1");
            ("bgp_asn", PyInt 65000); ("type", PyStr "ipsec.1");
            ("status", PyStr "gone")].
Proof.
  exact (proj2 (proj2 (proj2
    (cgw_get_info_by_ip_address Reports.cgw_by_address Scenario.account_cgw
       eq_refl eq_refl)))).
Defined.

(** ** Attaching and detaching the VPN gateway *)

Section BindReturn.
Context {W : Type} `{!Backend W} {S : Type}.

Lemma bind_return {A B} (m : M W S A) (k : A -> M W S B) s w a :
  outcome (m s w) = Return a ->
  bind m k s w
  = after (issued (m s w)) (k a (self_after (m s w)) (world_after (m s w))).
Proof. intros Ha. unfold bind. by rewrite Ha. Qed.
End BindReturn.

(** X15.  The attach step of [ensure_ok].  VPN gateway found by the
    lookup, a VPC and an id known: once tag reconciliation has returned,
    [ensure_ok] issues one attach call for that id and VPC, as its last
    call; nothing is asked about the current attachment first.  A truthy
    result sets [changed] and the attach status ['attached'], a falsy one
    leaves the manager as it was, and a call that raises ends [ensure_ok]
    with the manager as it was.  When tag reconciliation raises, no attach
    call is issued. *)
Theorem vpn_gw_ensure_ok_attaches :
  forall {W : Type} `{!Backend W} (s : VPNGatewayModule.Manager) (w : W) g,
    VPNGatewayModule.vpn_gw s = Some g ->
    truthy (VPNGatewayModule.vpc s) = true ->
    truthy (VPNGatewayModule.id s) = true ->
    let tagging := VPNGatewayModule._set_tags s w in
    let c := attach_vpn_gateway (VPNGatewayModule.id s) (VPNGatewayModule.vpc s) in
    let r := VPNGatewayModule.ensure_ok s w in
    match outcome tagging with
    | Raise e => r = tagging
    | Return _ =>
        issued r = issued tagging ++ [c]
        /\ world_after r = (respond c (world_after tagging)).2
        /\ match (respond c (world_after tagging)).1 with
           | Ret result =>
               outcome r = Return tt
               /\ self_after r
                  = if (result : bool)
                    then VPNGatewayModule.set_attach_status "attached"
                           (VPNGatewayModule.set_changed true s)
                    else s
           | Err => outcome r = Raise EC2ResponseError /\ self_after r = s
           end
    end.
Proof.
  intros W B s w g Hgw Hvpc Hid tagging c r. subst tagging c r.
  change (VPNGatewayModule.ensure_ok s w) with (ensure_ok vpn_gateway s w).
  rewrite (ensure_ok_found vpn_gateway s w (vgw_id g))
    by (simpl; by rewrite Hgw).
  pose proof (set_tags_of_self (VPNGatewayModule.id s)
                (VPNGatewayModule.tags s) s w) as Hself.
  unfold vpn_gw_tags_then_attach.
  change (VPNGatewayModule._set_tags s w)
    with (set_tags_of (VPNGatewayModule.id s) (VPNGatewayModule.tags s) s w)
    in *.
  destruct (outcome (set_tags_of _ _ s w)) as [[]|e] eqn:Hout.
  - rewrite (bind_return VPNGatewayModule._set_tags _ s w _ Hout).
    change (VPNGatewayModule._set_tags s w)
      with (set_tags_of (VPNGatewayModule.id s) (VPNGatewayModule.tags s) s w).
    read_self.
    rewrite !Hself, Hvpc, Hid. simpl.
    unfold VPNGatewayModule._attach_vpn_gw. read_self.
    unfold bind, call, modify, after. simpl.
    destruct (respond (attach_vpn_gateway _ _) _) as [[[|]|] w2]; simpl;
      by rewrite ?app_nil_r.
  - rewrite (bind_raise VPNGatewayModule._set_tags _ s w _ Hout).
    change (VPNGatewayModule._set_tags s w)
      with (set_tags_of (VPNGatewayModule.id s) (VPNGatewayModule.tags s) s w).
    rewrite <- Hout. by destruct (set_tags_of _ _ s w).
Qed.

(** The gateway [vgw-1], found by id, with a VPC: the attach call follows
    the tagging, and the manager ends up changed and attached. *)
Lemma vpn_gw_ensure_ok_attaches_witness :
  let s := Scenario.vgw_found_with_routes in
  let r := VPNGatewayModule.ensure_ok s Scenario.account_vgw in
  last (issued r) = Some (attach_vpn_gateway (Some "vgw-1") (Some "vpc-1"))
  /\ self_after r
     = VPNGatewayModule.set_attach_status "attached"
         (VPNGatewayModule.set_changed true s).
Proof.
  intros s r.
  pose proof (vpn_gw_ensure_ok_attaches s Scenario.account_vgw Scenario.vgw_1
                eq_refl eq_refl eq_refl) as Hrun.
  cbv zeta in Hrun.
  assert (outcome (VPNGatewayModule._set_tags s Scenario.account_vgw)
          = Return tt) as Hout by (vm_compute; reflexivity).
  rewrite Hout in Hrun. destruct Hrun as (Hcalls & _ & Hrest).
  assert ((respond (attach_vpn_gateway (VPNGatewayModule.id s)
                      (VPNGatewayModule.vpc s))
             (world_after (VPNGatewayModule._set_tags s Scenario.account_vgw))).1
          = Ret true) as Hreply by (vm_compute; reflexivity).
  rewrite Hreply in Hrest. destruct Hrest as (_ & Hself).
  split; [|exact Hself].
  subst r. rewrite Hcalls. apply last_snoc.
Defined.

(** X16.  [ensure_gone] on a VPN gateway that is to be detached.  Gateway
    found by the lookup, a VPC and an id known: the detach call comes
    first, the delete call second, both on [self.id].  A detach call that
    raises ends [ensure_gone] before any delete call, the manager as it
    was.  After a detach call that returned, a delete call that raises
    ends it too: what the detach set stays set and nothing is undone.
    When both return, a truthy detach result sets [changed] and the
    attach status ['detached'], and a truthy delete result sets [changed]
    and the status ['deleted']. *)
Theorem vpn_gw_ensure_gone_detaches_first :
  forall {W : Type} `{!Backend W} (s : VPNGatewayModule.Manager) (w : W) g,
    VPNGatewayModule.vpn_gw s = Some g ->
    truthy (VPNGatewayModule.vpc s) = true ->
    truthy (VPNGatewayModule.id s) = true ->
    let detach := detach_vpn_gateway (VPNGatewayModule.id s)
                    (VPNGatewayModule.vpc s) in
    let delete := delete_vpn_gateway (VPNGatewayModule.id s) in
    let r := VPNGatewayModule.ensure_gone s w in
    match respond detach w with
    | (Err, w1) =>
        issued r = [detach] /\ outcome r = Raise EC2ResponseError
        /\ self_after r = s /\ world_after r = w1
    | (Ret detached, w1) =>
        let s1 := if (detached : bool)
                  then VPNGatewayModule.set_attach_status "detached"
                         (VPNGatewayModule.set_changed true s)
                  else s in
        issued r = [detach; delete]
        /\ match respond delete w1 with
           | (Err, w2) =>
               outcome r = Raise EC2ResponseError
               /\ self_after r = s1 /\ world_after r = w2
           | (Ret gone, w2) =>
               outcome r = Return tt /\ world_after r = w2
               /\ self_after r
                  = if (gone : bool)
                    then VPNGatewayModule.set_status "deleted"
                           (VPNGatewayModule.set_changed true s1)
                    else s1
           end
    end.
Proof.
  intros W B s w g Hgw Hvpc Hid detach delete r. subst detach delete r.
  unfold VPNGatewayModule.ensure_gone, VPNGatewayModule._detach_vpn_gw,
    VPNGatewayModule._delete_vpn_gw.
  read_self. rewrite Hvpc, Hid. simpl.
  unfold bind, call, modify, get_self, after. simpl.
  destruct (respond (detach_vpn_gateway _ _) w) as [[[|]|] w1]; simpl;
    rewrite ?Hgw; simpl; [| |done];
    destruct (respond (delete_vpn_gateway _) w1) as [[[|]|] w2]; simpl;
    by destruct s.
Qed.

(** The gateway [vgw-1], found by id, with a VPC: detached, then deleted. *)
Lemma vpn_gw_ensure_gone_detaches_first_witness :
  let s := Scenario.vgw_found_with_routes in
  let r := VPNGatewayModule.ensure_gone s Scenario.account_vgw in
  issued r = [detach_vpn_gateway (Some "vgw-1") (Some "vpc-1");
              delete_vpn_gateway (Some "vgw-1")]
  /\ VPNGatewayModule.status (self_after r) = "deleted"
  /\ VPNGatewayModule.attach_status (self_after r) = "detached".
Proof.
  intros s r.
  pose proof (vpn_gw_ensure_gone_detaches_first s Scenario.account_vgw
                Scenario.vgw_1 eq_refl eq_refl eq_refl) as Hrun.
  cbv zeta in Hrun.
  assert (respond (detach_vpn_gateway (VPNGatewayModule.id s)
                     (VPNGatewayModule.vpc s)) Scenario.account_vgw
          = (Ret true, Scenario.account_vgw)) as Hdetach
    by (vm_compute; reflexivity).
  rewrite Hdetach in Hrun. destruct Hrun as (Hcalls & Hrest).
  assert (respond (delete_vpn_gateway (VPNGatewayModule.id s))
            Scenario.account_vgw
          = (Ret true, Account.empty)) as Hdelete
    by (vm_compute; reflexivity).
  rewrite Hdelete in Hrest. destruct Hrest as (_ & _ & Hself).
  split; [exact Hcalls|]. subst r. by rewrite Hself.
Defined.

(** ** The exceptions a run can end with *)

Section Throws.
Context {W : Type} `{!Backend W} {S : Type}.
Implicit Types (E : Exn -> Prop).
Local Abbreviation throws := (@throws W S _).

Lemma throws_ret E {A} (a : A) : throws E (ret a).
Proof. by intros s w e. Qed.

Lemma throws_raise E {A} e : E e -> throws E (raise (A:=A) e).
Proof. intros He s w e' [= <-]. exact He. Qed.

Lemma throws_fail_json E {A} msg :
  E (ModuleFailure msg) -> throws E (fail_json (A:=A) msg).
Proof. apply throws_raise. Qed.

Lemma throws_get_self E : throws E get_self.
Proof. by intros s w e. Qed.

Lemma throws_modify E f : throws E (modify f).
Proof. by intros s w e. Qed.

Lemma throws_call E c : E EC2ResponseError -> throws E (call c).
Proof.
  intros He s w e. unfold call.
  destruct (respond c w) as [[a|] w']; simpl; [done|].
  by intros [= <-].
Qed.

Lemma throws_bind E {A B} (m : M W S A) (k : A -> M W S B) :
  throws E m -> (forall a, throws E (k a)) -> throws E (bind m k).
Proof.
  intros Hm Hk s w e. unfold bind.
  destruct (outcome (m s w)) as [a|e'] eqn:Hout; simpl.
  - apply Hk.
  - intros [= <-]. by apply (Hm s w).
Qed.

(** A bare [except] lets nothing of the body through. *)
Lemma throws_try_except E {A} (body handler : M W S A) :
  throws E handler -> throws E (try_except body handler).
Proof.
  intros Hh s w e. unfold try_except.
  destruct (outcome (body s w)) as [a|e'] eqn:Hout; simpl.
  - by rewrite Hout.
  - apply Hh.
Qed.

Lemma throws_aws_connection E :
  (forall msg, E (ModuleFailure msg)) -> throws E _get_aws_connection.
Proof.
  intros He s w e. unfold _get_aws_connection.
  destruct (connect_to_aws w) as [msg|]; [|done].
  intros [= <-]. apply He.
Qed.

Lemma throws_found_by_tags E {R} (rid : R -> string) tags rs found :
  E EC2ResponseError -> throws E (found_by_tags rid tags rs found).
Proof.
  intros He. revert found. induction rs as [|r rs IH]; intros found; simpl.
  - apply throws_ret.
  - apply throws_bind; [by apply (throws_call E (get_all_tags _))|].
    intros ts. destruct (_ && _); apply IH.
Qed.

Lemma throws_set_tags_of E resource tags :
  E EC2ResponseError -> throws E (set_tags_of resource tags).
Proof.
  intros He. unfold set_tags_of.
  apply throws_bind; [by apply (throws_call E (get_all_tags _))|]. intros ts.
  apply throws_bind.
  - destruct (truthy_dict _); [|apply throws_ret].
    apply throws_bind; [by apply (throws_call E (create_tags _ _))|].
    intros; apply throws_ret.
  - intros _. apply throws_bind; [by apply (throws_call E (get_all_tags _))|].
    intros; apply throws_ret.
Qed.
End Throws.

(** Decompose a goal [throws E m] along the structure of [m]; the list a
    tag search found is split by its length, as the code does. *)
Ltac escape :=
  repeat match goal with
  | |- forall _, _ => intro
  | |- throws _ (bind _ _) => apply throws_bind
  | |- throws _ (try_except _ _) => apply throws_try_except
  | |- throws _ (ret _) => apply throws_ret
  | |- throws _ (fail_json _) => apply throws_fail_json
  | |- throws _ get_self => apply throws_get_self
  | |- throws _ (modify _) => apply throws_modify
  | |- throws _ _get_aws_connection => apply throws_aws_connection
  | |- throws ?E (call ?c) => apply (throws_call E c)
  | |- throws _ (index0 (_ :: _)) => apply throws_ret
  | |- throws _ (found_by_tags _ _ _ _) => apply throws_found_by_tags
  | |- throws _ (set_tags_of _ _) => apply throws_set_tags_of
  | |- throws _ (if Nat.eqb (length ?l) 1 then _ else _) =>
      destruct l as [|? [|? ?]]; simpl
  | |- throws _ (if ?b then _ else _) => destruct b
  | |- throws _ (match ?x with _ => _ end) => destruct x
  end.

Section RunFailures.
Context {W : Type} `{!Backend W}.

Lemma remote_failure : remote_or_module_failure EC2ResponseError.
Proof. by left. Qed.

Lemma module_failure msg : remote_or_module_failure (ModuleFailure msg).
Proof. right. by exists msg. Qed.

(** The constructors: the one-element list is the only one indexed. *)
Lemma lookup_throws k :
  throws (W:=W) remote_or_module_failure (lookup k).
Proof.
  destruct k; pick_kind.
  - unfold CustomerGatewayModule.__init__,
      CustomerGatewayModule._get_customer_gateway.
    escape; first [apply remote_failure | apply module_failure].
  - unfold VPNGatewayModule.__init__, VPNGatewayModule._get_vpn_gateway.
    escape; first [apply remote_failure | apply module_failure].
  - unfold VPNConnectionModule.__init__,
      VPNConnectionModule._get_vpn_connection.
    escape; first [apply remote_failure | apply module_failure].
Qed.

Lemma enable_each_throws routes results :
  throws (W:=W) remote_or_module_failure
         (VPNGatewayModule.enable_each routes results).
Proof.
  revert results. induction routes as [|route rest IH]; intros results; simpl.
  - apply throws_ret.
  - escape; first [apply remote_failure | apply IH].
Qed.

Lemma disable_each_throws routes results :
  throws (W:=W) remote_or_module_failure
         (VPNGatewayModule.disable_each routes results).
Proof.
  revert results. induction routes as [|route rest IH]; intros results; simpl.
  - apply throws_ret.
  - escape; first [apply remote_failure | apply IH].
Qed.

Lemma vpn_gw_ensure_ok_throws :
  throws (W:=W) remote_or_module_failure VPNGatewayModule.ensure_ok.
Proof.
  unfold VPNGatewayModule.ensure_ok, VPNGatewayModule._create_vpn_gw,
    VPNGatewayModule._set_tags, VPNGatewayModule._attach_vpn_gw.
  escape; apply remote_failure.
Qed.

Lemma vpn_gw_ensure_gone_throws :
  throws (W:=W) remote_or_module_failure VPNGatewayModule.ensure_gone.
Proof.
  unfold VPNGatewayModule.ensure_gone, VPNGatewayModule._detach_vpn_gw,
    VPNGatewayModule._delete_vpn_gw.
  escape; apply remote_failure.
Qed.

(** [main] enters the route propagation branch only with a list of route
    tables: the loop over [None] is never run. *)
Lemma dispatch_throws state :
  throws (W:=W) remote_or_module_failure (VPNGatewayModule.dispatch state).
Proof.
  intros s w e. unfold VPNGatewayModule.dispatch. read_self.
  destruct (VPNGatewayModule.route_table_ids s) as [routes|] eqn:Hroutes.
  - destruct (_ && _).
    + destruct state.
      * unfold VPNGatewayModule._enable_route_propagation. read_self.
        rewrite Hroutes.
        apply (throws_bind remote_or_module_failure
                 (VPNGatewayModule.enable_each routes []) _
                 (enable_each_throws routes [])).
        intros [|b bs]; [apply throws_ret | apply throws_modify].
      * unfold VPNGatewayModule._disable_route_propagation. read_self.
        rewrite Hroutes.
        apply (throws_bind remote_or_module_failure
                 (VPNGatewayModule.disable_each routes []) _
                 (disable_each_throws routes [])).
        intros [|b bs]; [apply throws_ret | apply throws_modify].
    + destruct state;
        [apply vpn_gw_ensure_ok_throws | apply vpn_gw_ensure_gone_throws].
  - simpl. destruct state;
      [apply vpn_gw_ensure_ok_throws | apply vpn_gw_ensure_gone_throws].
Qed.

Lemma act_throws k state :
  throws (W:=W) remote_or_module_failure (act k state).
Proof.
  destruct k; simpl.
  - destruct state.
    + unfold CustomerGatewayModule.ensure_ok,
        CustomerGatewayModule._create_cgw, CustomerGatewayModule._set_tags.
      escape; apply remote_failure.
    + unfold CustomerGatewayModule.ensure_gone,
        CustomerGatewayModule._delete_cgw.
      escape; apply remote_failure.
  - apply dispatch_throws.
  - destruct state.
    + unfold VPNConnectionModule.ensure_ok,
        VPNConnectionModule._create_vpn_conn, VPNConnectionModule._set_tags.
      escape; apply remote_failure.
    + unfold VPNConnectionModule.ensure_gone,
        VPNConnectionModule._delete_vpn_conn.
      escape; apply remote_failure.
Qed.

(** The report of the customer gateway manager raises nothing but the
    [UnboundLocalError], and that only without an IP address. *)
Lemma cgw_get_info_throws (s : CustomerGatewayModule.Manager) (w : W) e :
  outcome (CustomerGatewayModule.get_info s w) = Raise e ->
  e = UnboundLocalError "check_aws"
  /\ truthy (CustomerGatewayModule.ip_address s) = false.
Proof.
  unfold CustomerGatewayModule.get_info. read_self.
  destruct (truthy (CustomerGatewayModule.id s));
    [|destruct (truthy (CustomerGatewayModule.ip_address s))];
    unfold bind, try_except, call, index0, ret, raise; simpl;
    try (destruct (respond _ w) as [[[|c l]|] w1]; simpl);
    try done.
  by intros [= <-].
Qed.

(** Neither the constructor nor the step for the desired state assigns to
    [self.ip_address]. *)
Lemma cgw_keeps_ip_address state ip :
  keeps (W:=W) (fun s => CustomerGatewayModule.ip_address s = ip)
        (bind (lookup customer_gateway)
              (fun _ => act customer_gateway state)).
Proof.
  simpl. unfold CustomerGatewayModule.__init__,
    CustomerGatewayModule._get_customer_gateway.
  destruct state;
    unfold CustomerGatewayModule.ensure_ok, CustomerGatewayModule.ensure_gone,
      CustomerGatewayModule._create_cgw, CustomerGatewayModule._delete_cgw,
      CustomerGatewayModule._set_tags;
    bound;
    by match goal with s : CustomerGatewayModule.Manager |- _ => destruct s end.
Qed.

(** The exceptions of a run whose input checks have passed. *)
Lemma module_body_throws k state (s : Manager k) (w : W) e :
  outcome (module_body k state s w) = Raise e ->
  remote_or_module_failure e
  \/ exists s1 w1,
       s1 = self_after (bind (lookup k) (fun _ => act k state) s w)
       /\ outcome (get_info k s1 w1) = Raise e.
Proof.
  unfold module_body. unfold bind at 1.
  destruct (outcome (lookup k s w)) as [[]|e0] eqn:Hlook; simpl.
  - unfold bind at 1.
    destruct (outcome (act k state _ _)) as [[]|e1] eqn:Hact; simpl.
    + read_self. unfold bind at 1.
      destruct (outcome (get_info k _ _)) as [info|e2] eqn:Hinfo; simpl;
        [done|].
      intros [= <-]. right. eexists _, _. split; [|exact Hinfo].
      unfold bind. by rewrite Hlook.
    + intros [= <-]. left. by apply (act_throws k state _ _ _ Hact).
  - intros [= <-]. left. by apply (lookup_throws k s w).
Qed.
End RunFailures.

(** The exceptions of a run in this model of the calls, where a remote
    call raises [EC2ResponseError] and nothing else and the tags map
    strings to strings. *)
Lemma run_failures :
  forall {W : Type} `{!Backend W} (k : Kind) (p : Params k) (w : W) e,
    outcome (run k p w) = Raise e ->
    remote_or_module_failure e
    \/ (e = UnboundLocalError "check_aws" /\ no_address_to_report k p).
Proof.
  intros W B k p w e Hrun.
  destruct (required_inputs k p) eqn:Hreq.
  - rewrite (run_body k p w Hreq) in Hrun.
    destruct (module_body_throws k _ _ _ _ Hrun) as [He|(s1 & w1 & Hs1 & Hinfo)];
      [by left|].
    destruct k.
    + apply cgw_get_info_throws in Hinfo as [-> Hip]. right. split; [done|].
      pose proof (cgw_keeps_ip_address (state_of customer_gateway p)
                    (CustomerGatewayModule.p_ip_address p)
                    (fresh customer_gateway p) w eq_refl) as Hkept.
      rewrite <- Hs1 in Hkept. rewrite Hkept in Hip.
      pick_kind. apply andb_true_iff in Hreq as [_ Hreq].
      unfold no_address_to_report.
      destruct (CustomerGatewayModule.p_state p); [congruence | done].
    + destruct (vpn_gw_get_info_returns s1 w1) as [info Hret].
      pick_kind. congruence.
    + destruct (vpn_conn_get_info_returns s1 w1) as [info Hret].
      pick_kind. congruence.
  - left. destruct k; pick_kind.
    + unfold CustomerGatewayModule.run, CustomerGatewayModule.main in Hrun.
      destruct (truthy (CustomerGatewayModule.p_region p)); simpl in Hrun, Hreq;
        [|injection Hrun as <-; apply module_failure].
      destruct (CustomerGatewayModule.p_state p); [|done].
      rewrite Hreq in Hrun. simpl in Hrun.
      injection Hrun as <-. apply module_failure.
    + unfold VPNGatewayModule.run, VPNGatewayModule.main in Hrun.
      rewrite Hreq in Hrun. injection Hrun as <-. apply module_failure.
    + unfold VPNConnectionModule.run, VPNConnectionModule.main in Hrun.
      rewrite Hreq in Hrun. injection Hrun as <-. apply module_failure.
Qed.

(** X17.  Two exceptions of the managers' own code.  For each of the three
    modules: no run of [main] ends with an [IndexError], for the only list
    indexed outside a [try] is the list of tag matches, indexed when its
    length is one, and [get_info] indexes inside its bare [try]; and a run
    ends with an [UnboundLocalError] only for the variable [check_aws] of
    the customer gateway report, and only when the module was run with
    [state: absent] and without an IP address. *)
Theorem run_index_and_unbound_errors :
  forall {W : Type} `{!Backend W} (k : Kind) (p : Params k) (w : W) e,
    outcome (run k p w) = Raise e ->
    e <> IndexError
    /\ forall var,
         e = UnboundLocalError var ->
         var = "check_aws" /\ no_address_to_report k p.
Proof.
  intros W B k p w e Hrun.
  destruct (run_failures k p w e Hrun) as [[->|[msg ->]]|[-> Hp]];
    (split; [done|]); intros var [= <-]. by split.
Qed.

(** The customer gateway module run with [state: absent] and tags only, no
    gateway in the account: the run ends with the [UnboundLocalError], and
    the parameters are of the kind the theorem names. *)
Lemma run_index_and_unbound_errors_witness :
  outcome (run customer_gateway Scenario.cgw_absent_by_tags Account.empty)
  = Raise (UnboundLocalError "check_aws")
  /\ no_address_to_report customer_gateway Scenario.cgw_absent_by_tags.
Proof.
  assert (outcome (run customer_gateway Scenario.cgw_absent_by_tags
                     Account.empty)
          = Raise (UnboundLocalError "check_aws")) as Hrun
    by (vm_compute; reflexivity).
  split; [exact Hrun|].
  exact (proj2 (proj2 (run_index_and_unbound_errors customer_gateway
                         Scenario.cgw_absent_by_tags Account.empty _ Hrun)
                  "check_aws" eq_refl)).
Defined.

(** ** [find_vpc] *)

Section FindVpc.
Context {W : Type} `{!Backend W} `{!VpcFacts.VpcConnection W}.

(** Without desired tags the tag search appends nothing. *)
Lemma found_by_tags_falsy {S R} (rid : R -> string) tags (rs : list R) :
  truthy_dict tags = false ->
  forall found (s : S) (w : W),
    outcome (found_by_tags rid tags rs found s w) = Return found
    \/ outcome (found_by_tags rid tags rs found s w) = Raise EC2ResponseError.
Proof.
  intros Htags. induction rs as [|r rs IH]; intros found s w; simpl.
  - by left.
  - unfold bind, call. rewrite Htags. simpl.
    destruct (respond _ w) as [[ts|] w1]; simpl; [apply IH | by right].
Qed.
End FindVpc.

(** X18.  [find_vpc] with a VPC id.  The id decides alone: one listing of
    the VPCs with that id, no tag is asked for, and the CIDR block and the
    resource tags given beside it play no part.  A listing of one VPC
    gives that VPC, an empty one gives [None], a longer one the "more than
    one" failure, and a listing that raises ends the function. *)
Theorem find_vpc_by_id_alone :
  forall {W : Type} `{!Backend W} `{!VpcFacts.VpcConnection W}
         (i : string) cidr resource_tags (w : W),
    let listing := VpcFacts.get_all_vpcs
                     [("vpc-id", Some i); ("state", Some "available")] w in
    let r := VpcFacts.find_vpc (Some i) cidr resource_tags tt w in
    issued r = []
    /\ world_after r = listing.2
    /\ outcome r = match listing.1 with
                   | Ret [] => Return None
                   | Ret [v] => Return (Some v)
                   | Ret (_ :: _ :: _) =>
                       Raise (ModuleFailure VpcFacts.more_than_one_vpc)
                   | Err => Raise EC2ResponseError
                   end.
Proof.
  intros W B V i cidr resource_tags w listing r. subst listing r.
  unfold VpcFacts.find_vpc, bind, VpcFacts.all_vpcs, after. simpl.
  destruct (VpcFacts.get_all_vpcs _ w) as [[[|v [|v' l]]|] w1]; simpl; done.
Qed.

(** X19.  [find_vpc] with a CIDR block and resource tags.  Without a VPC
    id and with a non-empty mapping of resource tags: the VPCs with that
    CIDR block are listed, the tags of each are asked for once, in listing
    order, and the VPCs whose tags contain every given pair are the ones
    found.  None gives [None], exactly one gives that VPC, more than one
    the "more than one" failure. *)
Theorem find_vpc_by_cidr_and_tags :
  forall {W : Type} `{!Backend W} `{!VpcFacts.VpcConnection W}
         cidr (tags : gmap string string) (w : W) l w1 ds w2,
    tags <> ∅ ->
    VpcFacts.get_all_vpcs [("cidr", Some cidr); ("state", Some "available")] w
    = (Ret l, w1) ->
    remote_tags (map VpcFacts.vpc_id l) w1 = Some (ds, w2) ->
    let r := VpcFacts.find_vpc None (Some cidr) (Some tags) tt w in
    issued r = map (fun v => get_all_tags (Some (VpcFacts.vpc_id v))) l
    /\ world_after r = w2
    /\ outcome r = match picked tags l ds with
                   | [] => Return None
                   | [v] => Return (Some v)
                   | _ :: _ :: _ =>
                       Raise (ModuleFailure VpcFacts.more_than_one_vpc)
                   end.
Proof.
  intros W B V cidr tags w l w1 ds w2 Htags Hlist Hremote r. subst r.
  apply truthy_dict_true in Htags.
  unfold VpcFacts.find_vpc, bind, VpcFacts.all_vpcs, after. simpl.
  rewrite Hlist. simpl.
  rewrite (found_by_tags_picked VpcFacts.vpc_id tags l [] tt w1 ds w2
             Htags Hremote). simpl.
  destruct (picked tags l ds) as [|v [|v' rest]]; simpl;
    by rewrite ?app_nil_r.
Qed.

(** The VPC with the given block carries the given tag: it is found. *)
Lemma find_vpc_by_cidr_and_tags_witness :
  outcome (VpcFacts.find_vpc None (Some "10.0.0.0/16")
             (Some VpcFacts.prod_tag) tt VpcFacts.cloud_one_vpc)
  = Return (Some VpcFacts.vpc_1).
Proof.
  assert (VpcFacts.prod_tag <> ∅) as Htags
    by (apply truthy_dict_true; vm_compute; reflexivity).
  assert (remote_tags (map VpcFacts.vpc_id [VpcFacts.vpc_1])
            VpcFacts.cloud_one_vpc
          = Some ([VpcFacts.prod_tag], VpcFacts.cloud_one_vpc)) as Hremote
    by (vm_compute; reflexivity).
  pose proof (find_vpc_by_cidr_and_tags "10.0.0.0/16" VpcFacts.prod_tag
                VpcFacts.cloud_one_vpc [VpcFacts.vpc_1]
                VpcFacts.cloud_one_vpc [VpcFacts.prod_tag]
                VpcFacts.cloud_one_vpc Htags eq_refl Hremote)
    as (_ & _ & Hout).
  cbv zeta in Hout. rewrite Hout. vm_compute. reflexivity.
Defined.

(** X20.  [find_vpc] without a VPC id and without resource tags finds
    nothing.  When the resource tags are missing or empty, no VPC is ever
    returned, however many VPCs have the given CIDR block, nor is the
    "more than one" failure raised: the function returns [None], or ends
    with the error of a remote call, or, when no CIDR block is given
    either, fails for want of a criterion before any call and with the
    remote world untouched. *)
Theorem find_vpc_without_tags_finds_nothing :
  forall {W : Type} `{!Backend W} `{!VpcFacts.VpcConnection W}
         cidr resource_tags (w : W),
    truthy_dict (default ∅ resource_tags) = false ->
    let r := VpcFacts.find_vpc None cidr resource_tags tt w in
    match cidr with
    | Some _ =>
        outcome r = Return None \/ outcome r = Raise EC2ResponseError
    | None =>
        outcome r = Raise (ModuleFailure VpcFacts.need_criteria)
        /\ issued r = [] /\ world_after r = w
    end.
Proof.
  intros W B V cidr resource_tags w Htags r. subst r.
  destruct cidr as [c|]; [|done].
  unfold VpcFacts.find_vpc, bind, VpcFacts.all_vpcs, after. simpl.
  destruct (VpcFacts.get_all_vpcs _ w) as [[l|] w1]; simpl; [|by right].
  destruct (found_by_tags_falsy VpcFacts.vpc_id _ l Htags [] tt w1)
    as [Hout|Hout]; rewrite Hout; simpl; [by left | by right].
Qed.

(** The VPC with the given block exists and is tagged; asked for without
    resource tags, it is not found. *)
Lemma find_vpc_without_tags_finds_nothing_witness :
  outcome (VpcFacts.find_vpc None (Some "10.0.0.0/16") None tt
             VpcFacts.cloud_one_vpc)
  = Return None.
Proof.
  assert (truthy_dict (default ∅ (@None (gmap string string))) = false)
    as Htags by (vm_compute; reflexivity).
  destruct (find_vpc_without_tags_finds_nothing (Some "10.0.0.0/16") None
              VpcFacts.cloud_one_vpc Htags) as [Hout|Hout].
  - exact Hout.
  - exfalso. revert Hout. vm_compute. discriminate.
Defined.

(** ** [ensure_ok] after a lookup that found the resource *)

Section EnsureOkTags.
Context {W : Type} `{!Backend W}.

(** The batch call comes second, right after the listing. *)
Lemma set_tags_of_batch_second {S} resource tags (s : S) (w : W) ts w1 :
  respond (get_all_tags resource) w = (Ret ts, w1) ->
  truthy_dict (dictadd_of tags (tags_to_dict ts)) = true ->
  exists more,
    issued (set_tags_of resource tags s w)
    = get_all_tags resource
      :: create_tags resource (dictadd_of tags (tags_to_dict ts)) :: more.
Proof.
  intros Hget Hadd. unfold set_tags_of, bind, call; simpl.
  rewrite Hget; simpl. rewrite Hadd; simpl.
  destruct (respond (create_tags _ _) w1) as [[b|] w2]; simpl; eauto.
Qed.

(** With a resource found, the calls of [ensure_ok] are those of the tag
    reconciliation, followed for the VPN gateway by the attach call if
    there is one. *)
Lemma ensure_ok_found_calls k (s : Manager k) (w : W) i :
  found_of k s = Some i ->
  exists rest,
    issued (ensure_ok k s w)
    = issued (set_tags_of (id_of k s) (tags_of k s) s w) ++ rest
    /\ Forall (fun c => is_attach c = true) rest.
Proof.
  intros Hfound. rewrite (ensure_ok_found k s w i Hfound).
  destruct k; try (exists []; rewrite set_tags_unfold, app_nil_r; by split).
  pick_kind. unfold vpn_gw_tags_then_attach.
  pose proof (set_tags_of_self (VPNGatewayModule.id s)
                (VPNGatewayModule.tags s) s w) as Hself.
  destruct (outcome (VPNGatewayModule._set_tags s w)) as [[]|e] eqn:Hout.
  - rewrite (bind_return VPNGatewayModule._set_tags _ s w _ Hout).
    change (VPNGatewayModule._set_tags s w)
      with (set_tags_of (VPNGatewayModule.id s) (VPNGatewayModule.tags s) s w).
    read_self. rewrite !Hself. unfold after. simpl.
    destruct (truthy _ && truthy _).
    + unfold VPNGatewayModule._attach_vpn_gw. read_self.
      unfold bind, call, modify, after. simpl.
      destruct (respond (attach_vpn_gateway _ _) _) as [[[|]|] w2]; simpl;
        eexists; (split; [reflexivity|]); by repeat constructor.
    + exists []. by split.
  - rewrite (bind_raise VPNGatewayModule._set_tags _ s w _ Hout).
    exists []. simpl. rewrite app_nil_r. by split.
Qed.

Lemma attach_is_no_tag_call (P : Call -> bool) rest :
  (forall c, is_attach c = true -> P c = false) ->
  Forall (fun c => is_attach c = true) rest ->
  List.filter P rest = [].
Proof.
  intros HP Hrest. apply filter_none.
  eapply Forall_impl; [exact Hrest | exact HP].
Qed.
End EnsureOkTags.

(** C2.  For every resource kind: when the lookup of the constructor has
    returned with a resource found, [self.id] is the id of that resource,
    and [ensure_ok] issues no create call and reconciles the tags of that
    resource.  Its first call is the listing of the tags of the found id;
    every call it issues is a tag listing or a tag-creation call for that
    id, or the attach call of the VPN gateway; it issues no tag-removal
    call.  Once the first listing has answered, its tag-creation calls
    are: none if the listing holds every desired pair, otherwise exactly
    one, issued second, for the found id and carrying exactly the desired
    pairs the listing lacks. *)
Theorem ensure_ok_found_reconciles_tags :
  forall {W : Type} `{!Backend W} (k : Kind) (s0 : Manager k) (w0 w : W) i,
    outcome (lookup k s0 w0) = Return tt ->
    found_of k (self_after (lookup k s0 w0)) = Some i ->
    let s := self_after (lookup k s0 w0) in
    let r := ensure_ok k s w in
    id_of k s = Some i
    /\ count is_create (issued r) = 0
    /\ count is_delete_tags (issued r) = 0
    /\ head (issued r) = Some (get_all_tags (Some i))
    /\ Forall (fun c => tag_call (Some i) c \/ is_attach c = true) (issued r)
    /\ forall ts w1,
         respond (get_all_tags (Some i)) w = (Ret ts, w1) ->
         let dictadd := dictadd_of (tags_of k s) (tags_to_dict ts) in
         List.filter is_create_tags (issued r)
         = (if truthy_dict dictadd
            then [create_tags (Some i) dictadd] else [])
         /\ (dictadd <> ∅ ->
             exists more,
               issued r = get_all_tags (Some i)
                          :: create_tags (Some i) dictadd :: more)
         /\ (forall key value,
               dictadd !! key = Some value
               <-> tags_of k s !! key = Some value
                   /\ tags_to_dict ts !! key <> Some value).
Proof.
  intros W B k s0 w0 w i Hret Hfound s r. subst r.
  pose proof (lookup_adopts_id k s0 w0 i Hret Hfound) as Hid.
  fold s in Hid, Hfound.
  destruct (ensure_ok_found_calls k s w i Hfound) as (rest & Hcalls & Hrest).
  rewrite Hid in Hcalls. rewrite Hcalls.
  pose proof (emits_set_tags_of (Some i) (tags_of k s) s w) as Htags.
  split; [exact Hid|]. split; [|split; [|split; [|split]]].
  - apply count_none, Forall_app. split.
    + eapply Forall_impl; [exact Htags|]. by intros c [->|[d ->]].
    + eapply Forall_impl; [exact Hrest|]. by intros [].
  - apply count_none, Forall_app. split.
    + eapply Forall_impl; [exact Htags|]. by intros c [->|[d ->]].
    + eapply Forall_impl; [exact Hrest|]. by intros [].
  - destruct (set_tags_of_first (Some i) (tags_of k s) s w) as [more ->].
    done.
  - apply Forall_app. split.
    + eapply Forall_impl; [exact Htags|]. by left.
    + eapply Forall_impl; [exact Hrest|]. by right.
  - intros ts w1 Hget dictadd. subst dictadd.
    split; [|split].
    + rewrite List.filter_app.
      rewrite (set_tags_of_create_tags _ (tags_of k s) s w ts w1 Hget).
      rewrite (attach_is_no_tag_call is_create_tags rest); [|by intros []|done].
      by rewrite app_nil_r.
    + intros Hadd. apply truthy_dict_true in Hadd.
      destruct (set_tags_of_batch_second _ (tags_of k s) s w ts w1 Hget Hadd)
        as [more ->].
      by exists (more ++ rest).
    + apply dictadd_of_lookup.
Qed.

(** The customer gateway [cgw-1], found by id on an account where it
    carries no tag: [self.id] is [cgw-1], no create call is issued, and
    the desired tag is written to [cgw-1] right after the listing. *)
Lemma ensure_ok_found_reconciles_tags_witness :
  let s := self_after (lookup customer_gateway
                         (fresh customer_gateway Scenario.cgw_present_by_id)
                         Scenario.account_cgw) in
  let r := ensure_ok customer_gateway s Scenario.account_cgw in
  id_of customer_gateway s = Some "cgw-1"
  /\ count is_create (issued r) = 0
  /\ List.filter is_create_tags (issued r)
     = [create_tags (Some "cgw-1") Scenario.name_tag]
  /\ exists more,
       issued r = get_all_tags (Some "cgw-1")
                  :: create_tags (Some "cgw-1") Scenario.name_tag :: more.
Proof.
  intros s r.
  assert (outcome (lookup customer_gateway
                     (fresh customer_gateway Scenario.cgw_present_by_id)
                     Scenario.account_cgw) = Return tt) as Hret
    by (vm_compute; reflexivity).
  assert (found_of customer_gateway s = Some "cgw-1") as Hfound
    by (vm_compute; reflexivity).
  pose proof (ensure_ok_found_reconciles_tags customer_gateway
                (fresh customer_gateway Scenario.cgw_present_by_id)
                Scenario.account_cgw Scenario.account_cgw "cgw-1"
                Hret Hfound) as Hrun.
  cbv zeta in Hrun. fold s in Hrun. fold r in Hrun.
  destruct Hrun as (Hid & Hcreate & _ & _ & _ & Htags).
  assert (respond (get_all_tags (Some "cgw-1")) Scenario.account_cgw
          = (Ret [], Scenario.account_cgw)) as Hget
    by (vm_compute; reflexivity).
  destruct (Htags [] Scenario.account_cgw Hget) as (Hbatch & Hsecond & _).
  assert (dictadd_of (tags_of customer_gateway s) (tags_to_dict [])
          = Scenario.name_tag) as Hadd by (vm_compute; reflexivity).
  rewrite Hadd in Hbatch, Hsecond.
  assert (Scenario.name_tag <> ∅) as Hne
    by (apply truthy_dict_true; vm_compute; reflexivity).
  apply truthy_dict_true in Hne as Htruthy. rewrite Htruthy in Hbatch.
  split; [exact Hid|]. split; [exact Hcreate|]. split; [exact Hbatch|].
  exact (Hsecond Hne).
Defined.
